(** * spacefx.security.validation: input validation of the Space SDK client

    A shallow embedding of [src/spacefx/security/validation.py] and the
    properties of it that the specification states.

    Conventions of the embedding.
    - A Python [str] is the list of its code points ([pystr]); [len] is the
      length of that list.
    - Every public function takes Python values ([pyval]), since its first
      statement is an [isinstance] test, and returns a [result]: a value, or
      the exception it raises.
    - What the functions obtain from the interpreter and the operating system
      (the environment, the password database, the working directory, the
      Unicode case tables, percent-decoding) is a [runtime] record.
    - The platform is POSIX: [os.sep] is [/], [os.altsep] is [None] and
      [os.path] is [posixpath]. *)

From Stdlib Require Import List NArith ZArith Bool String Ascii Lia.
Import ListNotations.

Local Open Scope N_scope.

(** ** Strings *)

Definition char := N.
Definition pystr := list char.

(** The code points of a literal written in ASCII. *)
Definition py (s : string) : pystr :=
  List.map N_of_ascii (list_ascii_of_string s).

Definition NUL : char := 0.
Definition TAB : char := 9.
Definition LF : char := 10.
Definition CR : char := 13.
Definition SQUOTE : char := 39.
Definition DQUOTE : char := 34.
Definition BACKSLASH : char := 92.
Definition SLASH : char := 47.
Definition DOT : char := 46.
Definition TILDE : char := 126.
Definition PERCENT : char := 37.

Definition len (s : pystr) : N := N.of_nat (List.length s).

Fixpoint str_eqb (a b : pystr) : bool :=
  match a, b with
  | [], [] => true
  | x :: a', y :: b' => (x =? y) && str_eqb a' b'
  | _, _ => false
  end.

(** [c in s] for a one-character [c]. *)
Definition char_in (c : char) (s : pystr) : bool :=
  existsb (N.eqb c) s.

(** [s.startswith(p)] *)
Fixpoint startswith (p s : pystr) : bool :=
  match p, s with
  | [], _ => true
  | x :: p', y :: s' => (x =? y) && startswith p' s'
  | _ :: _, [] => false
  end.

(** [s.endswith(p)] *)
Definition endswith (p s : pystr) : bool :=
  startswith (rev p) (rev s).

(** [p in s]: [p] occurs in [s] as a contiguous run. *)
Fixpoint str_contains (p s : pystr) : bool :=
  startswith p s ||
  match s with
  | [] => false
  | _ :: s' => str_contains p s'
  end.

(** [x in names] for a collection of strings. *)
Definition str_in (x : pystr) (names : list pystr) : bool :=
  existsb (str_eqb x) names.

(** [str.isspace]: the code points CPython's [_PyUnicode_IsWhitespace] accepts. *)
Definition char_isspace (c : char) : bool :=
  ((9 <=? c) && (c <=? 13)) || ((28 <=? c) && (c <=? 32)) ||
  (c =? 133) || (c =? 160) || (c =? 5760) ||
  ((8192 <=? c) && (c <=? 8202)) ||
  (c =? 8232) || (c =? 8233) || (c =? 8239) || (c =? 8287) || (c =? 12288).

Definition isspace (s : pystr) : bool :=
  match s with
  | [] => false
  | _ => forallb char_isspace s
  end.

(** Truth value of a string: [not s] holds of the empty string only. *)
Definition is_empty {A} (s : list A) : bool :=
  match s with [] => true | _ => false end.

Definition is_ascii (c : char) : bool := c <? 128.

Definition ascii_lower (c : char) : char :=
  if (65 <=? c) && (c <=? 90) then c + 32 else c.

Definition ascii_upper (c : char) : char :=
  if (97 <=? c) && (c <=? 122) then c - 32 else c.

Definition ascii_isalnum (c : char) : bool :=
  ((48 <=? c) && (c <=? 57)) || ((65 <=? c) && (c <=? 90)) ||
  ((97 <=? c) && (c <=? 122)).

(** ** Values, exceptions, results *)

Inductive pyval :=
| PStr (s : pystr)
| PNone
| PBool (b : bool)
| PInt (z : Z)
| PBytes (b : list N).

(** [type(v).__name__] *)
Definition type_name (v : pyval) : pystr :=
  match v with
  | PStr _ => py "str"
  | PNone => py "NoneType"
  | PBool _ => py "bool"
  | PInt _ => py "int"
  | PBytes _ => py "bytes"
  end.

Inductive exn :=
| TypeError (msg : pystr)
| ValueError
| OSError
| KeyError.

Inductive result (A : Type) :=
| Return (a : A)
| Raise (e : exn).

Arguments Return {A} a.
Arguments Raise {A} e.

Definition bind {A B} (m : result A) (k : A -> result B) : result B :=
  match m with
  | Return a => k a
  | Raise e => Raise e
  end.

Notation "x <- m ;; k" := (bind m (fun x => k))
  (at level 61, m at next level, right associativity).

(** The guard every public function opens with:
    [if not isinstance(v, str): raise TypeError(f"{name} must be a string, got {type(v).__name__}")]. *)
Definition require_str (name : string) (v : pyval) : result pystr :=
  match v with
  | PStr s => Return s
  | _ => Raise (TypeError (py name ++ py " must be a string, got " ++ type_name v))
  end.

(** What the interpreter and the operating system supply. *)
Record runtime := {
  (** [os.environ.get('HOME')] *)
  environ_HOME : option pystr;
  (** [pwd.getpwuid(os.getuid()).pw_dir]; [KeyError] when the user is unknown *)
  pwd_getpwuid_dir : result pystr;
  (** [pwd.getpwnam(name).pw_dir] *)
  pwd_getpwnam_dir : pystr -> result pystr;
  (** [os.getcwd()] *)
  os_getcwd : result pystr;
  (** [str.lower] and [str.upper] on a string with a code point above 127 *)
  unicode_lower : pystr -> pystr;
  unicode_upper : pystr -> pystr;
  (** [str.isalnum] of a code point above 127 *)
  unicode_isalnum : char -> bool;
  (** [urllib.parse.unquote] on a string that holds a percent sign *)
  unquote_percent : pystr -> result pystr
}.

Definition lower (rt : runtime) (s : pystr) : pystr :=
  if forallb is_ascii s then List.map ascii_lower s else unicode_lower rt s.

Definition upper (rt : runtime) (s : pystr) : pystr :=
  if forallb is_ascii s then List.map ascii_upper s else unicode_upper rt s.

Definition isalnum (rt : runtime) (s : pystr) : bool :=
  match s with
  | [] => false
  | _ => forallb (fun c => if is_ascii c then ascii_isalnum c else unicode_isalnum rt c) s
  end.

(** [urllib.parse.unquote]: a string with no percent sign is returned as it is. *)
Definition unquote (rt : runtime) (s : pystr) : result pystr :=
  if negb (char_in PERCENT s) then Return s else unquote_percent rt s.

(** ** Regular expressions

    The patterns of the module use character classes, concatenation,
    alternation, [*], [+], [?] and a counted repetition; none has a group
    reference or a look-around, so whether [re] finds a match is a question
    of the regular language, decided here with Brzozowski derivatives. *)

Module Re.

Inductive regex :=
| Void                                  (* matches nothing *)
| Eps                                   (* the empty string *)
| Cls (ranges : list (char * char))     (* [a-z0-9_] as inclusive ranges *)
| AnyButNewline                         (* . *)
| Seq (r1 r2 : regex)
| Alt (r1 r2 : regex)
| Star (r : regex)
| Rep (r : regex) (lo hi : nat).        (* r{lo,hi} *)

Definition Lit (c : char) : regex := Cls [(c, c)].
Definition Plus (r : regex) : regex := Seq r (Star r).
Definition Opt (r : regex) : regex := Alt r Eps.

Definition in_class (ranges : list (char * char)) (c : char) : bool :=
  existsb (fun '(a, b) => (a <=? c) && (c <=? b)) ranges.

Fixpoint nullable (r : regex) : bool :=
  match r with
  | Void => false
  | Eps => true
  | Cls _ => false
  | AnyButNewline => false
  | Seq r1 r2 => nullable r1 && nullable r2
  | Alt r1 r2 => nullable r1 || nullable r2
  | Star _ => true
  | Rep r lo _ => Nat.eqb lo 0 || nullable r
  end.

(** Constructors that drop the dead and the empty parts of a derivative. *)
Definition seq (r1 r2 : regex) : regex :=
  match r1 with
  | Void => Void
  | Eps => r2
  | _ => Seq r1 r2
  end.

Definition alt (r1 r2 : regex) : regex :=
  match r1, r2 with
  | Void, _ => r2
  | _, Void => r1
  | _, _ => Alt r1 r2
  end.

Fixpoint deriv (c : char) (r : regex) : regex :=
  match r with
  | Void => Void
  | Eps => Void
  | Cls ranges => if in_class ranges c then Eps else Void
  | AnyButNewline => if c =? LF then Void else Eps
  | Seq r1 r2 =>
      if nullable r1
      then alt (seq (deriv c r1) r2) (deriv c r2)
      else seq (deriv c r1) r2
  | Alt r1 r2 => alt (deriv c r1) (deriv c r2)
  | Star r1 => seq (deriv c r1) (Star r1)
  | Rep r1 lo hi =>
      match hi with
      | O => Void
      | S hi' => seq (deriv c r1) (Rep r1 (Nat.pred lo) hi')
      end
  end.

(** The whole of [s] is in the language of [r]. *)
Fixpoint accepts (r : regex) (s : pystr) : bool :=
  match s with
  | [] => nullable r
  | c :: s' => accepts (deriv c r) s'
  end.

(** Where [$] matches: at the end of the string, and just before a newline
    that is the last character of the string. *)
Definition at_dollar (rest : pystr) : bool :=
  match rest with
  | [] => true
  | [c] => c =? LF
  | _ => false
  end.

(** [re.compile('^' r '$').match(s)] finds a match: [r] consumes a prefix
    of [s] that ends where [$] matches. *)
Fixpoint match_anchored (r : regex) (s : pystr) : bool :=
  (at_dollar s && nullable r) ||
  match s with
  | [] => false
  | c :: s' => match_anchored (deriv c r) s'
  end.

(** [r] matches some prefix of [s]. *)
Fixpoint match_prefix (r : regex) (s : pystr) : bool :=
  nullable r ||
  match s with
  | [] => false
  | c :: s' => match_prefix (deriv c r) s'
  end.

(** [re.compile(r).search(s)] finds a match: [r] matches at some position. *)
Fixpoint search (r : regex) (s : pystr) : bool :=
  match_prefix r s ||
  match s with
  | [] => false
  | _ :: s' => search r s'
  end.

(** The language of a pattern: the strings it matches from end to end. *)
Inductive lang : regex -> pystr -> Prop :=
| lang_eps : lang Eps []
| lang_cls ranges c : in_class ranges c = true -> lang (Cls ranges) [c]
| lang_any c : (c =? LF) = false -> lang AnyButNewline [c]
| lang_seq r1 r2 u v : lang r1 u -> lang r2 v -> lang (Seq r1 r2) (u ++ v)
| lang_alt_l r1 r2 u : lang r1 u -> lang (Alt r1 r2) u
| lang_alt_r r1 r2 u : lang r2 u -> lang (Alt r1 r2) u
| lang_star_nil r : lang (Star r) []
| lang_star_cons r u v : lang r u -> lang (Star r) v -> lang (Star r) (u ++ v)
| lang_rep_nil r hi : lang (Rep r 0 hi) []
| lang_rep_cons r lo hi u v :
    lang r u -> lang (Rep r (Nat.pred lo) hi) v -> lang (Rep r lo (S hi)) (u ++ v).

(** The patterns the derivative of a counted repetition is exact for: the
    repeated pattern does not match the empty string. *)
Fixpoint counted_ok (r : regex) : bool :=
  match r with
  | Seq r1 r2 | Alt r1 r2 => counted_ok r1 && counted_ok r2
  | Star r1 => counted_ok r1
  | Rep r1 _ _ => counted_ok r1 && negb (nullable r1)
  | _ => true
  end.

End Re.

Import Re.

(** ** Validation patterns *)

Definition lower_digit : list (char * char) := [(97, 122); (48, 57)].   (* a-z0-9 *)
Definition alnum : list (char * char) := [(97, 122); (65, 90); (48, 57)]. (* a-zA-Z0-9 *)
Definition one (c : string) : list (char * char) :=
  List.map (fun x => (x, x)) (py c).

(** [^[a-z0-9]+([._/-][a-z0-9]+)*$] *)
Definition _DOCKER_IMAGE_NAME_PATTERN : regex :=
  Seq (Plus (Cls lower_digit))
      (Star (Seq (Cls (one "._/-")) (Plus (Cls lower_digit)))).

(** [^[a-zA-Z0-9_.-]{1,128}$] *)
Definition _DOCKER_TAG_PATTERN : regex :=
  Rep (Cls (alnum ++ one "_.-")) 1 128.

(** [^[a-zA-Z0-9_.-]+$] *)
Definition _FILENAME_PATTERN : regex := Plus (Cls (alnum ++ one "_.-")).

(** [^[a-zA-Z0-9._-]+$] *)
Definition _HELM_PARAMETER_PATTERN : regex := Plus (Cls (alnum ++ one "._-")).

(** [^[a-zA-Z0-9._:/-]+$] *)
Definition _HELM_VALUE_PATTERN : regex := Plus (Cls (alnum ++ one "._:/-")).

(** [^[a-z0-9]([a-z0-9-]*[a-z0-9])?$] *)
Definition _K8S_NAMESPACE_PATTERN : regex :=
  Seq (Cls lower_digit)
      (Opt (Seq (Star (Cls (lower_digit ++ one "-"))) (Cls lower_digit))).

(** [^[a-z0-9]([a-z0-9.-]*[a-z0-9])?$] *)
Definition _K8S_RESOURCE_NAME_PATTERN : regex :=
  Seq (Cls lower_digit)
      (Opt (Seq (Star (Cls (lower_digit ++ one ".-"))) (Cls lower_digit))).

(** [^[a-zA-Z_][a-zA-Z0-9_]*$] *)
Definition _IDENTIFIER_PATTERN : regex :=
  Seq (Cls [(97, 122); (65, 90); (95, 95)]) (Star (Cls (alnum ++ one "_"))).

(** [^[a-zA-Z0-9-]+$] *)
Definition _ALPHANUMERIC_DASH_PATTERN : regex := Plus (Cls (alnum ++ one "-")).

(** [\.\.|/\.|\\\\.] in a raw literal: two dots, or a slash and a dot, or two
    backslashes and any character but a newline. *)
Definition _PATH_TRAVERSAL_PATTERN : regex :=
  Alt (Seq (Lit DOT) (Lit DOT))
      (Alt (Seq (Lit SLASH) (Lit DOT))
           (Seq (Lit BACKSLASH) (Seq (Lit BACKSLASH) AnyButNewline))).

(** ** Dangerous characters and sequences *)

(** [set('|&;<>()$`\\"\'\\n\\r\\t*?[]{}!#~')]: the literal is not raw, so
    [\\] is one backslash, [\"] and [\'] are the quotes, and each of [\\n],
    [\\r], [\\t] is a backslash followed by the letter. *)
Definition _SHELL_METACHARACTERS : pystr :=
  py "|&;<>()$`" ++ [BACKSLASH; DQUOTE; SQUOTE] ++
  [BACKSLASH] ++ py "n" ++ [BACKSLASH] ++ py "r" ++ [BACKSLASH] ++ py "t" ++
  py "*?[]{}!#~".

Definition _PATH_TRAVERSAL_SEQUENCES : list pystr :=
  [ py "..";
    py "/..";
    py "." ++ [BACKSLASH; BACKSLASH];
    [BACKSLASH; BACKSLASH] ++ py "..";
    py ".." ++ [BACKSLASH; BACKSLASH];
    py "../";
    py "%2e%2e";
    py "%252e%252e";
    py "..%2f";
    py "..%5c" ].

(** ['\\0', '%00', '\\u0000']: a backslash and a zero; percent, zero, zero; a
    backslash and [u0000]. *)
Definition _NULL_BYTE_SEQUENCES : list pystr :=
  [ [BACKSLASH] ++ py "0"; py "%00"; [BACKSLASH] ++ py "u0000" ].

Definition _WINDOWS_RESERVED_NAMES : list pystr :=
  List.map py
    [ "CON"; "PRN"; "AUX"; "NUL";
      "COM1"; "COM2"; "COM3"; "COM4"; "COM5"; "COM6"; "COM7"; "COM8"; "COM9";
      "LPT1"; "LPT2"; "LPT3"; "LPT4"; "LPT5"; "LPT6"; "LPT7"; "LPT8"; "LPT9" ]%string.

(** ** Length constraints *)

Definition _MAX_DOCKER_IMAGE_NAME_LENGTH : N := 255.
Definition _MAX_DOCKER_TAG_LENGTH : N := 128.
Definition _MAX_FILENAME_LENGTH : N := 255.
Definition _MAX_FILEPATH_LENGTH : N := 4096.
Definition _MAX_K8S_NAMESPACE_LENGTH : N := 63.
Definition _MAX_K8S_RESOURCE_NAME_LENGTH : N := 253.
Definition _MAX_HELM_PARAMETER_LENGTH : N := 255.
Definition _MAX_HELM_VALUE_LENGTH : N := 1024.
Definition _MAX_IDENTIFIER_LENGTH : N := 255.

(** ** Character sets *)

Definition ALPHANUMERIC_CHARS : pystr :=
  py "abcdefghijklmnopqrstuvwxyzABCDEFGHIJKLMNOPQRSTUVWXYZ0123456789".
Definition LOWERCASE_ALPHANUMERIC : pystr :=
  py "abcdefghijklmnopqrstuvwxyz0123456789".
Definition ALPHANUMERIC_WITH_SEPARATORS : pystr :=
  py "abcdefghijklmnopqrstuvwxyzABCDEFGHIJKLMNOPQRSTUVWXYZ0123456789-_.".
Definition NUMERIC_CHARS : pystr := py "0123456789".
Definition HEX_CHARS_LOWER : pystr := py "0123456789abcdef".

(** ** posixpath *)

Module PosixPath.

Definition sep : char := SLASH.

Definition isabs (p : pystr) : bool := startswith [sep] p.

(** [posixpath.join(a, b)] *)
Definition join (a b : pystr) : pystr :=
  if startswith [sep] b then b
  else if is_empty a || endswith [sep] a then a ++ b
  else a ++ [sep] ++ b.

(** [s.split('/')] *)
Fixpoint split (s : pystr) : list pystr :=
  match s with
  | [] => [[]]
  | c :: s' =>
      if c =? sep then [] :: split s'
      else match split s' with
           | [] => [[c]]
           | w :: ws => (c :: w) :: ws
           end
  end.

(** ['/'.join(comps)] *)
Fixpoint join_sep (comps : list pystr) : pystr :=
  match comps with
  | [] => []
  | [w] => w
  | w :: ws => w ++ [sep] ++ join_sep ws
  end.

Definition dot : pystr := [DOT].
Definition dotdot : pystr := [DOT; DOT].

(** The last element of a list of components, if any. *)
Definition last_comp (comps : list pystr) : option pystr :=
  match rev comps with
  | [] => None
  | w :: _ => Some w
  end.

(** One turn of the loop of [normpath] over the components. *)
Definition norm_step (initial_slashes : nat) (new_comps : list pystr)
    (comp : pystr) : list pystr :=
  if str_eqb comp [] || str_eqb comp dot then new_comps
  else if negb (str_eqb comp dotdot)
          || (Nat.eqb initial_slashes 0 && is_empty new_comps)
          || match last_comp new_comps with
             | Some w => str_eqb w dotdot
             | None => false
             end
       then new_comps ++ [comp]
       else removelast new_comps.

(** [posixpath.normpath] *)
Definition normpath (path : pystr) : pystr :=
  if is_empty path then dot
  else
    let initial_slashes :=
      if startswith [sep] path
      then if startswith [sep; sep] path && negb (startswith [sep; sep; sep] path)
           then 2%nat else 1%nat
      else 0%nat in
    let comps := fold_left (norm_step initial_slashes) (split path) [] in
    let joined := repeat sep initial_slashes ++ join_sep comps in
    if is_empty joined then dot else joined.

(** [posixpath.abspath]: [os.getcwd()] is called for a relative path only. *)
Definition abspath (rt : runtime) (path : pystr) : result pystr :=
  if isabs path then Return (normpath path)
  else cwd <- os_getcwd rt ;; Return (normpath (join cwd path)).

(** [s.rstrip('/')] *)
Definition rstrip_sep (s : pystr) : pystr :=
  rev ((fix drop (l : pystr) : pystr :=
          match l with
          | c :: l' => if c =? sep then drop l' else l
          | [] => []
          end) (rev s)).

(** The text up to the first separator at index 1 or later, and the rest
    from that separator on: [path[:i]] and [path[i:]] for
    [i = path.find('/', 1)], or [i = len(path)] when there is none. *)
Fixpoint break_sep (s : pystr) : pystr * pystr :=
  match s with
  | [] => ([], [])
  | c :: s' =>
      if c =? sep then ([], s)
      else let '(a, b) := break_sep s' in (c :: a, b)
  end.

(** [posixpath.expanduser] *)
Definition expanduser (rt : runtime) (path : pystr) : result pystr :=
  match path with
  | c :: tail =>
      if negb (c =? TILDE) then Return path
      else
        let '(name, rest) := break_sep tail in
        let finish (userhome : pystr) : result pystr :=
          let expanded := rstrip_sep userhome ++ rest in
          Return (if is_empty expanded then [sep] else expanded) in
        if is_empty name then
          match environ_HOME rt with
          | Some home => finish home
          | None =>
              match pwd_getpwuid_dir rt with
              | Return home => finish home
              | Raise KeyError => Return path
              | Raise e => Raise e
              end
          end
        else
          match pwd_getpwnam_dir rt name with
          | Return home => finish home
          | Raise KeyError => Return path
          | Raise e => Raise e
          end
  | [] => Return path
  end.

(** [s.rfind(c)]: the index of the last occurrence, or -1. The scan is at
    index [i] and has [best] as the last occurrence so far. *)
Fixpoint rfind_from (c : char) (i best : Z) (l : pystr) : Z :=
  match l with
  | [] => best
  | x :: l' => rfind_from c (i + 1)%Z (if x =? c then i else best) l'
  end.

Definition rfind (c : char) (s : pystr) : Z := rfind_from c 0%Z (-1)%Z s.

Definition slice_from (i : Z) (s : pystr) : pystr := skipn (Z.to_nat i) s.
Definition slice_to (i : Z) (s : pystr) : pystr := firstn (Z.to_nat i) s.

(** [genericpath._splitext(p, '/', None, '.')]: the root and the extension. *)
Definition splitext (p : pystr) : pystr * pystr :=
  let sepIndex := rfind sep p in
  let dotIndex := rfind DOT p in
  if (sepIndex <? dotIndex)%Z then
    (* skip all leading dots *)
    if forallb (N.eqb DOT)
         (slice_to (dotIndex - (sepIndex + 1)) (slice_from (sepIndex + 1) p))
    then (p, [])
    else (slice_to dotIndex p, slice_from dotIndex p)
  else (p, []).

End PosixPath.

(** ** The validation functions *)

(** [if not s or s.isspace(): return False] *)
Definition blank (s : pystr) : bool := is_empty s || isspace s.

(** *** Docker *)

Definition validate_docker_image_name (image_name : pyval) : result bool :=
  s <- require_str "image_name" image_name ;;
  if blank s then Return false
  else if _MAX_DOCKER_IMAGE_NAME_LENGTH <? len s then Return false
  else Return (match_anchored _DOCKER_IMAGE_NAME_PATTERN s).

Definition validate_docker_tag (tag : pyval) : result bool :=
  s <- require_str "tag" tag ;;
  if blank s then Return false
  else Return (match_anchored _DOCKER_TAG_PATTERN s).

(** *** File paths *)

Definition contains_path_traversal (rt : runtime) (path : pyval) : result bool :=
  s <- require_str "path" path ;;
  (* Check regex pattern *)
  if search _PATH_TRAVERSAL_PATTERN s then Return true
  else
    (* Check known sequences (case-insensitive) *)
    let path_lower := lower rt s in
    if existsb (fun sequence => str_contains (lower rt sequence) path_lower)
         _PATH_TRAVERSAL_SEQUENCES
    then Return true
    else
      (* Check URL-decoded version; [except Exception: pass] *)
      match unquote rt s with
      | Return decoded =>
          Return (negb (str_eqb decoded s) && search _PATH_TRAVERSAL_PATTERN decoded)
      | Raise _ => Return false
      end.

(** The body of the [try] statement of [is_within_directory]. *)
Definition resolve_and_compare (rt : runtime) (path base_directory : pystr)
    : result bool :=
  expanded_path <- PosixPath.expanduser rt path ;;
  full_path <- PosixPath.abspath rt expanded_path ;;
  expanded_base <- PosixPath.expanduser rt base_directory ;;
  full_base <- PosixPath.abspath rt expanded_base ;;
  (* Add trailing separator to base path *)
  let full_base :=
    if negb (endswith [PosixPath.sep] full_base)
    then full_base ++ [PosixPath.sep] else full_base in
  Return (startswith full_base full_path).

Definition is_within_directory (rt : runtime) (path base_directory : pyval)
    : result bool :=
  p <- require_str "path" path ;;
  b <- require_str "base_directory" base_directory ;;
  match resolve_and_compare rt p b with
  | Raise ValueError | Raise OSError => Return false   (* except (ValueError, OSError) *)
  | r => r
  end.

Definition validate_file_path (rt : runtime) (path base_path : pyval) : result bool :=
  p <- require_str "path" path ;;
  b <- require_str "base_path" base_path ;;
  if blank p then Return false
  else if _MAX_FILEPATH_LENGTH <? len p then Return false
  else if existsb (fun null_byte => str_contains null_byte p) _NULL_BYTE_SEQUENCES
  then Return false
  else
    traversal <- contains_path_traversal rt (PStr p) ;;
    if traversal then Return false
    else is_within_directory rt (PStr p) (PStr b).

Definition validate_filename (rt : runtime) (filename : pyval) : result bool :=
  s <- require_str "filename" filename ;;
  if blank s then Return false
  else if _MAX_FILENAME_LENGTH <? len s then Return false
  else if char_in PosixPath.sep s then Return false      (* os.altsep is None *)
  else if negb (match_anchored _FILENAME_PATTERN s) then Return false
  else
    let base_name := upper rt (fst (PosixPath.splitext s)) in
    if str_in base_name _WINDOWS_RESERVED_NAMES then Return false
    else Return true.

Definition is_safe_filename (rt : runtime) (filename : pyval) : result bool :=
  validate_filename rt filename.

(** *** Helm *)

Definition validate_helm_parameter (parameter : pyval) : result bool :=
  s <- require_str "parameter" parameter ;;
  if blank s then Return false
  else if _MAX_HELM_PARAMETER_LENGTH <? len s then Return false
  else Return (match_anchored _HELM_PARAMETER_PATTERN s).

Definition validate_helm_value (value : pyval) : result bool :=
  s <- require_str "value" value ;;
  if blank s then Return false
  else if _MAX_HELM_VALUE_LENGTH <? len s then Return false
  else Return (match_anchored _HELM_VALUE_PATTERN s).

(** *** Kubernetes *)

Definition validate_kubernetes_namespace (namespace_name : pyval) : result bool :=
  s <- require_str "namespace_name" namespace_name ;;
  if blank s then Return false
  else if _MAX_K8S_NAMESPACE_LENGTH <? len s then Return false
  else Return (match_anchored _K8S_NAMESPACE_PATTERN s).

Definition validate_kubernetes_resource_name (resource_name : pyval) : result bool :=
  s <- require_str "resource_name" resource_name ;;
  if blank s then Return false
  else if _MAX_K8S_RESOURCE_NAME_LENGTH <? len s then Return false
  else Return (match_anchored _K8S_RESOURCE_NAME_PATTERN s).

(** *** Shell *)

Definition contains_shell_metacharacters (input_str : pyval) : result bool :=
  s <- require_str "input_str" input_str ;;
  Return (existsb (fun c => char_in c _SHELL_METACHARACTERS) s).

(** [s.replace(old, new)] for a non-empty [old]: the occurrences are taken
    from the left and do not overlap; [skip] counts the characters of an
    occurrence still to pass over. *)
Fixpoint replace_from (old new : pystr) (skip : nat) (s : pystr) : pystr :=
  match s with
  | [] => []
  | c :: s' =>
      match skip with
      | S k => replace_from old new k s'
      | O =>
          if startswith old s
          then new ++ replace_from old new (Nat.pred (List.length old)) s'
          else c :: replace_from old new O s'
      end
  end.

Definition str_replace (old new s : pystr) : pystr := replace_from old new O s.

(** The last [return] of [sanitize_shell_argument] is an f-string whose
    replacement field calls [argument.replace] on two literals, and every
    double quote inside the field is written with a backslash before it.
    CPython refuses a backslash in a replacement field, so the module as it
    stands does not compile. The statement is embedded as its text spells
    it: the escaped double quotes delimit the two arguments of [replace],
    and each argument is read by the rules of an ordinary string literal,
    as the literals of [_SHELL_METACHARACTERS] and [_NULL_BYTE_SEQUENCES]
    are. The first argument is one single quote; the second is written as a
    single quote, four backslashes and two single quotes, which an ordinary
    literal reads as a quote, two backslashes and two quotes. *)
Definition quote_replacement : pystr :=
  [SQUOTE; BACKSLASH; BACKSLASH; SQUOTE; SQUOTE].

(** Line 612 as its text spells it. The line is never run: the module does
    not compile with it. The reading serves to set the text of the line
    against the quoting the specification describes, and nothing is stated
    of what a call returns on its strength. *)
Definition line_612_as_written (argument : pystr) : result pystr :=
  Return ([SQUOTE] ++ str_replace [SQUOTE] quote_replacement argument ++ [SQUOTE]).

Definition sanitize_shell_argument (argument : pyval) : result pystr :=
  s <- require_str "argument" argument ;;
  if is_empty s then Return [SQUOTE; SQUOTE]
  else line_612_as_written s.

(** *** General *)

Definition validate_identifier (identifier : pyval) : result bool :=
  s <- require_str "identifier" identifier ;;
  if blank s then Return false
  else if _MAX_IDENTIFIER_LENGTH <? len s then Return false
  else Return (match_anchored _IDENTIFIER_PATTERN s).

Definition is_valid_identifier (input_str : pyval) : result bool :=
  validate_identifier input_str.

Definition is_alphanumeric (rt : runtime) (input_str : pyval) : result bool :=
  s <- require_str "input_str" input_str ;;
  if blank s then Return false
  else Return (isalnum rt s).

Definition is_alphanumeric_with_dash (input_str : pyval) : result bool :=
  s <- require_str "input_str" input_str ;;
  if blank s then Return false
  else Return (match_anchored _ALPHANUMERIC_DASH_PATTERN s).

(** [set(allowed_chars)]: the distinct characters of the string. *)
Definition set_of (chars : pystr) : list char := nodup N.eq_dec chars.

Definition sanitize_input (input_str allowed_chars : pyval) : result pystr :=
  s <- require_str "input_str" input_str ;;
  allowed <- require_str "allowed_chars" allowed_chars ;;
  let allowed_set := set_of allowed in
  Return (filter (fun c => char_in c allowed_set) s).

(** A runtime for the examples: home [/home/user], working directory [/srv]. *)
Definition rt0 : runtime := {|
  environ_HOME := Some (py "/home/user");
  pwd_getpwuid_dir := Return (py "/home/user");
  pwd_getpwnam_dir := fun _ => Raise KeyError;
  os_getcwd := Return (py "/srv");
  unicode_lower := fun s => s;
  unicode_upper := fun s => s;
  unicode_isalnum := fun _ => false;
  unquote_percent := fun s => Return s
|}.


(** ** What the specification speaks of *)

(** The metacharacter set as the specification lists it:
    [| & ; < > ( ) $], backtick, backslash, the two quotes, newline, carriage
    return, tab, [* ? [ ] { } ! # ~]. *)
Definition specified_metacharacters : pystr :=
  py "|&;<>()$`" ++ [BACKSLASH; DQUOTE; SQUOTE; LF; CR; TAB] ++ py "*?[]{}!#~".

(** The null-byte encodings the specification lists: the NUL character, a
    backslash and a zero, [%00], a backslash and [u0000]. *)
Definition specified_null_encodings : list pystr :=
  [ [NUL]; [BACKSLASH] ++ py "0"; py "%00"; [BACKSLASH] ++ py "u0000" ].

(** A string of whitespace only: not empty, every character a space. *)
Definition whitespace_only (s : pystr) : Prop :=
  s <> [] /\ Forall (fun c => char_isspace c = true) s.

(** The traversal sequences the specification lists. The forms with a
    backslash are taken as the docstring of [contains_path_traversal] and
    the unit tests of the repository show them, with one backslash: a dot
    and a backslash, a backslash and two dots, two dots and a backslash. *)
Definition specified_traversal_sequences : list pystr :=
  [ py ".."; py "/..";
    [DOT; BACKSLASH];
    [BACKSLASH; DOT; DOT];
    [DOT; DOT; BACKSLASH];
    py "../"; py "%2e%2e"; py "%252e%252e"; py "..%2f"; py "..%5c" ].

(** Reading one shell word under the POSIX quoting rules: between single
    quotes every character stands for itself; outside them a backslash makes
    the next character stand for itself, a single quote opens a quoted run,
    and a character the shell gives a meaning of its own ends the reading. *)
Inductive quoting := Unquoted | InSingleQuotes | AfterBackslash.

Definition shell_special (c : char) : bool :=
  char_in c (py "|&;<>()$`" ++ [DQUOTE; 32; TAB; LF] ++ py "*?[#~=%").

Fixpoint posix_read (q : quoting) (word : pystr) : option pystr :=
  match word with
  | [] => match q with Unquoted => Some [] | _ => None end
  | c :: rest =>
      match q with
      | InSingleQuotes =>
          if c =? SQUOTE then posix_read Unquoted rest
          else option_map (cons c) (posix_read InSingleQuotes rest)
      | AfterBackslash => option_map (cons c) (posix_read Unquoted rest)
      | Unquoted =>
          if c =? SQUOTE then posix_read InSingleQuotes rest
          else if c =? BACKSLASH then posix_read AfterBackslash rest
          else if shell_special c then None
          else option_map (cons c) (posix_read Unquoted rest)
      end
  end.

Definition posix_unquote (word : pystr) : option pystr := posix_read Unquoted word.

(** The quoting the specification describes: the argument between single
    quotes, each single quote of it replaced by the four characters quote,
    backslash, quote, quote. *)
Definition specified_quoting (s : pystr) : pystr :=
  [SQUOTE] ++ flat_map (fun c => if c =? SQUOTE
                                 then [SQUOTE; BACKSLASH; SQUOTE; SQUOTE]
                                 else [c]) s ++ [SQUOTE].

(** The characters of [s] that occur in [allowed], in their order in [s]. *)
Fixpoint kept_subsequence (allowed s : pystr) : pystr :=
  match s with
  | [] => []
  | c :: s' =>
      if in_dec N.eq_dec c allowed
      then c :: kept_subsequence allowed s'
      else kept_subsequence allowed s'
  end.

(** [t] is [s] with some characters left out. *)
Inductive subsequence : pystr -> pystr -> Prop :=
| sub_nil : subsequence [] []
| sub_keep c t s : subsequence t s -> subsequence (c :: t) (c :: s)
| sub_drop c t s : subsequence t s -> subsequence t (c :: s).

(** The kinds of the table of domain validators, with the validator and the
    maximum length of each. *)
Inductive kind :=
| DockerImageName | DockerTag | Filename | HelmParameter | HelmValue
| KubernetesNamespace | KubernetesResourceName | Identifier.

Definition max_length (k : kind) : N :=
  match k with
  | DockerImageName => _MAX_DOCKER_IMAGE_NAME_LENGTH
  | DockerTag => _MAX_DOCKER_TAG_LENGTH
  | Filename => _MAX_FILENAME_LENGTH
  | HelmParameter => _MAX_HELM_PARAMETER_LENGTH
  | HelmValue => _MAX_HELM_VALUE_LENGTH
  | KubernetesNamespace => _MAX_K8S_NAMESPACE_LENGTH
  | KubernetesResourceName => _MAX_K8S_RESOURCE_NAME_LENGTH
  | Identifier => _MAX_IDENTIFIER_LENGTH
  end.

(** The bounds as the specification gives them, in figures: Docker image
    name 255, Docker tag 128, file name 255, Helm parameter 255, Helm value
    1024, Kubernetes namespace 63, Kubernetes resource name 253, identifier
    255. *)
Definition specified_max_length (k : kind) : N :=
  match k with
  | DockerImageName => 255
  | DockerTag => 128
  | Filename => 255
  | HelmParameter => 255
  | HelmValue => 1024
  | KubernetesNamespace => 63
  | KubernetesResourceName => 253
  | Identifier => 255
  end.

Definition validator (rt : runtime) (k : kind) : pyval -> result bool :=
  match k with
  | DockerImageName => validate_docker_image_name
  | DockerTag => validate_docker_tag
  | Filename => validate_filename rt
  | HelmParameter => validate_helm_parameter
  | HelmValue => validate_helm_value
  | KubernetesNamespace => validate_kubernetes_namespace
  | KubernetesResourceName => validate_kubernetes_resource_name
  | Identifier => validate_identifier
  end.
(** The exceptions the calls into the operating system raise: [os.getcwd]
    an [OSError]; the lookups of the password database a [KeyError] for an
    unknown user, a [ValueError] for a name that is no valid one, or an
    [OSError]. *)
Definition os_errors (rt : runtime) : Prop :=
  (forall e, os_getcwd rt = Raise e -> e = OSError) /\
  (forall e, pwd_getpwuid_dir rt = Raise e -> e = KeyError \/ e = OSError) /\
  (forall name e, pwd_getpwnam_dir rt name = Raise e ->
     e = KeyError \/ e = ValueError \/ e = OSError).

(** The symbolic links of a file system: the absolute path of each link and
    the text it points to. *)
Definition symlinks := list (pystr * pystr).

Fixpoint readlink (links : symlinks) (p : pystr) : option pystr :=
  match links with
  | [] => None
  | (l, target) :: links' => if str_eqb l p then Some target else readlink links' p
  end.

(** [dirname] of a resolved path ([] stands for the root). *)
Definition parent (resolved : pystr) : pystr :=
  PosixPath.join_sep (removelast (PosixPath.split resolved)).

(** The symlink-resolved form of an absolute path: its components are walked
    from the root, a link met on the way is replaced by what it points to.
    [resolved] is the part already resolved ([] for the root), [todo] the
    components to come; [fuel] bounds the links followed. *)
Fixpoint follow_links (fuel : nat) (links : symlinks) (resolved : pystr)
    (todo : list pystr) : pystr :=
  match fuel with
  | O => resolved
  | S fuel' =>
      match todo with
      | [] => resolved
      | comp :: rest =>
          if str_eqb comp [] || str_eqb comp PosixPath.dot
          then follow_links fuel' links resolved rest
          else if str_eqb comp PosixPath.dotdot
          then follow_links fuel' links (parent resolved) rest
          else
            let candidate := resolved ++ [PosixPath.sep] ++ comp in
            match readlink links candidate with
            | Some target =>
                if PosixPath.isabs target
                then follow_links fuel' links [] (PosixPath.split target ++ rest)
                else follow_links fuel' links resolved (PosixPath.split target ++ rest)
            | None => follow_links fuel' links candidate rest
            end
      end
  end.

Definition realpath (links : symlinks) (absolute : pystr) : pystr :=
  let todo := PosixPath.split absolute in
  let resolved :=
    follow_links (List.length todo + 40 * (1 + List.length links)) links [] todo in
  if is_empty resolved then [PosixPath.sep] else resolved.

(** The absolute, symlink-resolved, tilde-expanded canonical form. *)
Definition canonical (links : symlinks) (rt : runtime) (p : pystr) : result pystr :=
  expanded <- PosixPath.expanduser rt p ;;
  absolute <- PosixPath.abspath rt expanded ;;
  Return (realpath links absolute).

(** Containment as the specification states it: the canonical form of the
    path starts with the canonical form of the base followed by a
    separator. *)
Definition within_as_specified (links : symlinks) (rt : runtime)
    (path base_directory : pystr) : result bool :=
  full_path <- canonical links rt path ;;
  full_base <- canonical links rt base_directory ;;
  Return (startswith (full_base ++ [PosixPath.sep]) full_path).

(** The absolute, tilde-expanded form the module computes:
    [os.path.abspath(os.path.expanduser(p))]. *)
Definition absolute_form (rt : runtime) (p : pystr) : result pystr :=
  expanded <- PosixPath.expanduser rt p ;; PosixPath.abspath rt expanded.

(** The base with a separator after it, unless it ends with one. *)
Definition with_trailing_sep (full_base : pystr) : pystr :=
  if endswith [PosixPath.sep] full_base then full_base
  else full_base ++ [PosixPath.sep].

(** A runtime whose working directory is gone: [os.getcwd()] fails. *)
Definition rt_no_cwd : runtime := {|
  environ_HOME := None;
  pwd_getpwuid_dir := Raise KeyError;
  pwd_getpwnam_dir := fun _ => Raise ValueError;
  os_getcwd := Raise OSError;
  unicode_lower := fun s => s;
  unicode_upper := fun s => s;
  unicode_isalnum := fun _ => false;
  unquote_percent := fun _ => Raise ValueError
|}.

(** The invalid-argument error: it names the parameter and the type of the
    value passed for it. *)
Definition type_error {A} (parameter : string) (v : pyval) : result A :=
  Raise (TypeError (py parameter ++ py " must be a string, got " ++ type_name v)).

Definition is_text (v : pyval) : bool :=
  match v with PStr _ => true | _ => false end.

(** The public functions of the module, and the parameters of each as its
    [def] line names them. *)
Inductive public_function :=
| Fn_validate_docker_image_name
| Fn_validate_docker_tag
| Fn_validate_file_path
| Fn_validate_filename
| Fn_is_safe_filename
| Fn_is_within_directory
| Fn_contains_path_traversal
| Fn_validate_helm_parameter
| Fn_validate_helm_value
| Fn_validate_kubernetes_namespace
| Fn_validate_kubernetes_resource_name
| Fn_contains_shell_metacharacters
| Fn_sanitize_shell_argument
| Fn_validate_identifier
| Fn_is_valid_identifier
| Fn_is_alphanumeric
| Fn_is_alphanumeric_with_dash
| Fn_sanitize_input.

Definition parameters (f : public_function) : list string :=
  match f with
  | Fn_validate_docker_image_name => ["image_name"]%string
  | Fn_validate_docker_tag => ["tag"]%string
  | Fn_validate_file_path => ["path"; "base_path"]%string
  | Fn_validate_filename => ["filename"]%string
  | Fn_is_safe_filename => ["filename"]%string
  | Fn_is_within_directory => ["path"; "base_directory"]%string
  | Fn_contains_path_traversal => ["path"]%string
  | Fn_validate_helm_parameter => ["parameter"]%string
  | Fn_validate_helm_value => ["value"]%string
  | Fn_validate_kubernetes_namespace => ["namespace_name"]%string
  | Fn_validate_kubernetes_resource_name => ["resource_name"]%string
  | Fn_contains_shell_metacharacters => ["input_str"]%string
  | Fn_sanitize_shell_argument => ["argument"]%string
  | Fn_validate_identifier => ["identifier"]%string
  | Fn_is_valid_identifier => ["input_str"]%string
  | Fn_is_alphanumeric => ["input_str"]%string
  | Fn_is_alphanumeric_with_dash => ["input_str"]%string
  | Fn_sanitize_input => ["input_str"; "allowed_chars"]%string
  end.

(** What a function returns, as a value of Python. *)
Definition as_bool (r : result bool) : result pyval := b <- r ;; Return (PBool b).
Definition as_str (r : result pystr) : result pyval := s <- r ;; Return (PStr s).

(** A call with positional arguments, as many as the function has
    parameters. *)
Definition call (rt : runtime) (f : public_function) (args : list pyval)
    : option (result pyval) :=
  match f, args with
  | Fn_validate_docker_image_name, [v] => Some (as_bool (validate_docker_image_name v))
  | Fn_validate_docker_tag, [v] => Some (as_bool (validate_docker_tag v))
  | Fn_validate_file_path, [v; w] => Some (as_bool (validate_file_path rt v w))
  | Fn_validate_filename, [v] => Some (as_bool (validate_filename rt v))
  | Fn_is_safe_filename, [v] => Some (as_bool (is_safe_filename rt v))
  | Fn_is_within_directory, [v; w] => Some (as_bool (is_within_directory rt v w))
  | Fn_contains_path_traversal, [v] => Some (as_bool (contains_path_traversal rt v))
  | Fn_validate_helm_parameter, [v] => Some (as_bool (validate_helm_parameter v))
  | Fn_validate_helm_value, [v] => Some (as_bool (validate_helm_value v))
  | Fn_validate_kubernetes_namespace, [v] => Some (as_bool (validate_kubernetes_namespace v))
  | Fn_validate_kubernetes_resource_name, [v] => Some (as_bool (validate_kubernetes_resource_name v))
  | Fn_contains_shell_metacharacters, [v] => Some (as_bool (contains_shell_metacharacters v))
  | Fn_sanitize_shell_argument, [v] => Some (as_str (sanitize_shell_argument v))
  | Fn_validate_identifier, [v] => Some (as_bool (validate_identifier v))
  | Fn_is_valid_identifier, [v] => Some (as_bool (is_valid_identifier v))
  | Fn_is_alphanumeric, [v] => Some (as_bool (is_alphanumeric rt v))
  | Fn_is_alphanumeric_with_dash, [v] => Some (as_bool (is_alphanumeric_with_dash v))
  | Fn_sanitize_input, [v; w] => Some (as_str (sanitize_input v w))
  | _, _ => None
  end.

(** The pattern of each kind. *)
Definition pattern_of (k : kind) : regex :=
  match k with
  | DockerImageName => _DOCKER_IMAGE_NAME_PATTERN
  | DockerTag => _DOCKER_TAG_PATTERN
  | Filename => _FILENAME_PATTERN
  | HelmParameter => _HELM_PARAMETER_PATTERN
  | HelmValue => _HELM_VALUE_PATTERN
  | KubernetesNamespace => _K8S_NAMESPACE_PATTERN
  | KubernetesResourceName => _K8S_RESOURCE_NAME_PATTERN
  | Identifier => _IDENTIFIER_PATTERN
  end.

(** A string that is valid for its kind but for its length: it passes every
    test of the validator other than the one on the length. The pattern of
    the Docker tag carries the bound itself; there the characters are asked
    to be those of its class. *)
Definition otherwise_valid (rt : runtime) (k : kind) (s : pystr) : bool :=
  match k with
  | DockerTag =>
      negb (is_empty s) && forallb (in_class (alnum ++ one "_.-")) s
  | Filename =>
      match_anchored _FILENAME_PATTERN s
      && negb (char_in PosixPath.sep s)
      && negb (str_in (upper rt (fst (PosixPath.splitext s))) _WINDOWS_RESERVED_NAMES)
  | _ => match_anchored (pattern_of k) s
  end.

(** The functions that end on [bool(PATTERN.match(...))] or, for the file
    name, test the pattern on the way: the validators of the eight kinds and
    [is_alphanumeric_with_dash]. *)
Inductive pattern_check :=
| OfKind (k : kind)
| AlphanumericWithDash.

Definition run_check (rt : runtime) (p : pattern_check) : pyval -> result bool :=
  match p with
  | OfKind k => validator rt k
  | AlphanumericWithDash => is_alphanumeric_with_dash
  end.

(** The bound of the length test of each, where it has one. *)
Definition length_test (p : pattern_check) : option N :=
  match p with
  | OfKind DockerTag => None
  | OfKind k => Some (max_length k)
  | AlphanumericWithDash => None
  end.

(** The verdicts of a function on a table of inputs are the expected ones. *)
Definition agrees (f : pyval -> result bool) (cases : list (string * bool)) : bool :=
  forallb (fun '(input, expected) =>
             match f (PStr (py input)) with
             | Return verdict => Bool.eqb verdict expected
             | Raise _ => false
             end) cases.

(** ** Notions of the further properties *)

(** The pattern each pattern-based function matches its argument against. *)
Definition pattern_of_check (p : pattern_check) : regex :=
  match p with
  | OfKind k => pattern_of k
  | AlphanumericWithDash => _ALPHANUMERIC_DASH_PATTERN
  end.

(** The character classes a pattern is written with, put together. *)
Fixpoint classes_of (r : regex) : list (char * char) :=
  match r with
  | Cls ranges => ranges
  | Seq r1 r2 | Alt r1 r2 => classes_of r1 ++ classes_of r2
  | Star r1 | Rep r1 _ _ => classes_of r1
  | _ => []
  end.

(** A pattern with no [.] in it. *)
Fixpoint dotfree (r : regex) : bool :=
  match r with
  | AnyButNewline => false
  | Seq r1 r2 | Alt r1 r2 => dotfree r1 && dotfree r2
  | Star r1 | Rep r1 _ _ => dotfree r1
  | _ => true
  end.

(** The characters a string of the pattern can begin with, and those it can
    end with. *)
Fixpoint firsts (r : regex) (c : char) : bool :=
  match r with
  | Void | Eps => false
  | Cls ranges => in_class ranges c
  | AnyButNewline => negb (c =? LF)
  | Seq r1 r2 => firsts r1 c || (nullable r1 && firsts r2 c)
  | Alt r1 r2 => firsts r1 c || firsts r2 c
  | Star r1 | Rep r1 _ _ => firsts r1 c
  end.

Fixpoint lasts (r : regex) (c : char) : bool :=
  match r with
  | Void | Eps => false
  | Cls ranges => in_class ranges c
  | AnyButNewline => negb (c =? LF)
  | Seq r1 r2 => lasts r2 c || (nullable r2 && lasts r1 c)
  | Alt r1 r2 => lasts r1 c || lasts r2 c
  | Star r1 | Rep r1 _ _ => lasts r1 c
  end.

(** Pairs of kinds of which the first is the stricter: what the validator
    of the first accepts, the validator of the second accepts. *)
Definition stricter (k1 k2 : kind) : bool :=
  match k1, k2 with
  | KubernetesNamespace, KubernetesResourceName
  | KubernetesNamespace, HelmParameter
  | KubernetesNamespace, HelmValue
  | KubernetesResourceName, HelmParameter
  | KubernetesResourceName, HelmValue
  | HelmParameter, HelmValue
  | Identifier, HelmParameter
  | Identifier, HelmValue
  | DockerImageName, HelmValue
  | DockerTag, HelmParameter
  | DockerTag, HelmValue
  | Filename, HelmParameter
  | Filename, HelmValue => true
  | _, _ => false
  end.

(** The kinds whose pattern has lower-case letters only. *)
Definition lowercase_only (k : kind) : bool :=
  match k with
  | DockerImageName | KubernetesNamespace | KubernetesResourceName => true
  | _ => false
  end.

(** The class of the first character of a valid string of each kind, and
    that of its last. *)
Definition first_class (k : kind) : list (char * char) :=
  match k with
  | DockerImageName | KubernetesNamespace | KubernetesResourceName => lower_digit
  | Identifier => [(97, 122); (65, 90); (95, 95)]
  | _ => classes_of (pattern_of k)
  end.

Definition last_class (k : kind) : list (char * char) :=
  match k with
  | DockerImageName | KubernetesNamespace | KubernetesResourceName => lower_digit
  | _ => classes_of (pattern_of k)
  end.

(** [a] can stand just before [b] in a string of the pattern. *)
Fixpoint adjacent (r : regex) (a b : char) : bool :=
  match r with
  | Seq r1 r2 => adjacent r1 a b || adjacent r2 a b || (lasts r1 a && firsts r2 b)
  | Alt r1 r2 => adjacent r1 a b || adjacent r2 a b
  | Star r1 | Rep r1 _ _ => adjacent r1 a b || (lasts r1 a && firsts r1 b)
  | _ => false
  end.

(** Every range of the first class lies within a range of the second. *)
Definition class_subset (x y : list (char * char)) : bool :=
  forallb (fun '(a, b) => existsb (fun '(a', b') => (a' <=? a) && (b <=? b')) y) x.

(** The second pattern is the first with wider classes. *)
Fixpoint wider (r r' : regex) : bool :=
  match r, r' with
  | Void, Void | Eps, Eps | AnyButNewline, AnyButNewline => true
  | Cls x, Cls y => class_subset x y
  | Seq a b, Seq a' b' | Alt a b, Alt a' b' => wider a a' && wider b b'
  | Star a, Star a' => wider a a'
  | Rep a lo hi, Rep a' lo' hi' => wider a a' && Nat.eqb lo lo' && Nat.eqb hi hi'
  | _, _ => false
  end.

(** The separators of a Docker image name. *)
Definition is_separator (c : char) : bool := in_class (one "._/-") c.

(** A decoder of percent escapes for the examples: [%xy] with two
    hexadecimal digits stands for the character of that code. *)
Definition hex_digit (c : char) : option N :=
  if (48 <=? c) && (c <=? 57) then Some (c - 48)
  else if (97 <=? c) && (c <=? 102) then Some (c - 87)
  else if (65 <=? c) && (c <=? 70) then Some (c - 55)
  else None.

Fixpoint percent_decode (s : pystr) : pystr :=
  match s with
  | [] => []
  | c :: s' =>
      match s' with
      | a :: b :: rest =>
          match hex_digit a, hex_digit b with
          | Some x, Some y =>
              if c =? PERCENT then (16 * x + y) :: percent_decode rest
              else c :: percent_decode s'
          | _, _ => c :: percent_decode s'
          end
      | _ => c :: percent_decode s'
      end
  end.

Definition rt_decoding : runtime := {|
  environ_HOME := Some (py "/home/user");
  pwd_getpwuid_dir := Return (py "/home/user");
  pwd_getpwnam_dir := fun _ => Raise KeyError;
  os_getcwd := Return (py "/srv");
  unicode_lower := fun s => s;
  unicode_upper := fun s => s;
  unicode_isalnum := fun _ => false;
  unquote_percent := fun s => Return (percent_decode s)
|}.

(** The reserved names: upper-case letters and digits, a letter first. *)
Definition reserved_shape (name : pystr) : bool :=
  forallb (fun c => ((65 <=? c) && (c <=? 90)) || ((48 <=? c) && (c <=? 57))) name
  && match name with c :: _ => (65 <=? c) && (c <=? 90) | [] => false end.

(** An upper-case ASCII letter. *)
Definition is_upper (c : char) : bool := (65 <=? c) && (c <=? 90).

(** For each check, a class of characters that suits it: whatever the
    allow-set, when all its characters are of the class, every string
    [sanitize_input] makes with it is accepted by the check if it is not
    empty and not too long. Lower-case letters and digits for the Docker
    image name and the two Kubernetes names; the class of the pattern for
    the checks whose pattern is one class repeated; letters and the
    underscore for the identifier, which must not start with a digit;
    digits, [_], [.] and [-] for the file name, no letters, of which the
    reserved names are made. The classes are sufficient: allow-sets outside
    them may suit a check as well. *)
Definition suiting_class (p : pattern_check) : list (char * char) :=
  match p with
  | OfKind DockerImageName | OfKind KubernetesNamespace
  | OfKind KubernetesResourceName => lower_digit
  | OfKind Identifier => [(97, 122); (65, 90); (95, 95)]
  | OfKind Filename => [(48, 57)] ++ one "_.-"
  | OfKind DockerTag | OfKind HelmParameter | OfKind HelmValue
  | AlphanumericWithDash => classes_of (pattern_of_check p)
  end.

(** ** Notions of the proofs *)

(** A class of printable ASCII characters holds no whitespace. *)
Definition printable (ranges : list (char * char)) : bool :=
  forallb (fun '(a, b) => (33 <=? a) && (b <=? 126)) ranges.

(** A pattern that is not nullable and whose derivative on a whitespace
    character is void matches no empty and no blank string. *)
Definition starts_printable (r : regex) : Prop :=
  nullable r = false /\ forall c, char_isspace c = true -> deriv c r = Void.

(** ** Sanity checks against the docstrings and the unit tests *)

Example docker_image_examples :
  validate_docker_image_name (PStr (py "myapp")) = Return true /\
  validate_docker_image_name (PStr (py "registry.io/my-app")) = Return true /\
  validate_docker_image_name (PStr (py "MYAPP")) = Return false /\
  validate_docker_image_name (PStr (py "my..app")) = Return false /\
  validate_docker_image_name (PStr (py "my&app")) = Return false.
Proof. repeat split; vm_compute; reflexivity. Qed.

Example docker_tag_examples :
  validate_docker_tag (PStr (py "latest")) = Return true /\
  validate_docker_tag (PStr (py "v1.0.0")) = Return true /\
  validate_docker_tag (PStr (py "invalid tag")) = Return false.
Proof. repeat split; vm_compute; reflexivity. Qed.

Example filename_examples :
  validate_filename rt0 (PStr (py "config.json")) = Return true /\
  validate_filename rt0 (PStr (py "../etc/passwd")) = Return false /\
  validate_filename rt0 (PStr (py "CON")) = Return false /\
  validate_filename rt0 (PStr (py "CON.txt")) = Return false /\
  validate_filename rt0 (PStr (py "con.txt")) = Return false.
Proof. repeat split; vm_compute; reflexivity. Qed.

Example kubernetes_examples :
  validate_kubernetes_namespace (PStr (py "my-namespace")) = Return true /\
  validate_kubernetes_namespace (PStr (py "-invalid")) = Return false /\
  validate_kubernetes_namespace (PStr (py "INVALID")) = Return false /\
  validate_kubernetes_resource_name (PStr (py "service.v1")) = Return true /\
  validate_kubernetes_resource_name (PStr (py "a")) = Return true.
Proof. repeat split; vm_compute; reflexivity. Qed.

Example identifier_examples :
  validate_identifier (PStr (py "myVar")) = Return true /\
  validate_identifier (PStr (py "_internal")) = Return true /\
  validate_identifier (PStr (py "123invalid")) = Return false.
Proof. repeat split; vm_compute; reflexivity. Qed.

Example within_directory_examples :
  is_within_directory rt0 (PStr (py "/var/app/data/file.txt")) (PStr (py "/var/app/data"))
    = Return true /\
  is_within_directory rt0 (PStr (py "/var/app/../etc/passwd")) (PStr (py "/var/app"))
    = Return false /\
  is_within_directory rt0 (PStr (py "data/x")) (PStr (py "/srv")) = Return true /\
  is_within_directory rt0 (PStr (py "~/x")) (PStr (py "/home")) = Return true.
Proof. repeat split; vm_compute; reflexivity. Qed.

Example normpath_examples :
  PosixPath.normpath (py "/var/app/../etc//passwd/.") = py "/var/etc/passwd" /\
  PosixPath.normpath (py "//a/b") = py "//a/b" /\
  PosixPath.normpath (py "///a/b/") = py "/a/b" /\
  PosixPath.normpath (py "../x/..") = py ".." /\
  PosixPath.normpath (py "/..") = py "/" /\
  PosixPath.normpath (py "a/..") = py "." /\
  PosixPath.splitext (py "archive.tar.gz") = (py "archive.tar", py ".gz") /\
  PosixPath.splitext (py ".bashrc") = (py ".bashrc", []) /\
  PosixPath.splitext (py "dir.d/name") = (py "dir.d/name", []).
Proof. repeat split; vm_compute; reflexivity. Qed.

Example path_traversal_examples :
  contains_path_traversal rt0 (PStr (py "../etc/passwd")) = Return true /\
  contains_path_traversal rt0 (PStr (py "safe/path/file.txt")) = Return false /\
  contains_path_traversal rt0 (PStr (py "normal_file.txt")) = Return false /\
  contains_path_traversal rt0 (PStr (py "/..")) = Return true.
Proof. repeat split; vm_compute; reflexivity. Qed.

Example sanitize_input_examples :
  sanitize_input (PStr (py "abc-123!@#")) (PStr ALPHANUMERIC_CHARS) = Return (py "abc123") /\
  sanitize_input (PStr (py "my_file.txt")) (PStr LOWERCASE_ALPHANUMERIC) = Return (py "myfiletxt").
Proof. repeat split; vm_compute; reflexivity. Qed.

(** The parametrized cases of the unit tests. *)
Example unit_tests_docker :
  agrees validate_docker_image_name
    [ ("myapp", true); ("registry.io/myapp", true); ("my-app_v1", true);
      ("registry.io/namespace/myapp", true); ("app123", true); ("a", true);
      ("MYAPP", false); ("my..app", false); ("my app", false); (".myapp", false);
      ("myapp.", false); ("my/app/", false); ("my|app", false); ("my&app", false);
      ("", false); ("   ", false) ]%string = true /\
  agrees validate_docker_tag
    [ ("latest", true); ("v1.0.0", true); ("sha-abc123", true); ("1.2.3-beta_1", true);
      ("a", true); ("A", true); ("invalid tag", false); ("tag|pipe", false);
      ("tag&amp", false); ("", false); ("   ", false) ]%string = true.
Proof. split; vm_compute; reflexivity. Qed.

Example unit_tests_filename :
  agrees (validate_filename rt0)
    [ ("config.json", true); ("data_file-v1.txt", true); ("file123.log", true);
      ("a.b", true); ("file", true); ("../etc/passwd", false);
      ("file/name.txt", false); ("file<name.txt", false); ("file>name.txt", false);
      ("file|name.txt", false); ("CON", false); ("PRN", false); ("CON.txt", false);
      ("", false); ("   ", false) ]%string = true.
Proof. vm_compute; reflexivity. Qed.

Example unit_tests_helm :
  agrees validate_helm_parameter
    [ ("app.replicas", true); ("config_name", true); ("namespace-name", true);
      ("simple", true); ("a.b.c.d", true); ("invalid param", false);
      ("param|pipe", false); ("", false) ]%string = true /\
  agrees validate_helm_value
    [ ("value123", true); ("path/to/resource", true); ("http://example.com", true);
      ("simple-value", true); ("value with spaces", false); ("value|pipe", false);
      ("", false) ]%string = true.
Proof. split; vm_compute; reflexivity. Qed.

Example unit_tests_kubernetes :
  agrees validate_kubernetes_namespace
    [ ("default", true); ("my-namespace", true); ("app123", true); ("a", true);
      ("abc-def-ghi", true); ("INVALID", false); ("-invalid", false);
      ("invalid-", false); ("in valid", false); ("in_valid", false);
      ("in.valid", false); ("", false) ]%string = true /\
  agrees validate_kubernetes_resource_name
    [ ("my-pod", true); ("service.v1", true); ("deployment-123", true); ("a", true);
      ("pod.svc.cluster.local", true); ("INVALID", false); ("-invalid", false);
      ("invalid-", false); (".invalid", false); ("invalid.", false);
      ("in valid", false); ("", false) ]%string = true.
Proof. split; vm_compute; reflexivity. Qed.

Example unit_tests_identifier :
  agrees validate_identifier
    [ ("myVar", true); ("_internal", true); ("value123", true); ("_", true);
      ("a", true); ("camelCase", true); ("snake_case", true); ("PascalCase", true);
      ("123invalid", false); ("my-var", false); ("my var", false); ("my.var", false);
      ("", false) ]%string = true /\
  agrees (is_alphanumeric rt0)
    [ ("abc123", true); ("ABC123", true); ("abc-123", false); ("abc_123", false);
      ("", false); ("   ", false) ]%string = true /\
  agrees is_alphanumeric_with_dash
    [ ("app-deployment-123", true); ("app123", true); ("APP-123", true);
      ("app_deployment", false); ("app.deployment", false); ("", false) ]%string = true.
Proof. repeat split; vm_compute; reflexivity. Qed.

Example unit_tests_traversal_and_shell :
  agrees (contains_path_traversal rt0)
    [ ("../etc/passwd", true); ("safe/path/file.txt", false); ("%2e%2e/passwd", true);
      ("../../passwd", true); ("/..", true); ("normal_file.txt", false);
      ("%252e%252e/passwd", true); ("..%2fpasswd", true); ("..%5cpasswd", true) ]%string
    = true /\
  agrees contains_shell_metacharacters
    [ ("file123", false); ("file.txt && rm -rf /", true); ("file | grep pattern", true);
      ("file; cat /etc/passwd", true); ("file$(whoami)", true); ("file`whoami`", true);
      ("file&background", true); ("file<input", true); ("file>output", true);
      ("file*wildcard", true); ("file?wildcard", true); ("file[0-9]", true);
      ("file{a,b}", true) ]%string = true.
Proof. split; vm_compute; reflexivity. Qed.

Example file_path_examples :
  validate_file_path rt0 (PStr (py "/var/app/data/file.txt")) (PStr (py "/var/app/data"))
    = Return true /\
  validate_file_path rt0 (PStr (py "/var/app/../etc/passwd")) (PStr (py "/var/app/data"))
    = Return false /\
  validate_file_path rt0 (PStr (py "../../etc/passwd")) (PStr (py "/var/app/data"))
    = Return false /\
  validate_file_path rt0 (PStr (py "/tmp/x/" ++ repeat 97 4097)) (PStr (py "/tmp/x"))
    = Return false /\
  validate_file_path rt0 (PStr (py "/tmp/x/a%00b")) (PStr (py "/tmp/x")) = Return false.
Proof. repeat split; vm_compute; reflexivity. Qed.

Example shell_quoting_examples :
  posix_unquote (specified_quoting (py "file" ++ [SQUOTE] ++ py "with" ++ [SQUOTE] ++ py "quotes"))
    = Some (py "file" ++ [SQUOTE] ++ py "with" ++ [SQUOTE] ++ py "quotes").
Proof. repeat split; vm_compute; reflexivity. Qed.

(** ** Strings: basic facts *)

Lemma str_eqb_eq (a b : pystr) : str_eqb a b = true <-> a = b.
Proof.
  revert b; induction a as [|x a IH]; intros [|y b]; simpl; split; intro H;
    try reflexivity; try discriminate.
  - apply andb_true_iff in H as [Hxy Hab].
    apply N.eqb_eq in Hxy. apply IH in Hab. now subst.
  - injection H as -> ->. rewrite N.eqb_refl. simpl. now apply IH.
Qed.

Lemma char_in_In (c : char) (s : pystr) : char_in c s = true <-> In c s.
Proof.
  unfold char_in. rewrite existsb_exists. split.
  - intros (x & Hx & E). apply N.eqb_eq in E. now subst.
  - intro H. exists c. split; [assumption | apply N.eqb_refl].
Qed.

Lemma isspace_whitespace_only (s : pystr) : isspace s = true <-> whitespace_only s.
Proof.
  unfold whitespace_only. destruct s as [|c s].
  - simpl. split; [discriminate | intros [H _]; now elim H].
  - unfold isspace. rewrite forallb_forall, Forall_forall.
    split; [intro H; split; [discriminate | exact H] | intros [_ H]; exact H].
Qed.

Lemma blank_empty : blank [] = true.
Proof. reflexivity. Qed.

Lemma blank_whitespace (s : pystr) : whitespace_only s -> blank s = true.
Proof.
  intro H. apply isspace_whitespace_only in H. unfold blank. rewrite H.
  apply orb_true_r.
Qed.

(** A whitespace character is below [!] or above [DEL]. *)
Lemma char_isspace_range (c : char) : char_isspace c = true -> c <= 32 \/ 133 <= c.
Proof.
  unfold char_isspace. intro H.
  repeat (apply orb_true_iff in H as [H|H]);
    repeat match goal with
           | H : _ && _ = true |- _ => apply andb_true_iff in H as [? ?]
           | H : (_ <=? _) = true |- _ => apply N.leb_le in H
           | H : (_ =? _) = true |- _ => apply N.eqb_eq in H
           end; lia.
Qed.

Lemma blank_head (c : char) (s : pystr) : char_isspace c = false -> blank (c :: s) = false.
Proof. intro H. unfold blank, isspace. simpl. now rewrite H. Qed.

(** ** Shell metacharacters *)

(** What the function computes: some character of the string is in the set
    the module builds. *)
Lemma contains_shell_metacharacters_spec (s : pystr) :
  contains_shell_metacharacters (PStr s) = Return true <->
  exists c, In c s /\ In c _SHELL_METACHARACTERS.
Proof.
  unfold contains_shell_metacharacters. cbn [bind require_str]. split.
  - intro H. injection H as H. apply existsb_exists in H as (c & Hc & Hm).
    exists c. split; [assumption | now apply char_in_In].
  - intros (c & Hc & Hm). f_equal. apply existsb_exists.
    exists c. split; [assumption | now apply char_in_In].
Qed.

(** The set of the module against the set of the specification: the module
    has the letters n, r and t where the specification has the newline, the
    carriage return and the tab; the other members agree. *)
Lemma metacharacter_sets_differ (c : char) :
  In c specified_metacharacters <->
  (In c _SHELL_METACHARACTERS /\ c <> 110 /\ c <> 114 /\ c <> 116)
  \/ c = LF \/ c = CR \/ c = TAB.
Proof.
  unfold specified_metacharacters, _SHELL_METACHARACTERS, LF, CR, TAB,
    BACKSLASH, DQUOTE, SQUOTE.
  cbn. split.
  - intro H. repeat (destruct H as [<-|H]; [ (left; split; [tauto | repeat split; discriminate]) || tauto | ]).
    contradiction.
  - intros [(H & Hn & Hr & Ht) | H].
    + repeat (destruct H as [<-|H]; [ tauto || congruence | ]). contradiction.
    + destruct H as [->| [->| ->]]; tauto.
Qed.

(** C1, at the inputs where the module and the claim part: a lone newline,
    carriage return or tab is reported free of metacharacters, although each
    is in the specified set, and the words of the unit test
    ([safe-filename.txt], expected free of them) and the plain letter n are
    reported to hold one, although no character of them is in the specified
    set. *)
Theorem shell_metacharacters_at_control_characters :
  contains_shell_metacharacters (PStr [LF]) = Return false /\
  contains_shell_metacharacters (PStr [CR]) = Return false /\
  contains_shell_metacharacters (PStr [TAB]) = Return false /\
  In LF specified_metacharacters /\
  In CR specified_metacharacters /\
  In TAB specified_metacharacters /\
  contains_shell_metacharacters (PStr (py "safe-filename.txt")) = Return true /\
  contains_shell_metacharacters (PStr (py "n")) = Return true /\
  existsb (fun c => char_in c specified_metacharacters) (py "safe-filename.txt") = false.
Proof.
  repeat split; try (vm_compute; reflexivity);
    apply char_in_In; vm_compute; reflexivity.
Qed.

(** ** Null bytes in file paths *)

(** A path that holds one of the three sequences of [_NULL_BYTE_SEQUENCES]
    is rejected, whatever the base. *)
Lemma validate_file_path_listed_null_sequences (rt : runtime) (path base : pystr)
    (null_byte : pystr) :
  In null_byte _NULL_BYTE_SEQUENCES ->
  str_contains null_byte path = true ->
  validate_file_path rt (PStr path) (PStr base) = Return false.
Proof.
  intros Hin Hc.
  assert (E : existsb (fun nb => str_contains nb path) _NULL_BYTE_SEQUENCES = true)
    by (apply existsb_exists; now exists null_byte).
  unfold validate_file_path. cbn [bind require_str]. rewrite E.
  destruct (blank path); [reflexivity|].
  destruct (_MAX_FILEPATH_LENGTH <? len path); reflexivity.
Qed.

(** C2, at the input of the unit test on null-byte injection: the path
    [/var/app/file.txt<NUL>.exe], which holds a literal NUL character, is
    accepted against the base [/var/app] in every runtime; the literal NUL
    is among the encodings the specification lists and not among the
    sequences the module scans for. *)
Theorem validate_file_path_accepts_literal_nul (rt : runtime) :
  validate_file_path rt
    (PStr (py "/var/app/file.txt" ++ [NUL] ++ py ".exe")) (PStr (py "/var/app"))
    = Return true /\
  str_contains [NUL] (py "/var/app/file.txt" ++ [NUL] ++ py ".exe") = true /\
  In [NUL] specified_null_encodings /\
  ~ In [NUL] _NULL_BYTE_SEQUENCES.
Proof.
  repeat split; try (vm_compute; reflexivity).
  - simpl; tauto.
  - simpl. intros [H|[H|[H|[]]]]; discriminate.
Qed.

(** ** Shell quoting *)

Lemma posix_read_specified_tail (s : pystr) :
  posix_read InSingleQuotes
    (flat_map (fun c => if c =? SQUOTE
                        then [SQUOTE; BACKSLASH; SQUOTE; SQUOTE] else [c]) s
     ++ [SQUOTE]) = Some s.
Proof.
  induction s as [|c s IH]; [reflexivity|].
  cbn [flat_map]. destruct (c =? SQUOTE) eqn:E.
  - apply N.eqb_eq in E. subst c. cbn -[flat_map] in *. now rewrite IH.
  - cbn -[flat_map]. rewrite E. now rewrite IH.
Qed.

(** The quoting the specification describes does round-trip: read back
    under the POSIX rules it is one word, the argument itself. *)
Lemma specified_quoting_roundtrip (s : pystr) :
  posix_unquote (specified_quoting s) = Some s.
Proof.
  unfold posix_unquote, specified_quoting. cbn -[flat_map].
  apply posix_read_specified_tail.
Qed.

(** C7, at an argument with one single quote: the module puts a quote, two
    backslashes and two quotes in its place, where the specified sequence
    has one backslash; the result is then not one shell word (its last
    quote opens a run that nothing closes), and so does not read back as
    the argument, which the specified quoting does. *)
Theorem sanitize_shell_argument_at_embedded_quote :
  sanitize_shell_argument (PStr (py "a" ++ [SQUOTE] ++ py "b"))
    = Return ([SQUOTE] ++ py "a" ++ [SQUOTE; BACKSLASH; BACKSLASH; SQUOTE; SQUOTE]
              ++ py "b" ++ [SQUOTE]) /\
  posix_unquote ([SQUOTE] ++ py "a" ++ [SQUOTE; BACKSLASH; BACKSLASH; SQUOTE; SQUOTE]
                 ++ py "b" ++ [SQUOTE]) = None /\
  specified_quoting (py "a" ++ [SQUOTE] ++ py "b")
    = [SQUOTE] ++ py "a" ++ [SQUOTE; BACKSLASH; SQUOTE; SQUOTE] ++ py "b" ++ [SQUOTE] /\
  posix_unquote (specified_quoting (py "a" ++ [SQUOTE] ++ py "b"))
    = Some (py "a" ++ [SQUOTE] ++ py "b") /\
  sanitize_shell_argument (PStr []) = Return [SQUOTE; SQUOTE].
Proof. repeat split; vm_compute; reflexivity. Qed.

(** ** Path traversal *)

(** The sequences of the list are written in lower case and in ASCII:
    [sequence.lower()] is the sequence. *)
Lemma traversal_sequences_lower (rt : runtime) (sequence : pystr) :
  In sequence _PATH_TRAVERSAL_SEQUENCES -> lower rt sequence = sequence.
Proof.
  unfold _PATH_TRAVERSAL_SEQUENCES. intro H. simpl in H.
  repeat (destruct H as [<-|H]; [reflexivity|]). contradiction.
Qed.

(** The list of the module, member by member: the two and three character
    forms with dots and a slash, the three forms with two backslashes, and
    the four percent-encoded forms. *)
Lemma traversal_sequences_listed :
  _PATH_TRAVERSAL_SEQUENCES =
  [ py ".."; py "/..";
    [DOT; BACKSLASH; BACKSLASH];
    [BACKSLASH; BACKSLASH; DOT; DOT];
    [DOT; DOT; BACKSLASH; BACKSLASH];
    py "../"; py "%2e%2e"; py "%252e%252e"; py "..%2f"; py "..%5c" ].
Proof. reflexivity. Qed.

(** A sequence of the list of the module that the lower-cased path holds
    is reported. *)
Lemma listed_sequence_reported (rt : runtime) (path sequence : pystr) :
  In sequence _PATH_TRAVERSAL_SEQUENCES ->
  str_contains sequence (lower rt path) = true ->
  contains_path_traversal rt (PStr path) = Return true.
Proof.
  intros Hin Hc. unfold contains_path_traversal. cbn [bind require_str].
  destruct (search _PATH_TRAVERSAL_PATTERN path); [reflexivity|].
  assert (E : existsb (fun sq => str_contains (lower rt sq) (lower rt path))
                _PATH_TRAVERSAL_SEQUENCES = true).
  { apply existsb_exists. exists sequence. split; [assumption|].
    now rewrite traversal_sequences_lower. }
  now rewrite E.
Qed.

Lemma startswith_contains (q s : pystr) :
  startswith q s = true -> str_contains q s = true.
Proof. intro H. destruct s; cbn [str_contains]; now rewrite H. Qed.

Lemma str_contains_tail (c : char) (q s : pystr) :
  str_contains (c :: q) s = true -> str_contains q s = true.
Proof.
  induction s as [|x s IH]; [discriminate|].
  cbn [str_contains startswith]. intro H. apply orb_true_iff in H as [H|H].
  - apply andb_true_iff in H as [_ H]. apply startswith_contains in H.
    rewrite H. apply orb_true_r.
  - rewrite (IH H). apply orb_true_r.
Qed.

Lemma startswith_app_l (q r : pystr) : forall s,
  startswith (q ++ r) s = true -> startswith q s = true.
Proof.
  induction q as [|c q IH]; intros s H; [now destruct s|].
  destruct s as [|x s]; [discriminate|]. cbn [app startswith] in *.
  apply andb_true_iff in H as [H1 H2]. now rewrite H1, (IH s H2).
Qed.

Lemma str_contains_app_l (q r s : pystr) :
  str_contains (q ++ r) s = true -> str_contains q s = true.
Proof.
  induction s as [|x s IH]; cbn [str_contains]; intro H.
  - rewrite orb_false_r in *. now apply startswith_app_l in H.
  - apply orb_true_iff in H as [H|H].
    + now rewrite (startswith_app_l q r _ H).
    + rewrite (IH H). apply orb_true_r.
Qed.

(** C8, at the input where the module and the claim part. Of the ten
    sequences the specification lists, nine are reported whenever the
    lower-cased path holds them, [%2e%2e/passwd] among such paths; the
    tenth, a dot and a backslash, is not: the list of the module spells its
    forms with a backslash with two of them, and [.\passwd], a dot, one
    backslash and a name, which the unit test of the repository expects to
    be reported, is reported free of traversal. *)
Theorem contains_path_traversal_at_single_backslash (rt : runtime) :
  In [DOT; BACKSLASH] specified_traversal_sequences /\
  str_contains [DOT; BACKSLASH] (lower rt ([DOT; BACKSLASH] ++ py "passwd")) = true /\
  contains_path_traversal rt (PStr ([DOT; BACKSLASH] ++ py "passwd")) = Return false /\
  ~ In [DOT; BACKSLASH] _PATH_TRAVERSAL_SEQUENCES /\
  In [DOT; BACKSLASH; BACKSLASH] _PATH_TRAVERSAL_SEQUENCES /\
  (forall sequence path,
     In sequence specified_traversal_sequences ->
     sequence <> [DOT; BACKSLASH] ->
     str_contains sequence (lower rt path) = true ->
     contains_path_traversal rt (PStr path) = Return true) /\
  contains_path_traversal rt (PStr (py "%2e%2e/passwd")) = Return true.
Proof.
  split; [cbn; tauto|]. split; [reflexivity|]. split; [reflexivity|].
  split.
  { cbn. intros H. repeat (destruct H as [H|H]; [discriminate H|]). exact H. }
  split; [cbn; tauto|]. split; [|reflexivity].
  intros sequence path Hin Hne Hc.
  assert (Hdots : In (py "..") _PATH_TRAVERSAL_SEQUENCES) by (cbn; tauto).
  cbn [specified_traversal_sequences In] in Hin.
  destruct Hin as [<-|[<-|[<-|[<-|[<-|[<-|[<-|[<-|[<-|[<-|[]]]]]]]]]]].
  - now apply (listed_sequence_reported rt path (py "..")).
  - apply (listed_sequence_reported rt path (py "/..")); [cbn; tauto | exact Hc].
  - now elim Hne.
  - apply (listed_sequence_reported rt path (py "..")); [exact Hdots|].
    now apply (str_contains_tail BACKSLASH).
  - apply (listed_sequence_reported rt path (py "..")); [exact Hdots|].
    now apply (str_contains_app_l (py "..") [BACKSLASH]).
  - apply (listed_sequence_reported rt path (py "../")); [cbn; tauto | exact Hc].
  - apply (listed_sequence_reported rt path (py "%2e%2e")); [cbn; tauto | exact Hc].
  - apply (listed_sequence_reported rt path (py "%252e%252e")); [cbn; tauto | exact Hc].
  - apply (listed_sequence_reported rt path (py "..%2f")); [cbn; tauto | exact Hc].
  - apply (listed_sequence_reported rt path (py "..%5c")); [cbn; tauto | exact Hc].
Qed.

(** ** Sanitizing by an allow-list *)

Lemma char_in_set_of (c : char) (allowed : pystr) :
  char_in c (set_of allowed) = if in_dec N.eq_dec c allowed then true else false.
Proof.
  unfold set_of. destruct (in_dec N.eq_dec c allowed) as [H|H].
  - apply char_in_In. now apply nodup_In.
  - destruct (char_in c (nodup N.eq_dec allowed)) eqn:E; [|reflexivity].
    apply char_in_In in E. apply nodup_In in E. contradiction.
Qed.

Lemma filter_allowed_kept (allowed s : pystr) :
  filter (fun c => char_in c (set_of allowed)) s = kept_subsequence allowed s.
Proof.
  induction s as [|c s IH]; [reflexivity|].
  simpl. rewrite char_in_set_of, IH.
  now destruct (in_dec N.eq_dec c allowed).
Qed.

Lemma kept_subsequence_sub (allowed s : pystr) :
  subsequence (kept_subsequence allowed s) s.
Proof.
  induction s as [|c s IH]; simpl; [constructor|].
  destruct (in_dec N.eq_dec c allowed); now constructor.
Qed.

Lemma kept_subsequence_In (allowed s : pystr) (c : char) :
  In c (kept_subsequence allowed s) <-> In c s /\ In c allowed.
Proof.
  induction s as [|x s IH]; simpl; [tauto|].
  destruct (in_dec N.eq_dec x allowed) as [H|H]; simpl; rewrite IH; split.
  - intros [->|[? ?]]; tauto.
  - intros [[->|?] ?]; tauto.
  - tauto.
  - intros [[->|?] ?]; [contradiction | tauto].
Qed.

Lemma kept_subsequence_count (allowed s : pystr) (c : char) :
  In c allowed ->
  count_occ N.eq_dec (kept_subsequence allowed s) c = count_occ N.eq_dec s c.
Proof.
  intro Hc. induction s as [|x s IH]; simpl; [reflexivity|].
  destruct (in_dec N.eq_dec x allowed) as [H|H]; simpl.
  - destruct (N.eq_dec x c); now rewrite IH.
  - destruct (N.eq_dec x c) as [->|]; [contradiction | exact IH].
Qed.

Lemma kept_subsequence_idem (allowed s : pystr) :
  kept_subsequence allowed (kept_subsequence allowed s) = kept_subsequence allowed s.
Proof.
  induction s as [|c s IH]; simpl; [reflexivity|].
  destruct (in_dec N.eq_dec c allowed) as [H|H]; simpl; [|exact IH].
  destruct (in_dec N.eq_dec c allowed); [now rewrite IH | contradiction].
Qed.

(** C10: on strings [sanitize_input] raises nothing and returns the
    characters of the input that occur in the allow-set, in their order (a
    subsequence of the input, with every occurrence of an allowed character
    and no other character; empty when none survives), and sanitizing the
    result again returns it unchanged. *)
Theorem sanitize_input_subsequence_idempotent (s allowed : pystr) :
  exists kept,
    sanitize_input (PStr s) (PStr allowed) = Return kept /\
    kept = kept_subsequence allowed s /\
    subsequence kept s /\
    (forall c, In c kept <-> In c s /\ In c allowed) /\
    (forall c, In c allowed -> count_occ N.eq_dec kept c = count_occ N.eq_dec s c) /\
    ((forall c, In c s -> ~ In c allowed) -> kept = []) /\
    sanitize_input (PStr kept) (PStr allowed) = Return kept.
Proof.
  exists (kept_subsequence allowed s).
  unfold sanitize_input. cbn [bind require_str].
  rewrite !filter_allowed_kept, kept_subsequence_idem.
  split; [reflexivity|]. split; [reflexivity|].
  split; [apply kept_subsequence_sub|].
  split; [intro c; apply kept_subsequence_In|].
  split; [intros c Hc; now apply kept_subsequence_count|].
  split; [|reflexivity].
  intro H. destruct (kept_subsequence allowed s) as [|c k] eqn:E; [reflexivity|].
  assert (Hc : In c (kept_subsequence allowed s)) by (rewrite E; now left).
  apply kept_subsequence_In in Hc as [Hs Ha]. now elim (H c).
Qed.

(** ** Containment in a directory *)

Example realpath_examples :
  realpath [] (py "/var/app/data") = py "/var/app/data" /\
  realpath [] (py "/") = py "/" /\
  realpath [(py "/var/app/link", py "/etc")] (py "/var/app/link/passwd") = py "/etc/passwd" /\
  realpath [(py "/var/app/cur", py "v2")] (py "/var/app/cur/x") = py "/var/app/v2/x".
Proof. repeat split; vm_compute; reflexivity. Qed.

Lemma startswith_prefix (p s : pystr) :
  startswith p s = true <-> exists rest, s = p ++ rest.
Proof.
  revert s; induction p as [|x p IH]; intros s; simpl.
  - split; [intros _; now exists s | reflexivity].
  - destruct s as [|y s]; split.
    + discriminate.
    + intros (rest & H). discriminate.
    + intro H. apply andb_true_iff in H as [Hxy Hp].
      apply N.eqb_eq in Hxy. subst y.
      apply IH in Hp as (rest & ->). now exists rest.
    + intros (rest & H). injection H as -> ->.
      rewrite N.eqb_refl. simpl. apply IH. now exists rest.
Qed.

Lemma expanduser_raises (rt : runtime) (p : pystr) (e : exn) :
  os_errors rt ->
  PosixPath.expanduser rt p = Raise e -> e = ValueError \/ e = OSError.
Proof.
  intros (_ & Huid & Hnam). unfold PosixPath.expanduser.
  destruct p as [|c tail]; [discriminate|].
  destruct (negb (c =? TILDE)); [discriminate|].
  destruct (PosixPath.break_sep tail) as [name rest].
  destruct (is_empty name).
  - destruct (environ_HOME rt); [discriminate|].
    destruct (pwd_getpwuid_dir rt) as [home|e'] eqn:E; [discriminate|].
    destruct (Huid e' eq_refl) as [->| ->]; [discriminate|].
    intro H. injection H as <-. now right.
  - destruct (pwd_getpwnam_dir rt name) as [home|e'] eqn:E; [discriminate|].
    destruct (Hnam name e' E) as [->|[->| ->]]; [discriminate| |];
      intro H; injection H as <-; tauto.
Qed.

Lemma abspath_raises (rt : runtime) (p : pystr) (e : exn) :
  os_errors rt -> PosixPath.abspath rt p = Raise e -> e = OSError.
Proof.
  intros (Hcwd & _). unfold PosixPath.abspath.
  destruct (PosixPath.isabs p); [discriminate|].
  destruct (os_getcwd rt) as [cwd|e'] eqn:E; [discriminate|].
  cbn [bind]. intro H. injection H as <-. now apply Hcwd.
Qed.

Lemma absolute_form_raises (rt : runtime) (p : pystr) (e : exn) :
  os_errors rt -> absolute_form rt p = Raise e -> e = ValueError \/ e = OSError.
Proof.
  intros Hrt. unfold absolute_form.
  destruct (PosixPath.expanduser rt p) as [x|e'] eqn:E; cbn [bind].
  - intro H. right. now apply (abspath_raises rt x e Hrt).
  - intro H. injection H as <-. now apply (expanduser_raises rt p e' Hrt).
Qed.

(** The [try] body in terms of the two absolute forms. *)
Lemma resolve_and_compare_forms (rt : runtime) (path base : pystr) :
  resolve_and_compare rt path base =
  (full_path <- absolute_form rt path ;;
   full_base <- absolute_form rt base ;;
   Return (startswith (with_trailing_sep full_base) full_path)).
Proof.
  unfold resolve_and_compare, absolute_form, with_trailing_sep.
  destruct (PosixPath.expanduser rt path) as [x|e]; cbn [bind]; [|reflexivity].
  destruct (PosixPath.abspath rt x) as [fp|e]; cbn [bind]; [|reflexivity].
  destruct (PosixPath.expanduser rt base) as [y|e]; cbn [bind]; [|reflexivity].
  destruct (PosixPath.abspath rt y) as [fb|e]; cbn [bind]; [|reflexivity].
  now destruct (endswith [PosixPath.sep] fb).
Qed.

Lemma resolve_and_compare_raises (rt : runtime) (path base : pystr) (e : exn) :
  os_errors rt ->
  resolve_and_compare rt path base = Raise e -> e = ValueError \/ e = OSError.
Proof.
  intros Hrt. rewrite resolve_and_compare_forms.
  destruct (absolute_form rt path) as [fp|e1] eqn:E1; cbn [bind].
  - destruct (absolute_form rt base) as [fb|e2] eqn:E2; cbn [bind]; [discriminate|].
    intro H. injection H as <-. now apply (absolute_form_raises rt base e2 Hrt).
  - intro H. injection H as <-. now apply (absolute_form_raises rt path e1 Hrt).
Qed.

Lemma contains_path_traversal_returns (rt : runtime) (p : pystr) :
  exists b, contains_path_traversal rt (PStr p) = Return b.
Proof.
  unfold contains_path_traversal. cbn [bind require_str].
  destruct (search _PATH_TRAVERSAL_PATTERN p); [now exists true|].
  destruct (existsb _ _PATH_TRAVERSAL_SEQUENCES); [now exists true|].
  destruct (unquote rt p); eexists; reflexivity.
Qed.

Lemma is_within_directory_returns (rt : runtime) (path base : pystr) :
  os_errors rt ->
  exists b, is_within_directory rt (PStr path) (PStr base) = Return b.
Proof.
  intro Hrt. unfold is_within_directory. cbn [bind require_str].
  destruct (resolve_and_compare rt path base) as [b|e] eqn:E; [now exists b|].
  destruct (resolve_and_compare_raises rt path base e Hrt E) as [->| ->];
    now exists false.
Qed.

(** C4: in a runtime whose system calls fail with the errors they are
    documented to fail with, [is_within_directory] on strings returns a
    boolean; when the resolution of either argument raises, that boolean is
    false; and [validate_file_path] on strings returns a boolean too. *)
Theorem resolution_failure_is_false (rt : runtime) (path base : pystr) :
  os_errors rt ->
  (exists b, is_within_directory rt (PStr path) (PStr base) = Return b) /\
  (forall e, resolve_and_compare rt path base = Raise e ->
     is_within_directory rt (PStr path) (PStr base) = Return false) /\
  (forall e, absolute_form rt path = Raise e \/ absolute_form rt base = Raise e ->
     is_within_directory rt (PStr path) (PStr base) = Return false) /\
  (exists b, validate_file_path rt (PStr path) (PStr base) = Return b).
Proof.
  intro Hrt.
  assert (Hfail : forall e, resolve_and_compare rt path base = Raise e ->
            is_within_directory rt (PStr path) (PStr base) = Return false).
  { intros e E. unfold is_within_directory. cbn [bind require_str]. rewrite E.
    now destruct (resolve_and_compare_raises rt path base e Hrt E) as [->| ->]. }
  split; [now apply is_within_directory_returns|].
  split; [exact Hfail|].
  split.
  - intros e H.
    destruct (resolve_and_compare rt path base) as [b|e'] eqn:E;
      [|now apply (Hfail e')].
    exfalso. rewrite resolve_and_compare_forms in E.
    destruct (absolute_form rt path) as [fp|e1]; cbn [bind] in E; [|discriminate].
    destruct (absolute_form rt base) as [fb|e2]; cbn [bind] in E; [|discriminate].
    destruct H; discriminate.
  - unfold validate_file_path. cbn [bind require_str].
    destruct (blank path); [now exists false|].
    destruct (_MAX_FILEPATH_LENGTH <? len path); [now exists false|].
    destruct (existsb _ _NULL_BYTE_SEQUENCES); [now exists false|].
    destruct (contains_path_traversal_returns rt path) as [t ->]. cbn [bind].
    destruct t; [now exists false|].
    now apply is_within_directory_returns.
Qed.

Lemma rt_no_cwd_os_errors : os_errors rt_no_cwd.
Proof.
  repeat split; simpl.
  - intros e H. now injection H as <-.
  - intros e H. injection H as <-. now left.
  - intros name e H. injection H as <-. tauto.
Qed.

(** C4 at work: with the working directory gone, a relative path makes
    [os.getcwd] raise, and the verdict is false; a user name the password
    database refuses does the same. *)
Lemma resolution_failure_is_false_witness :
  os_errors rt_no_cwd /\
  absolute_form rt_no_cwd (py "data/file.txt") = Raise OSError /\
  absolute_form rt_no_cwd (py "~who/file.txt") = Raise ValueError /\
  is_within_directory rt_no_cwd (PStr (py "data/file.txt")) (PStr (py "/srv")) = Return false /\
  is_within_directory rt_no_cwd (PStr (py "/srv/x")) (PStr (py "~who/file.txt")) = Return false /\
  (exists b, validate_file_path rt_no_cwd (PStr (py "data/file.txt")) (PStr (py "/srv")) = Return b).
Proof.
  split; [exact rt_no_cwd_os_errors|].
  split; [reflexivity|]. split; [reflexivity|].
  split.
  - apply (proj1 (proj2 (proj2 (resolution_failure_is_false rt_no_cwd
             (py "data/file.txt") (py "/srv") rt_no_cwd_os_errors))) OSError).
    left. reflexivity.
  - split.
    + apply (proj1 (proj2 (proj2 (resolution_failure_is_false rt_no_cwd
               (py "/srv/x") (py "~who/file.txt") rt_no_cwd_os_errors))) ValueError).
      right. reflexivity.
    + apply (resolution_failure_is_false rt_no_cwd
               (py "data/file.txt") (py "/srv") rt_no_cwd_os_errors).
Defined.

(** C3, refuted as stated: with the root as base the module adds no
    separator (the resolved base already ends with one) and accepts [/etc];
    the specified test appends one all the same and compares with [//].
    No symbolic link is involved. *)
Lemma root_base_no_separator_appended :
  is_within_directory rt0 (PStr (py "/etc")) (PStr (py "/")) = Return true /\
  canonical [] rt0 (py "/etc") = Return (py "/etc") /\
  canonical [] rt0 (py "/") = Return (py "/") /\
  within_as_specified [] rt0 (py "/etc") (py "/") = Return false.
Proof. repeat split; vm_compute; reflexivity. Qed.

(** The module normalises the text of a path and follows no symbolic link:
    with [/var/app/link] a link to [/etc], it places [/var/app/link/passwd]
    within [/var/app], while the symlink-resolved form is [/etc/passwd]. *)
Lemma is_within_directory_follows_no_link :
  is_within_directory rt0 (PStr (py "/var/app/link/passwd")) (PStr (py "/var/app"))
    = Return true /\
  canonical [(py "/var/app/link", py "/etc")] rt0 (py "/var/app/link/passwd")
    = Return (py "/etc/passwd") /\
  within_as_specified [(py "/var/app/link", py "/etc")] rt0
    (py "/var/app/link/passwd") (py "/var/app") = Return false.
Proof. repeat split; vm_compute; reflexivity. Qed.

Lemma canonical_of_absolute (links : symlinks) (rt : runtime) (p full : pystr) :
  absolute_form rt p = Return full ->
  realpath links full = full ->
  canonical links rt p = Return full.
Proof.
  unfold absolute_form, canonical. intros H Hl.
  destruct (PosixPath.expanduser rt p) as [x|e]; cbn [bind] in *; [|discriminate].
  rewrite H. cbn [bind]. now rewrite Hl.
Qed.

(** C3 as amended: for a path and a base on whose way no symbolic link lies
    (resolving the links of the absolute, tilde-expanded form changes
    nothing, so that form is the canonical one), [is_within_directory]
    returns true exactly when the canonical form of the path starts with
    that of the base, the base taken with a separator after it unless it
    ends with one; and no path whose canonical form starts with [/var/app2]
    is accepted against a base whose canonical form is [/var/app]. *)
Theorem is_within_directory_prefix (links : symlinks) (rt : runtime)
    (path base full_path full_base : pystr) :
  absolute_form rt path = Return full_path ->
  absolute_form rt base = Return full_base ->
  realpath links full_path = full_path ->
  realpath links full_base = full_base ->
  canonical links rt path = Return full_path /\
  canonical links rt base = Return full_base /\
  (exists b, is_within_directory rt (PStr path) (PStr base) = Return b) /\
  (is_within_directory rt (PStr path) (PStr base) = Return true <->
   exists rest, full_path = with_trailing_sep full_base ++ rest) /\
  (full_base = py "/var/app" ->
   startswith (py "/var/app2") full_path = true ->
   is_within_directory rt (PStr path) (PStr base) = Return false).
Proof.
  intros Hp Hb Hlp Hlb.
  assert (E : is_within_directory rt (PStr path) (PStr base)
              = Return (startswith (with_trailing_sep full_base) full_path)).
  { unfold is_within_directory. cbn [bind require_str].
    rewrite resolve_and_compare_forms, Hp, Hb. reflexivity. }
  rewrite E.
  split; [now apply canonical_of_absolute|].
  split; [now apply canonical_of_absolute|].
  split; [eexists; reflexivity|]. split.
  - rewrite <- startswith_prefix. split; [intro H; now injection H | intros ->; reflexivity].
  - intros -> H. apply startswith_prefix in H as (rest & ->). reflexivity.
Qed.

(** C3 at work, with a link elsewhere in the file system: a file below the
    base is within it, and [/var/app2/secret] is not within [/var/app]. *)
Lemma is_within_directory_prefix_witness :
  is_within_directory rt0 (PStr (py "/var/app/data/file.txt")) (PStr (py "/var/app/data"))
    = Return true /\
  is_within_directory rt0 (PStr (py "/var/app2/secret")) (PStr (py "/var/app"))
    = Return false.
Proof.
  split.
  - apply (proj1 (proj2 (proj2 (proj2 (is_within_directory_prefix
             [(py "/opt/current", py "/opt/v2")] rt0
             (py "/var/app/data/file.txt") (py "/var/app/data")
             (py "/var/app/data/file.txt") (py "/var/app/data")
             eq_refl eq_refl eq_refl eq_refl))))).
    exists (py "file.txt"). reflexivity.
  - apply (proj2 (proj2 (proj2 (proj2 (is_within_directory_prefix
             [(py "/opt/current", py "/opt/v2")] rt0
             (py "/var/app2/secret") (py "/var/app")
             (py "/var/app2/secret") (py "/var/app")
             eq_refl eq_refl eq_refl eq_refl))))); reflexivity.
Defined.

(** ** Empty, blank and non-text arguments *)

Lemma require_str_non_text (name : string) (v : pyval) :
  is_text v = false -> require_str name v = type_error name v.
Proof. destruct v; [discriminate | reflexivity ..]. Qed.

Ltac blank_case H :=
  cbn [bind require_str]; rewrite H; reflexivity.

Ltac non_text_case H :=
  rewrite (require_str_non_text _ _ H); reflexivity.

(** C9: each validator returns false on the empty string and on a string of
    whitespace only. Every public function but one raises [TypeError] on the
    first of its arguments that is not a string, with a message made of the
    name of that parameter, as the [def] line of the function gives it, and
    of the type of the value; this holds in every runtime, whatever its file
    system answers. The one is [is_valid_identifier]: its parameter is
    [input_str], and the message names [identifier], the parameter of
    [validate_identifier], which it hands its argument to. *)
Theorem blank_is_false_and_non_text_raises (rt : runtime) (s t : pystr) (v : pyval) :
  s = [] \/ whitespace_only s ->
  is_text v = false ->
  ( validate_docker_image_name (PStr s) = Return false /\
    validate_docker_tag (PStr s) = Return false /\
    validate_file_path rt (PStr s) (PStr t) = Return false /\
    validate_filename rt (PStr s) = Return false /\
    is_safe_filename rt (PStr s) = Return false /\
    validate_helm_parameter (PStr s) = Return false /\
    validate_helm_value (PStr s) = Return false /\
    validate_kubernetes_namespace (PStr s) = Return false /\
    validate_kubernetes_resource_name (PStr s) = Return false /\
    validate_identifier (PStr s) = Return false /\
    is_valid_identifier (PStr s) = Return false /\
    is_alphanumeric rt (PStr s) = Return false /\
    is_alphanumeric_with_dash (PStr s) = Return false ) /\
  (forall (f : public_function) (args : list pyval) (i : nat) (name : string),
     f <> Fn_is_valid_identifier ->
     List.length args = List.length (parameters f) ->
     nth_error (parameters f) i = Some name ->
     nth_error args i = Some v ->
     (forall j a, (j < i)%nat -> nth_error args j = Some a -> is_text a = true) ->
     call rt f args = Some (type_error name v)) /\
  parameters Fn_is_valid_identifier = ["input_str"%string] /\
  call rt Fn_is_valid_identifier [v] = Some (type_error "identifier" v).
Proof.
  intros Hs Hv.
  assert (Hb : blank s = true).
  { destruct Hs as [->|Hs]; [apply blank_empty | now apply blank_whitespace]. }
  split; [|split].
  - unfold validate_docker_image_name, validate_docker_tag, validate_file_path,
      is_safe_filename, validate_filename, validate_helm_parameter,
      validate_helm_value, validate_kubernetes_namespace,
      validate_kubernetes_resource_name, is_valid_identifier,
      validate_identifier, is_alphanumeric, is_alphanumeric_with_dash.
    repeat split; blank_case Hb.
  - intros f args i name Hf Hlen Hn Ha Hprev.
    assert (Hi : (i < List.length (parameters f))%nat)
      by (apply nth_error_Some; congruence).
    destruct v as [x| | | |]; [discriminate Hv | ..];
      destruct f; try (now elim Hf); cbn [parameters List.length] in Hlen, Hn, Hi;
      destruct args as [|a [|a2 [|a3 args]]]; try discriminate Hlen;
      destruct i as [|[|i]]; try lia;
      cbn [nth_error] in Hn, Ha; injection Hn as <-; injection Ha as ->;
      try reflexivity;
      (pose proof (Hprev 0%nat a (Nat.lt_0_succ 0) eq_refl) as Hfirst;
       destruct a; try discriminate Hfirst; reflexivity).
  - split; [reflexivity|].
    destruct v; [discriminate Hv | reflexivity ..].
Qed.

(** C9 at work: a string of three spaces, and [None] where a string is
    due, first as the second argument and then as the first, in the runtime
    whose system calls all fail. *)
Lemma blank_is_false_and_non_text_raises_witness :
  validate_docker_tag (PStr (py "   ")) = Return false /\
  validate_file_path rt_no_cwd (PStr (py "   ")) (PStr (py "/srv")) = Return false /\
  call rt_no_cwd Fn_validate_file_path [PStr (py "/srv"); PNone]
    = Some (Raise (TypeError (py "base_path must be a string, got NoneType"))) /\
  call rt_no_cwd Fn_is_within_directory [PNone; PInt 5]
    = Some (Raise (TypeError (py "path must be a string, got NoneType"))).
Proof.
  assert (Hs : py "   " = [] \/ whitespace_only (py "   ")).
  { right. apply isspace_whitespace_only. reflexivity. }
  pose proof (blank_is_false_and_non_text_raises rt_no_cwd (py "   ") (py "/srv")
                PNone Hs eq_refl) as (Hblank & Hraise & _).
  split; [apply Hblank|]. split; [apply Hblank|]. split.
  - apply (Hraise Fn_validate_file_path [PStr (py "/srv"); PNone] 1%nat "base_path"%string);
      [discriminate | reflexivity | reflexivity | reflexivity |].
    intros [|j] a Hj E; [injection E as <-; reflexivity | lia].
  - apply (Hraise Fn_is_within_directory [PNone; PInt 5] 0%nat "path"%string);
      [discriminate | reflexivity | reflexivity | reflexivity |].
    intros j a Hj. lia.
Defined.

(** C9 as the specification words it fails at the alias: the parameter of
    [is_valid_identifier] is [input_str], and the error it raises names
    [identifier]. *)
Lemma is_valid_identifier_names_identifier :
  parameters Fn_is_valid_identifier = ["input_str"%string] /\
  call rt0 Fn_is_valid_identifier [PNone]
    = Some (Raise (TypeError (py "identifier must be a string, got NoneType"))) /\
  call rt0 Fn_is_valid_identifier [PNone] <> Some (type_error "input_str" PNone).
Proof.
  split; [reflexivity|]. split; [reflexivity|].
  intro H. vm_compute in H. discriminate H.
Qed.

(** ** Matching: what the anchored patterns accept *)

Lemma match_anchored_void (s : pystr) : match_anchored Void s = false.
Proof.
  induction s as [|c s IH]; [reflexivity|].
  change (match_anchored Void (c :: s))
    with ((at_dollar (c :: s) && false) || match_anchored Void s).
  now rewrite IH, andb_false_r.
Qed.

Lemma match_anchored_cons (r : regex) (c : char) (s : pystr) :
  match_anchored r (c :: s)
  = (at_dollar (c :: s) && nullable r) || match_anchored (deriv c r) s.
Proof. reflexivity. Qed.

Lemma printable_no_space (ranges : list (char * char)) (c : char) :
  printable ranges = true -> char_isspace c = true -> in_class ranges c = false.
Proof.
  intros Hp Hc. apply char_isspace_range in Hc.
  unfold in_class. apply not_true_is_false. intro H.
  apply existsb_exists in H as ([a b] & Hin & Hab).
  unfold printable in Hp. rewrite forallb_forall in Hp.
  specialize (Hp (a, b) Hin). simpl in Hp.
  apply andb_true_iff in Hp as [Ha Hb]. apply andb_true_iff in Hab as [Hac Hcb].
  apply N.leb_le in Ha, Hb, Hac, Hcb. lia.
Qed.

Lemma matched_not_blank (r : regex) (s : pystr) :
  starts_printable r -> match_anchored r s = true -> blank s = false.
Proof.
  intros [Hn Hd] Hm. destruct s as [|c s].
  - simpl in Hm. rewrite Hn in Hm. discriminate.
  - destruct (char_isspace c) eqn:Hc; [|now apply blank_head].
    rewrite match_anchored_cons, Hn, (Hd c Hc), match_anchored_void in Hm.
    rewrite andb_false_r in Hm. discriminate.
Qed.

Ltac starts_printable_tac :=
  split; [reflexivity|];
  let c := fresh "c" in let Hc := fresh "Hc" in
  intros c Hc; cbn -[in_class];
  match goal with
  | |- context [in_class ?R c] => rewrite (printable_no_space R c eq_refl Hc)
  end; reflexivity.

Lemma patterns_start_printable (k : kind) : starts_printable (pattern_of k).
Proof. destruct k; starts_printable_tac. Qed.

Lemma alphanumeric_dash_starts_printable : starts_printable _ALPHANUMERIC_DASH_PATTERN.
Proof. starts_printable_tac. Qed.

(** [s.endswith("\n")] on a string with a first character. *)
Lemma endswith_cons (x c d : char) (s : pystr) :
  endswith [x] (c :: d :: s) = endswith [x] (d :: s).
Proof.
  unfold endswith. cbn [rev].
  destruct (rev s ++ [d]) as [|y l] eqn:E.
  - now destruct (rev s).
  - reflexivity.
Qed.

Lemma endswith_single (x c : char) : endswith [x] [c] = (x =? c).
Proof. unfold endswith. simpl. apply andb_true_r. Qed.

Lemma endswith_tail (x c : char) (s : pystr) :
  endswith [x] (c :: s) = false -> endswith [x] s = false.
Proof.
  destruct s as [|d s]; [reflexivity|]. now rewrite endswith_cons.
Qed.

(** The match of [$] before a last newline: a string the pattern matches,
    and that does not end with a newline, is still matched with a newline
    after it. *)
Lemma match_anchored_newline (s : pystr) : forall r : regex,
  match_anchored r s = true ->
  endswith [LF] s = false ->
  match_anchored r (s ++ [LF]) = true.
Proof.
  induction s as [|c s IH]; intros r Hm He.
  - change (match_anchored r []) with ((true && nullable r) || false) in Hm.
    rewrite orb_false_r in Hm. cbn [andb] in Hm.
    cbn [app]. rewrite match_anchored_cons. cbn [at_dollar].
    now rewrite N.eqb_refl, Hm.
  - cbn [app]. rewrite match_anchored_cons in *.
    apply orb_true_iff in Hm as [Hm|Hm].
    + apply andb_true_iff in Hm as [Hd _]. destruct s as [|d s]; [|discriminate].
      simpl in Hd. rewrite endswith_single in He.
      rewrite N.eqb_sym in Hd. congruence.
    + rewrite (IH _ Hm (endswith_tail _ _ _ He)). apply orb_true_r.
Qed.

(** The strings [[class]*$] matches when they end with no newline are the
    strings over the class. *)
Lemma star_class_chars (ranges : list (char * char)) (s : pystr) :
  match_anchored (Star (Cls ranges)) s = true ->
  endswith [LF] s = false ->
  forallb (in_class ranges) s = true.
Proof.
  induction s as [|c s IH]; intros Hm He; [reflexivity|].
  rewrite match_anchored_cons in Hm. apply orb_true_iff in Hm as [Hm|Hm].
  - apply andb_true_iff in Hm as [Hd _]. destruct s as [|d s]; [|discriminate].
    simpl in Hd. rewrite endswith_single, N.eqb_sym in He. congruence.
  - cbn -[in_class] in Hm. cbn [forallb].
    destruct (in_class ranges c).
    + simpl in Hm. rewrite (IH Hm (endswith_tail _ _ _ He)). reflexivity.
    + simpl in Hm. rewrite match_anchored_void in Hm. discriminate.
Qed.

Lemma plus_class_chars (ranges : list (char * char)) (s : pystr) :
  match_anchored (Plus (Cls ranges)) s = true ->
  endswith [LF] s = false ->
  forallb (in_class ranges) s = true.
Proof.
  destruct s as [|c s]; intros Hm He; [reflexivity|].
  rewrite match_anchored_cons in Hm. cbn -[in_class match_anchored] in Hm.
  cbn [forallb]. destruct (in_class ranges c).
  - cbn -[match_anchored] in Hm.
    destruct s as [|d s]; [reflexivity|].
    apply (star_class_chars ranges (d :: s)).
    + destruct (at_dollar (c :: d :: s)) eqn:E; [discriminate E | exact Hm].
    + now rewrite endswith_cons in He.
  - cbn -[match_anchored] in Hm. rewrite match_anchored_void in Hm.
    rewrite andb_false_r in Hm. discriminate.
Qed.

(** A counted run over a class: a string over the class is matched when
    its length is within the bounds, and is not when it is longer. *)
Lemma rep_class_within (ranges : list (char * char)) (s : pystr) :
  forall lo hi : nat,
  forallb (in_class ranges) s = true ->
  (lo <= List.length s <= hi)%nat ->
  match_anchored (Rep (Cls ranges) lo hi) s = true.
Proof.
  induction s as [|c s IH]; intros lo hi Hf Hl.
  - simpl in Hl. assert (lo = 0%nat) as -> by lia. reflexivity.
  - cbn [forallb] in Hf. apply andb_true_iff in Hf as [Hc Hf].
    cbn [List.length] in Hl. destruct hi as [|hi]; [lia|].
    rewrite match_anchored_cons. cbn -[in_class match_anchored at_dollar].
    rewrite Hc. cbn -[match_anchored at_dollar].
    rewrite (IH (Nat.pred lo) hi Hf) by lia. apply orb_true_r.
Qed.

Lemma rep_class_beyond (ranges : list (char * char)) (s : pystr) :
  forall lo hi : nat,
  in_class ranges LF = false ->
  forallb (in_class ranges) s = true ->
  (hi < List.length s)%nat ->
  match_anchored (Rep (Cls ranges) lo hi) s = false.
Proof.
  induction s as [|c s IH]; intros lo hi Hnl Hf Hl.
  - simpl in Hl. lia.
  - cbn [forallb] in Hf. apply andb_true_iff in Hf as [Hc Hf].
    cbn [List.length] in Hl. rewrite match_anchored_cons.
    assert (Hd : at_dollar (c :: s) = false).
    { destruct s as [|d s]; [|reflexivity]. simpl.
      apply N.eqb_neq. intros ->. congruence. }
    rewrite Hd. cbn [andb orb].
    destruct hi as [|hi]; [apply match_anchored_void|].
    cbn -[in_class match_anchored]. rewrite Hc. cbn -[match_anchored].
    apply IH; [assumption | assumption | lia].
Qed.

(** ** The derivative matcher decides the language *)

Lemma lang_void (s : pystr) : ~ lang Void s.
Proof. intro H. inversion H. Qed.

Ltac void_case :=
  match goal with
  | H : lang Void _ |- _ => now apply lang_void in H
  end.

Lemma lang_seq_smart (a b : regex) (s : pystr) :
  lang (Re.seq a b) s <-> lang (Seq a b) s.
Proof.
  destruct a; cbn [Re.seq]; try tauto.
  - split; [intro H; now apply lang_void in H|].
    intro H. inversion H; subst. void_case.
  - split.
    + intro H. apply (lang_seq Eps b [] s); [constructor | exact H].
    + intro H. inversion H as [| | | r1 r2 u v Hu Hv E1 E2 | | | | | |]; subst.
      inversion Hu; subst. exact Hv.
Qed.

Lemma lang_alt_smart (a b : regex) (s : pystr) :
  lang (Re.alt a b) s <-> lang (Alt a b) s.
Proof.
  assert (Hl : lang b s <-> lang (Alt Void b) s).
  { split; [now apply lang_alt_r|]. intro H. inversion H; subst;
      [void_case | assumption]. }
  assert (Hr : lang a s <-> lang (Alt a Void) s).
  { split; [now apply lang_alt_l|]. intro H. inversion H; subst;
      [assumption | void_case]. }
  destruct a; [exact Hl | destruct b; cbn [Re.alt]; (exact Hr || tauto) .. ].
Qed.

Lemma nullable_lang (r : regex) :
  counted_ok r = true -> (nullable r = true <-> lang r []).
Proof.
  induction r as [| | ranges | | r1 IH1 r2 IH2 | r1 IH1 r2 IH2 | r1 IH1 | r1 IH1 lo hi];
    cbn [counted_ok nullable]; intro Hok.
  - split; [discriminate | intro H; inversion H].
  - split; [constructor | reflexivity].
  - split; [discriminate | intro H; inversion H].
  - split; [discriminate | intro H; inversion H].
  - apply andb_true_iff in Hok as [H1 H2]. rewrite andb_true_iff, (IH1 H1), (IH2 H2).
    split.
    + intros [Ha Hb]. apply (lang_seq r1 r2 [] []); assumption.
    + intro H. inversion H; subst.
      destruct u; [|discriminate]. destruct v; [|discriminate]. tauto.
  - apply andb_true_iff in Hok as [H1 H2]. rewrite orb_true_iff, (IH1 H1), (IH2 H2).
    split.
    + intros [Ha|Hb]; [now apply lang_alt_l | now apply lang_alt_r].
    + intro H. inversion H; subst; tauto.
  - split; [constructor | reflexivity].
  - apply andb_true_iff in Hok as [H1 H2]. apply negb_true_iff in H2.
    rewrite H2, orb_false_r. split.
    + intro H. apply Nat.eqb_eq in H. subst lo. constructor.
    + intro H. inversion H; subst; [reflexivity|].
      destruct u; [|discriminate].
      apply (IH1 H1) in H4. congruence.
Qed.

Lemma counted_ok_seq (a b : regex) :
  counted_ok a = true -> counted_ok b = true -> counted_ok (Re.seq a b) = true.
Proof. intros Ha Hb. destruct a; cbn [Re.seq counted_ok] in *; now rewrite ?Ha, ?Hb. Qed.

Lemma counted_ok_alt (a b : regex) :
  counted_ok a = true -> counted_ok b = true -> counted_ok (Re.alt a b) = true.
Proof.
  intros Ha Hb.
  destruct a; [exact Hb | destruct b; cbn [Re.alt counted_ok] in *; now rewrite ?Ha, ?Hb ..].
Qed.

Lemma counted_ok_deriv (c : char) (r : regex) :
  counted_ok r = true -> counted_ok (deriv c r) = true.
Proof.
  induction r as [| | ranges | | r1 IH1 r2 IH2 | r1 IH1 r2 IH2 | r1 IH1 | r1 IH1 lo hi];
    cbn [counted_ok deriv]; intro Hok; try reflexivity.
  - now destruct (in_class ranges c).
  - now destruct (c =? LF).
  - apply andb_true_iff in Hok as [H1 H2].
    destruct (nullable r1).
    + apply counted_ok_alt; [apply counted_ok_seq|]; auto.
    + apply counted_ok_seq; auto.
  - apply andb_true_iff in Hok as [H1 H2]. apply counted_ok_alt; auto.
  - apply counted_ok_seq; auto.
  - apply andb_true_iff in Hok as [H1 H2]. destruct hi; [reflexivity|].
    apply counted_ok_seq; [auto|]. cbn [counted_ok]. now rewrite H1, H2.
Qed.

(** The strings of a starred pattern that begin with [c]: a first round
    that begins with [c], then more rounds. *)
Lemma lang_star_cons_inv (r : regex) (w : pystr) :
  lang (Star r) w ->
  forall c s, w = c :: s ->
  exists u v, s = u ++ v /\ lang r (c :: u) /\ lang (Star r) v.
Proof.
  intro H. remember (Star r) as sr eqn:E.
  induction H as [| | | | | | r' | r' u v Hu _ Hv IHv | |]; try discriminate.
  injection E as ->. intros c s Hw.
  destruct u as [|x u]; cbn [app] in Hw.
  - now apply IHv.
  - injection Hw as -> <-. now exists u, v.
Qed.

Lemma deriv_lang (r : regex) :
  counted_ok r = true ->
  forall c s, lang (deriv c r) s <-> lang r (c :: s).
Proof.
  induction r as [| | ranges | | r1 IH1 r2 IH2 | r1 IH1 r2 IH2 | r1 IH1 | r1 IH1 lo hi];
    cbn [counted_ok deriv]; intros Hok c s.
  - split; intro H; inversion H.
  - split; intro H; inversion H.
  - destruct (in_class ranges c) eqn:E; split; intro H; inversion H; subst.
    + now constructor.
    + constructor.
    + congruence.
  - destruct (c =? LF) eqn:E; split; intro H; inversion H; subst.
    + congruence.
    + now constructor.
    + constructor.
  - apply andb_true_iff in Hok as [H1 H2].
    assert (Hseq : lang (Re.seq (deriv c r1) r2) s <->
                   exists u v, s = u ++ v /\ lang r1 (c :: u) /\ lang r2 v).
    { rewrite lang_seq_smart. split.
      - intro H. inversion H; subst. exists u, v. rewrite <- (IH1 H1). tauto.
      - intros (u & v & -> & Hu & Hv). constructor; [now apply (IH1 H1) | exact Hv]. }
    assert (Hinv : lang (Seq r1 r2) (c :: s) <->
                   (lang r1 [] /\ lang r2 (c :: s)) \/
                   exists u v, s = u ++ v /\ lang r1 (c :: u) /\ lang r2 v).
    { split.
      - intro H. inversion H as [| | | a b u v Hu Hv Ea Ew | | | | | |]; subst.
        destruct u as [|x u]; cbn [app] in Ew.
        + subst v. now left.
        + injection Ew as -> <-. right. now exists u, v.
      - intros [[Hu Hv] | (u & v & -> & Hu & Hv)].
        + apply (lang_seq r1 r2 [] (c :: s)); assumption.
        + apply (lang_seq r1 r2 (c :: u) v); assumption. }
    rewrite Hinv. destruct (nullable r1) eqn:N.
    + rewrite lang_alt_smart. split.
      * intro H. inversion H; subst.
        -- right. now apply Hseq.
        -- left. split; [now apply (nullable_lang r1 H1) | now apply (IH2 H2)].
      * intros [[_ Hv] | H].
        -- apply lang_alt_r. now apply (IH2 H2).
        -- apply lang_alt_l. now apply Hseq.
    + rewrite Hseq. split; [tauto|]. intros [[Hu _] | H]; [|exact H].
      apply (nullable_lang r1 H1) in Hu. congruence.
  - apply andb_true_iff in Hok as [H1 H2]. rewrite lang_alt_smart. split.
    + intro H. inversion H; subst;
        [apply lang_alt_l; now apply (IH1 H1) | apply lang_alt_r; now apply (IH2 H2)].
    + intro H. inversion H; subst;
        [apply lang_alt_l; now apply (IH1 H1) | apply lang_alt_r; now apply (IH2 H2)].
  - rewrite lang_seq_smart. split.
    + intro H. inversion H; subst.
      apply (lang_star_cons r1 (c :: u) v); [now apply (IH1 Hok) | assumption].
    + intro H. destruct (lang_star_cons_inv r1 (c :: s) H c s eq_refl)
        as (u & v & -> & Hu & Hv).
      constructor; [now apply (IH1 Hok) | exact Hv].
  - apply andb_true_iff in Hok as [H1 H2]. apply negb_true_iff in H2.
    destruct hi as [|hi].
    + split; intro H; inversion H.
    + rewrite lang_seq_smart. split.
      * intro H. inversion H; subst.
        apply (lang_rep_cons r1 lo hi (c :: u) v); [now apply (IH1 H1) | assumption].
      * intro H. inversion H as [| | | | | | | | | a lo' hi' u v Hu Hv Ea Ew]; subst.
        destruct u as [|x u]; cbn [app] in Ew.
        -- apply (nullable_lang r1 H1) in Hu. congruence.
        -- injection Ew as -> <-. constructor; [now apply (IH1 H1) | exact Hv].
Qed.

(** [accepts] decides the language. *)
Lemma accepts_lang (s : pystr) : forall r,
  counted_ok r = true -> (accepts r s = true <-> lang r s).
Proof.
  induction s as [|c s IH]; intros r Hok; cbn [accepts].
  - now apply nullable_lang.
  - rewrite (IH _ (counted_ok_deriv c r Hok)). now apply deriv_lang.
Qed.

(** What [PATTERN.match] decides for a pattern between [^] and [$]: the
    subject is a string of the language, or one followed by a newline. *)
Lemma match_anchored_lang (s : pystr) : forall r,
  counted_ok r = true ->
  (match_anchored r s = true <->
   lang r s \/ exists u, s = u ++ [LF] /\ lang r u).
Proof.
  induction s as [|c s IH]; intros r Hok.
  - change (match_anchored r []) with ((true && nullable r) || false).
    rewrite orb_false_r. cbn [andb]. rewrite (nullable_lang r Hok). split; [tauto|].
    intros [H | (u & E & _)]; [exact H | now destruct u].
  - rewrite match_anchored_cons, orb_true_iff, andb_true_iff.
    rewrite (IH _ (counted_ok_deriv c r Hok)), (deriv_lang r Hok c s).
    rewrite (nullable_lang r Hok). split.
    + intros [[Hd Hn] | [H | (u & -> & Hu)]].
      * right. exists []. destruct s; [|discriminate]. simpl in Hd.
        apply N.eqb_eq in Hd. subst c. now split.
      * now left.
      * right. exists (c :: u). split; [reflexivity|]. now apply (deriv_lang r Hok).
    + intros [H | (u & E & Hu)]; [right; now left|].
      destruct u as [|x u]; cbn [app] in E.
      * injection E as -> ->. left. split; [reflexivity | exact Hu].
      * injection E as <- ->. right. right. exists u. split; [reflexivity|].
        now apply (deriv_lang r Hok).
Qed.

Lemma match_prefix_lang (s : pystr) : forall r,
  counted_ok r = true ->
  (match_prefix r s = true <-> exists u v, s = u ++ v /\ lang r u).
Proof.
  induction s as [|c s IH]; intros r Hok.
  - change (match_prefix r []) with (nullable r || false).
    rewrite orb_false_r, (nullable_lang r Hok). split.
    + intro H. now exists [], [].
    + intros (u & v & E & Hu). symmetry in E. apply app_eq_nil in E as [-> _]. exact Hu.
  - change (match_prefix r (c :: s)) with (nullable r || match_prefix (deriv c r) s).
    rewrite orb_true_iff, (IH _ (counted_ok_deriv c r Hok)), (nullable_lang r Hok). split.
    + intros [H | (u & v & -> & Hu)].
      * now exists [], (c :: s).
      * exists (c :: u), v. split; [reflexivity|]. now apply (deriv_lang r Hok).
    + intros (u & v & E & Hu). destruct u as [|x u]; cbn [app] in E.
      * now left.
      * injection E as <- ->. right. exists u, v. split; [reflexivity|].
        now apply (deriv_lang r Hok).
Qed.

(** What [PATTERN.search] decides: some run of the subject is in the
    language. *)
Lemma search_lang (r : regex) (s : pystr) :
  counted_ok r = true ->
  (search r s = true <-> exists a u b, s = a ++ u ++ b /\ lang r u).
Proof.
  intro Hok. induction s as [|c s IH].
  - change (search r []) with (match_prefix r [] || false).
    rewrite orb_false_r, (match_prefix_lang [] r Hok). split.
    + intros (u & v & E & Hu). now exists [], u, v.
    + intros (a & u & b & E & Hu). destruct a; [|discriminate]. now exists u, b.
  - change (search r (c :: s)) with (match_prefix r (c :: s) || search r s).
    rewrite orb_true_iff, IH, (match_prefix_lang (c :: s) r Hok). split.
    + intros [(u & v & E & Hu) | (a & u & b & -> & Hu)].
      * now exists [], u, v.
      * now exists (c :: a), u, b.
    + intros (a & u & b & E & Hu). destruct a as [|x a]; cbn [app] in E.
      * left. now exists u, b.
      * injection E as <- ->. right. now exists a, u, b.
Qed.

(** Every pattern of the module is one the matcher is exact for. *)
Lemma patterns_counted_ok (k : kind) : counted_ok (pattern_of k) = true.
Proof. now destruct k. Qed.

Lemma other_patterns_counted_ok :
  counted_ok _ALPHANUMERIC_DASH_PATTERN = true /\
  counted_ok _PATH_TRAVERSAL_PATTERN = true.
Proof. now split. Qed.

(** ** Length boundaries *)

Lemma len_length (s : pystr) (n : nat) : len s = N.of_nat n -> List.length s = n.
Proof. unfold len. apply Nat2N.inj. Qed.

Lemma class_string_not_blank (ranges : list (char * char)) (s : pystr) :
  printable ranges = true ->
  is_empty s = false -> forallb (in_class ranges) s = true -> blank s = false.
Proof.
  intros Hp Hn Hf. destruct s as [|c s]; [discriminate|].
  cbn [forallb] in Hf. apply andb_true_iff in Hf as [Hc _].
  apply blank_head. destruct (char_isspace c) eqn:E; [|reflexivity].
  rewrite (printable_no_space ranges c Hp E) in Hc. discriminate.
Qed.

(** The validators with a length test of their own, on a string the pattern
    matches: the verdict is that of the length test. *)
Ltac by_length_test k Hv :=
  cbn [bind require_str];
  rewrite (matched_not_blank _ _ (patterns_start_printable k) Hv);
  cbn [pattern_of] in Hv; rewrite Hv;
  split; intros ->; reflexivity.

(** C5: a string that is valid for its kind but for its length is accepted
    by the validator of the kind when it has exactly the maximum length the
    specification gives for the kind (255, 128, 255, 255, 1024, 63, 253 and
    255 characters, in the order of the kinds), and rejected when it has
    one character more. *)
Theorem length_boundary (rt : runtime) (k : kind) (s : pystr) :
  otherwise_valid rt k s = true ->
  (len s = specified_max_length k -> validator rt k (PStr s) = Return true) /\
  (len s = specified_max_length k + 1 -> validator rt k (PStr s) = Return false).
Proof.
  intro Hv. destruct k; cbn [otherwise_valid validator specified_max_length] in *.
  - unfold validate_docker_image_name. by_length_test DockerImageName Hv.
  - apply andb_true_iff in Hv as [Hn Hf]. apply negb_true_iff in Hn.
    unfold validate_docker_tag. cbn [bind require_str].
    rewrite (class_string_not_blank (alnum ++ one "_.-") s eq_refl Hn Hf).
    unfold _DOCKER_TAG_PATTERN, _MAX_DOCKER_TAG_LENGTH. split; intro Hl.
    + rewrite rep_class_within; [reflexivity | assumption |].
      rewrite (len_length s 128 Hl). lia.
    + rewrite rep_class_beyond; [reflexivity | reflexivity | assumption |].
      rewrite (len_length s 129 Hl). lia.
  - apply andb_true_iff in Hv as [Hv Hr]. apply andb_true_iff in Hv as [Hv Hs].
    apply negb_true_iff in Hr, Hs.
    unfold validate_filename. cbn [bind require_str].
    rewrite (matched_not_blank _ _ (patterns_start_printable Filename) Hv).
    rewrite Hs, Hv, Hr. split; intros ->; reflexivity.
  - unfold validate_helm_parameter. by_length_test HelmParameter Hv.
  - unfold validate_helm_value. by_length_test HelmValue Hv.
  - unfold validate_kubernetes_namespace. by_length_test KubernetesNamespace Hv.
  - unfold validate_kubernetes_resource_name. by_length_test KubernetesResourceName Hv.
  - unfold validate_identifier. by_length_test Identifier Hv.
Qed.

(** C5 at work: for each of the eight kinds, a string of one repeated
    letter of the greatest length, and the string one letter longer. *)
Lemma length_boundary_witness :
  validate_docker_image_name (PStr (repeat 97 255)) = Return true /\
  validate_docker_image_name (PStr (repeat 97 256)) = Return false /\
  validate_docker_tag (PStr (repeat 97 128)) = Return true /\
  validate_docker_tag (PStr (repeat 97 129)) = Return false /\
  validate_filename rt0 (PStr (repeat 97 255)) = Return true /\
  validate_filename rt0 (PStr (repeat 97 256)) = Return false /\
  validate_helm_parameter (PStr (repeat 97 255)) = Return true /\
  validate_helm_parameter (PStr (repeat 97 256)) = Return false /\
  validate_helm_value (PStr (repeat 97 1024)) = Return true /\
  validate_helm_value (PStr (repeat 97 1025)) = Return false /\
  validate_kubernetes_namespace (PStr (repeat 97 63)) = Return true /\
  validate_kubernetes_namespace (PStr (repeat 97 64)) = Return false /\
  validate_kubernetes_resource_name (PStr (repeat 97 253)) = Return true /\
  validate_kubernetes_resource_name (PStr (repeat 97 254)) = Return false /\
  validate_identifier (PStr (repeat 97 255)) = Return true /\
  validate_identifier (PStr (repeat 97 256)) = Return false.
Proof.
  split; [ apply (proj1 (length_boundary rt0 DockerImageName (repeat 97 255) eq_refl)); reflexivity | ].
  split; [ apply (proj2 (length_boundary rt0 DockerImageName (repeat 97 256) eq_refl)); reflexivity | ].
  split; [ apply (proj1 (length_boundary rt0 DockerTag (repeat 97 128) eq_refl)); reflexivity | ].
  split; [ apply (proj2 (length_boundary rt0 DockerTag (repeat 97 129) eq_refl)); reflexivity | ].
  split; [ apply (proj1 (length_boundary rt0 Filename (repeat 97 255) eq_refl)); reflexivity | ].
  split; [ apply (proj2 (length_boundary rt0 Filename (repeat 97 256) eq_refl)); reflexivity | ].
  split; [ apply (proj1 (length_boundary rt0 HelmParameter (repeat 97 255) eq_refl)); reflexivity | ].
  split; [ apply (proj2 (length_boundary rt0 HelmParameter (repeat 97 256) eq_refl)); reflexivity | ].
  split; [ apply (proj1 (length_boundary rt0 HelmValue (repeat 97 1024) eq_refl)); reflexivity | ].
  split; [ apply (proj2 (length_boundary rt0 HelmValue (repeat 97 1025) eq_refl)); reflexivity | ].
  split; [ apply (proj1 (length_boundary rt0 KubernetesNamespace (repeat 97 63) eq_refl)); reflexivity | ].
  split; [ apply (proj2 (length_boundary rt0 KubernetesNamespace (repeat 97 64) eq_refl)); reflexivity | ].
  split; [ apply (proj1 (length_boundary rt0 KubernetesResourceName (repeat 97 253) eq_refl)); reflexivity | ].
  split; [ apply (proj2 (length_boundary rt0 KubernetesResourceName (repeat 97 254) eq_refl)); reflexivity | ].
  split; [ apply (proj1 (length_boundary rt0 Identifier (repeat 97 255) eq_refl)); reflexivity | ].
  apply (proj2 (length_boundary rt0 Identifier (repeat 97 256) eq_refl)); reflexivity.
Defined.

(** ** A newline after a valid string *)

Lemma len_app_one (s : pystr) (c : char) : len (s ++ [c]) = len s + 1.
Proof. unfold len. rewrite length_app. simpl. lia. Qed.

Lemma printable_ascii (ranges : list (char * char)) (c : char) :
  printable ranges = true -> in_class ranges c = true -> is_ascii c = true.
Proof.
  intros Hp H. apply existsb_exists in H as ([a b] & Hin & Hab).
  unfold printable in Hp. rewrite forallb_forall in Hp.
  specialize (Hp (a, b) Hin). simpl in Hp.
  apply andb_true_iff in Hp as [_ Hb]. apply andb_true_iff in Hab as [_ Hcb].
  apply N.leb_le in Hb, Hcb. unfold is_ascii. apply N.ltb_lt. lia.
Qed.

Lemma rfind_from_app (c x : char) (l : pystr) : forall i best : Z,
  (x =? c) = false ->
  PosixPath.rfind_from c i best (l ++ [x]) = PosixPath.rfind_from c i best l.
Proof.
  induction l as [|y l IH]; intros i best Hx; simpl.
  - now rewrite Hx.
  - now apply IH.
Qed.

Lemma rfind_from_bound (c : char) (l : pystr) : forall i best : Z,
  (-1 <= best < i)%Z ->
  (-1 <= PosixPath.rfind_from c i best l < i + Z.of_nat (List.length l))%Z.
Proof.
  induction l as [|y l IH]; intros i best Hb; cbn [PosixPath.rfind_from List.length].
  - lia.
  - specialize (IH (i + 1)%Z (if y =? c then i else best)).
    destruct (y =? c); lia.
Qed.

Lemma rfind_bound (c : char) (p : pystr) :
  (-1 <= PosixPath.rfind c p < Z.of_nat (List.length p))%Z.
Proof.
  unfold PosixPath.rfind.
  pose proof (rfind_from_bound c p 0 (-1)) as H. lia.
Qed.

Lemma slice_to_app (i : Z) (p q : pystr) :
  (i <= Z.of_nat (List.length p))%Z ->
  PosixPath.slice_to i (p ++ q) = PosixPath.slice_to i p.
Proof.
  intro H. unfold PosixPath.slice_to. rewrite firstn_app.
  replace (Z.to_nat i - List.length p)%nat with 0%nat by lia.
  simpl. apply app_nil_r.
Qed.

Lemma slice_from_app (i : Z) (p q : pystr) :
  (i <= Z.of_nat (List.length p))%Z ->
  PosixPath.slice_from i (p ++ q) = PosixPath.slice_from i p ++ q.
Proof.
  intro H. unfold PosixPath.slice_from. rewrite skipn_app.
  replace (Z.to_nat i - List.length p)%nat with 0%nat by lia.
  reflexivity.
Qed.

(** The root of a name with a newline after it: the root of the name, or
    the whole of it. *)
Lemma splitext_newline (p : pystr) :
  fst (PosixPath.splitext (p ++ [LF])) = fst (PosixPath.splitext p) \/
  fst (PosixPath.splitext (p ++ [LF])) = p ++ [LF].
Proof.
  unfold PosixPath.splitext, PosixPath.rfind.
  rewrite !rfind_from_app by reflexivity.
  fold (PosixPath.rfind PosixPath.sep p). fold (PosixPath.rfind DOT p).
  pose proof (rfind_bound PosixPath.sep p) as Hs.
  pose proof (rfind_bound DOT p) as Hd.
  destruct (PosixPath.rfind PosixPath.sep p <? PosixPath.rfind DOT p)%Z eqn:E;
    [|now right].
  apply Z.ltb_lt in E.
  rewrite slice_from_app by lia.
  rewrite slice_to_app.
  2:{ unfold PosixPath.slice_from. rewrite length_skipn. lia. }
  destruct (forallb _ _); [now right|].
  left. cbn [fst]. apply slice_to_app. lia.
Qed.

Lemma reserved_names_end (name : pystr) :
  In name _WINDOWS_RESERVED_NAMES -> last name 0 <> LF.
Proof.
  unfold _WINDOWS_RESERVED_NAMES. intro H. cbn [List.map In] in H.
  repeat (destruct H as [<-|H]; [vm_compute; discriminate|]). contradiction.
Qed.

Lemma newline_ended_not_reserved (x : pystr) :
  str_in (x ++ [LF]) _WINDOWS_RESERVED_NAMES = false.
Proof.
  destruct (str_in (x ++ [LF]) _WINDOWS_RESERVED_NAMES) eqn:E; [|reflexivity].
  apply existsb_exists in E as (name & Hin & Heq).
  apply str_eqb_eq in Heq. subst name.
  apply reserved_names_end in Hin. rewrite last_last in Hin. now elim Hin.
Qed.

Lemma upper_ascii_newline (rt : runtime) (s : pystr) :
  forallb is_ascii s = true ->
  upper rt (s ++ [LF]) = List.map ascii_upper s ++ [LF].
Proof.
  intro H. unfold upper. rewrite forallb_app, H. cbn [forallb is_ascii andb].
  replace (LF <? 128) with true by reflexivity. cbn [andb].
  now rewrite map_app.
Qed.

Lemma class_string_ascii (ranges : list (char * char)) (s : pystr) :
  printable ranges = true ->
  forallb (in_class ranges) s = true -> forallb is_ascii s = true.
Proof.
  intros Hp H. rewrite forallb_forall in *. intros c Hc.
  apply (printable_ascii ranges c Hp). now apply H.
Qed.

(** The test on the reserved names, for a file name the pattern matches,
    with a newline after it. *)
Lemma filename_newline_not_reserved (rt : runtime) (s : pystr) :
  match_anchored _FILENAME_PATTERN s = true ->
  endswith [LF] s = false ->
  str_in (upper rt (fst (PosixPath.splitext s))) _WINDOWS_RESERVED_NAMES = false ->
  str_in (upper rt (fst (PosixPath.splitext (s ++ [LF])))) _WINDOWS_RESERVED_NAMES = false.
Proof.
  intros Hm He Hr. destruct (splitext_newline s) as [-> | ->]; [exact Hr|].
  rewrite upper_ascii_newline; [apply newline_ended_not_reserved|].
  apply (class_string_ascii (alnum ++ one "_.-")); [reflexivity|].
  now apply plus_class_chars.
Qed.

Lemma char_in_app_one (c x : char) (s : pystr) :
  char_in c s = false -> (c =? x) = false -> char_in c (s ++ [x]) = false.
Proof.
  intros Hs Hx. unfold char_in in *. rewrite existsb_app.
  apply orb_false_iff. split; [exact Hs|]. simpl. now rewrite Hx.
Qed.

(** The verdict of a validator with a length test: what a true verdict
    says of the string. *)
Lemma length_tested_true (L : N) (r : regex) (s : pystr) :
  (if blank s then Return false
   else if L <? len s then Return false
   else Return (match_anchored r s)) = Return true ->
  len s <= L /\ match_anchored r s = true.
Proof.
  destruct (blank s); [discriminate|].
  destruct (L <? len s) eqn:E; [discriminate|].
  apply N.ltb_ge in E. intro H. now injection H.
Qed.

Lemma length_tested_newline (L : N) (r : regex) (s : pystr) :
  starts_printable r ->
  len s < L -> match_anchored r s = true -> endswith [LF] s = false ->
  (if blank (s ++ [LF]) then Return false
   else if L <? len (s ++ [LF]) then Return false
   else Return (match_anchored r (s ++ [LF]))) = Return true.
Proof.
  intros Hr Hl Hm He.
  pose proof (match_anchored_newline s r Hm He) as Hm'.
  rewrite (matched_not_blank r (s ++ [LF]) Hr Hm').
  rewrite len_app_one.
  replace (L <? len s + 1) with false by (symmetry; apply N.ltb_ge; lia).
  now rewrite Hm'.
Qed.

Ltac newline_by_length_test k H He Hl :=
  cbn [bind require_str] in *; apply length_tested_true in H as [_ H];
  apply length_tested_newline;
  [ exact (patterns_start_printable k) | apply Hl; reflexivity | exact H | exact He ].

(** C6 as amended: for each of the eight validators of kinds and for
    [is_alphanumeric_with_dash], a string that the function accepts and
    that does not end with a newline is accepted with one newline after it,
    provided the newline does not take it past the bound of the length
    test of the function (the Docker tag and [is_alphanumeric_with_dash]
    have no such test). *)
Theorem trailing_newline_accepted (rt : runtime) (p : pattern_check) (s : pystr) :
  run_check rt p (PStr s) = Return true ->
  endswith [LF] s = false ->
  (forall L, length_test p = Some L -> len s < L) ->
  run_check rt p (PStr (s ++ [LF])) = Return true.
Proof.
  intros H He Hl. destruct p as [k|]; [destruct k|];
    cbn [run_check validator length_test max_length] in *.
  - unfold validate_docker_image_name in *.
    newline_by_length_test DockerImageName H He Hl.
  - unfold validate_docker_tag in *. cbn [bind require_str] in *.
    destruct (blank s); [discriminate|]. injection H as H.
    pose proof (match_anchored_newline s _ H He) as Hm.
    rewrite (matched_not_blank _ _ (patterns_start_printable DockerTag) Hm).
    now rewrite Hm.
  - unfold validate_filename in *. cbn [bind require_str] in *.
    destruct (blank s); [discriminate|].
    destruct (_MAX_FILENAME_LENGTH <? len s); [discriminate|].
    destruct (char_in PosixPath.sep s) eqn:Hs; [discriminate|].
    destruct (match_anchored _FILENAME_PATTERN s) eqn:Hm; [|discriminate].
    cbn [negb] in H.
    destruct (str_in (upper rt (fst (PosixPath.splitext s))) _WINDOWS_RESERVED_NAMES)
      eqn:Hr; [discriminate|].
    pose proof (match_anchored_newline s _ Hm He) as Hm'.
    rewrite (matched_not_blank _ _ (patterns_start_printable Filename) Hm').
    rewrite len_app_one.
    replace (_MAX_FILENAME_LENGTH <? len s + 1) with false
      by (symmetry; apply N.ltb_ge; specialize (Hl _ eq_refl); lia).
    rewrite (char_in_app_one PosixPath.sep LF s Hs eq_refl), Hm'. cbn [negb].
    now rewrite (filename_newline_not_reserved rt s Hm He Hr).
  - unfold validate_helm_parameter in *.
    newline_by_length_test HelmParameter H He Hl.
  - unfold validate_helm_value in *.
    newline_by_length_test HelmValue H He Hl.
  - unfold validate_kubernetes_namespace in *.
    newline_by_length_test KubernetesNamespace H He Hl.
  - unfold validate_kubernetes_resource_name in *.
    newline_by_length_test KubernetesResourceName H He Hl.
  - unfold validate_identifier in *.
    newline_by_length_test Identifier H He Hl.
  - unfold is_alphanumeric_with_dash in *. cbn [bind require_str] in *.
    destruct (blank s); [discriminate|]. injection H as H.
    pose proof (match_anchored_newline s _ H He) as Hm.
    rewrite (matched_not_blank _ _ alphanumeric_dash_starts_printable Hm).
    now rewrite Hm.
Qed.

(** C6, refuted as stated: an identifier of 255 letters is valid, and with
    one newline after it the length test rejects it; the same holds of an
    image name of 255 letters. *)
Lemma trailing_newline_past_the_length_bound :
  validate_identifier (PStr (repeat 97 255)) = Return true /\
  validate_identifier (PStr (repeat 97 255 ++ [LF])) = Return false /\
  validate_docker_image_name (PStr (repeat 97 255)) = Return true /\
  validate_docker_image_name (PStr (repeat 97 255 ++ [LF])) = Return false.
Proof. repeat split; vm_compute; reflexivity. Qed.

(** C6 at work: the example of the claim, a tag of the greatest length, a
    file name and a namespace, each with a newline after it. *)
Lemma trailing_newline_accepted_witness :
  validate_docker_tag (PStr (py "latest" ++ [LF])) = Return true /\
  validate_docker_tag (PStr (repeat 97 128 ++ [LF])) = Return true /\
  validate_filename rt0 (PStr (py "config.json" ++ [LF])) = Return true /\
  validate_kubernetes_namespace (PStr (py "default" ++ [LF])) = Return true /\
  is_alphanumeric_with_dash (PStr (py "app-1" ++ [LF])) = Return true.
Proof.
  split; [ apply (trailing_newline_accepted rt0 (OfKind DockerTag) (py "latest"));
           [ vm_compute; reflexivity | vm_compute; reflexivity | discriminate ] | ].
  split; [ apply (trailing_newline_accepted rt0 (OfKind DockerTag) (repeat 97 128));
           [ vm_compute; reflexivity | vm_compute; reflexivity | discriminate ] | ].
  split; [ apply (trailing_newline_accepted rt0 (OfKind Filename) (py "config.json"));
           [ vm_compute; reflexivity | vm_compute; reflexivity
           | intros L HL; injection HL as <-; vm_compute; reflexivity ] | ].
  split; [ apply (trailing_newline_accepted rt0 (OfKind KubernetesNamespace) (py "default"));
           [ vm_compute; reflexivity | vm_compute; reflexivity
           | intros L HL; injection HL as <-; vm_compute; reflexivity ] | ].
  apply (trailing_newline_accepted rt0 AlphanumericWithDash (py "app-1"));
    [ vm_compute; reflexivity | vm_compute; reflexivity | discriminate ].
Defined.

(** ** Further properties: the strings of a pattern *)

Lemma in_class_app (a b : list (char * char)) (c : char) :
  in_class (a ++ b) c = in_class a c || in_class b c.
Proof. unfold in_class. apply existsb_app. Qed.

Lemma forallb_weaken (f g : char -> bool) (s : pystr) :
  (forall c, f c = true -> g c = true) ->
  forallb f s = true -> forallb g s = true.
Proof.
  intros Hfg H. rewrite forallb_forall in *. intros c Hc. apply Hfg. now apply H.
Qed.

(** A string of a pattern without [.] is written with the characters of
    its classes. *)
Lemma lang_classes (r : regex) (s : pystr) :
  lang r s -> dotfree r = true -> forallb (in_class (classes_of r)) s = true.
Proof.
  induction 1 as [ | ranges c Hc | c Hc | r1 r2 u v _ IHu _ IHv
                 | r1 r2 u _ IHu | r1 r2 u _ IHu
                 | r | r u v _ IHu _ IHv
                 | r hi | r lo hi u v _ IHu _ IHv ];
    cbn [dotfree classes_of]; intro Hd; try reflexivity; try discriminate.
  - cbn. now rewrite Hc.
  - apply andb_true_iff in Hd as [H1 H2]. rewrite forallb_app. apply andb_true_iff. split.
    + apply (forallb_weaken (in_class (classes_of r1))); [|now apply IHu].
      intros c Hc. rewrite in_class_app, Hc. reflexivity.
    + apply (forallb_weaken (in_class (classes_of r2))); [|now apply IHv].
      intros c Hc. rewrite in_class_app, Hc. apply orb_true_r.
  - apply andb_true_iff in Hd as [H1 H2].
    apply (forallb_weaken (in_class (classes_of r1))); [|now apply IHu].
    intros c Hc. rewrite in_class_app, Hc. reflexivity.
  - apply andb_true_iff in Hd as [H1 H2].
    apply (forallb_weaken (in_class (classes_of r2))); [|now apply IHu].
    intros c Hc. rewrite in_class_app, Hc. apply orb_true_r.
  - rewrite forallb_app. apply andb_true_iff. split; [now apply IHu | now apply IHv].
  - rewrite forallb_app. apply andb_true_iff. split; [now apply IHu | now apply IHv].
Qed.

Lemma class_star (ranges : list (char * char)) (s : pystr) :
  forallb (in_class ranges) s = true -> lang (Star (Cls ranges)) s.
Proof.
  induction s as [|c s IH]; intro H; [constructor|].
  cbn [forallb] in H. apply andb_true_iff in H as [Hc Hs].
  apply (lang_star_cons (Cls ranges) [c] s); [now constructor | now apply IH].
Qed.

Lemma class_plus (ranges : list (char * char)) (s : pystr) :
  s <> [] -> forallb (in_class ranges) s = true -> lang (Plus (Cls ranges)) s.
Proof.
  destruct s as [|c s]; [intro H; now elim H|]. intros _ H.
  cbn [forallb] in H. apply andb_true_iff in H as [Hc Hs].
  apply (lang_seq (Cls ranges) (Star (Cls ranges)) [c] s);
    [now constructor | now apply class_star].
Qed.

(** The length of a string of a counted run over a class. *)
Lemma lang_rep_length (ranges : list (char * char)) (s : pystr) :
  forall lo hi, lang (Rep (Cls ranges) lo hi) s ->
  (lo <= List.length s <= hi)%nat.
Proof.
  induction s as [|c s IH]; intros lo hi H.
  - inversion H as [ | | | | | | | | r hi' | r lo' hi' u v Hu Hv ]; subst.
    + simpl. lia.
    + destruct u; [inversion Hu | discriminate].
  - inversion H as [ | | | | | | | | r hi' | r lo' hi' u v Hu Hv E1 E2 ]; subst.
    inversion Hu; subst. cbn [app] in E2. injection E2 as -> ->.
    apply IH in Hv. cbn [app List.length]. lia.
Qed.

Lemma lang_nonempty (r : regex) (s : pystr) :
  counted_ok r = true -> nullable r = false -> lang r s -> s <> [].
Proof.
  intros Hok Hn H ->. apply (nullable_lang r Hok) in H. congruence.
Qed.

(** The first and the last character of a string of a pattern. *)
Lemma lang_firsts (r : regex) (w : pystr) :
  lang r w -> counted_ok r = true ->
  forall c s, w = c :: s -> firsts r c = true.
Proof.
  induction 1 as [ | ranges x Hx | x Hx | r1 r2 u v Hu IHu Hv IHv
                 | r1 r2 u _ IHu | r1 r2 u _ IHu
                 | r | r u v Hu IHu Hv IHv
                 | r hi | r lo hi u v Hu IHu Hv IHv ];
    cbn [counted_ok firsts]; intros Hok c s E; try discriminate.
  - now injection E as <- _.
  - injection E as <- _. now rewrite Hx.
  - apply andb_true_iff in Hok as [H1 H2]. destruct u as [|x u]; cbn [app] in E.
    + apply (nullable_lang r1 H1) in Hu. rewrite Hu, (IHv H2 c s E). apply orb_true_r.
    + injection E as -> _. now rewrite (IHu H1 c u eq_refl).
  - apply andb_true_iff in Hok as [H1 H2]. now rewrite (IHu H1 c s E).
  - apply andb_true_iff in Hok as [H1 H2]. rewrite (IHu H2 c s E). apply orb_true_r.
  - destruct u as [|x u]; cbn [app] in E; [now apply (IHv Hok c s)|].
    injection E as -> _. now apply (IHu Hok c u).
  - apply andb_true_iff in Hok as [H1 H2]. destruct u as [|x u]; cbn [app] in E.
    + apply (IHv ltac:(cbn [counted_ok]; now rewrite H1, H2) c s E).
    + injection E as -> _. now apply (IHu H1 c u).
Qed.

Lemma app_unit_tail (u v s : pystr) (c : char) :
  u ++ v = s ++ [c] ->
  (v = [] /\ u = s ++ [c]) \/ exists v', v = v' ++ [c] /\ s = u ++ v'.
Proof.
  intro E. destruct v as [|x v' _] using rev_ind.
  - left. rewrite app_nil_r in E. now split.
  - right. rewrite app_assoc in E.
    apply app_inj_tail in E as [<- ->]. now exists v'.
Qed.

Lemma lang_lasts (r : regex) (w : pystr) :
  lang r w -> counted_ok r = true ->
  forall c s, w = s ++ [c] -> lasts r c = true.
Proof.
  induction 1 as [ | ranges x Hx | x Hx | r1 r2 u v Hu IHu Hv IHv
                 | r1 r2 u _ IHu | r1 r2 u _ IHu
                 | r | r u v Hu IHu Hv IHv
                 | r hi | r lo hi u v Hu IHu Hv IHv ];
    cbn [counted_ok lasts]; intros Hok c s E;
    try (now destruct s; discriminate).
  - destruct s as [|y s]; [|destruct s; discriminate]. now injection E as <-.
  - destruct s as [|y s]; [|destruct s; discriminate]. injection E as <-. now rewrite Hx.
  - apply andb_true_iff in Hok as [H1 H2].
    destruct (app_unit_tail u v s c E) as [[-> ->] | (v' & -> & ->)].
    + apply (nullable_lang r2 H2) in Hv. rewrite Hv, (IHu H1 c s eq_refl). apply orb_true_r.
    + now rewrite (IHv H2 c v' eq_refl).
  - apply andb_true_iff in Hok as [H1 H2]. now rewrite (IHu H1 c s E).
  - apply andb_true_iff in Hok as [H1 H2]. rewrite (IHu H2 c s E). apply orb_true_r.
  - destruct (app_unit_tail u v s c E) as [[-> ->] | (v' & -> & ->)];
      [now apply (IHu Hok c s) | now apply (IHv Hok c v')].
  - apply andb_true_iff in Hok as [H1 H2].
    destruct (app_unit_tail u v s c E) as [[-> ->] | (v' & -> & ->)].
    + now apply (IHu H1 c s).
    + apply (IHv ltac:(cbn [counted_ok]; now rewrite H1, H2) c v' eq_refl).
Qed.

Lemma class_subset_in (x y : list (char * char)) (c : char) :
  class_subset x y = true -> in_class x c = true -> in_class y c = true.
Proof.
  unfold class_subset, in_class. rewrite forallb_forall. intros Hs Hx.
  apply existsb_exists in Hx as ([a b] & Hin & Hab).
  specialize (Hs (a, b) Hin). cbn in Hs.
  apply existsb_exists in Hs as ([a' b'] & Hin' & Hab').
  apply existsb_exists. exists (a', b'). split; [assumption|].
  apply andb_true_iff in Hab as [H1 H2]. apply andb_true_iff in Hab' as [H3 H4].
  apply N.leb_le in H1, H2, H3, H4. apply andb_true_iff.
  split; apply N.leb_le; lia.
Qed.

Lemma match_anchored_body (r : regex) (s : pystr) :
  counted_ok r = true -> match_anchored r s = true ->
  exists body, (s = body \/ s = body ++ [LF]) /\ lang r body.
Proof.
  intros Hok H. apply (match_anchored_lang s r Hok) in H as [H | (u & -> & Hu)].
  - exists s. tauto.
  - exists u. tauto.
Qed.

Lemma body_match_anchored (r : regex) (s body : pystr) :
  counted_ok r = true -> s = body \/ s = body ++ [LF] -> lang r body ->
  match_anchored r s = true.
Proof.
  intros Hok [-> | ->] H; apply (match_anchored_lang _ r Hok); [now left|].
  right. now exists body.
Qed.

Lemma checks_counted_ok (p : pattern_check) : counted_ok (pattern_of_check p) = true.
Proof. destruct p as [k|]; [apply patterns_counted_ok | reflexivity]. Qed.

Lemma checks_start_printable (p : pattern_check) : starts_printable (pattern_of_check p).
Proof.
  destruct p as [k|];
    [apply patterns_start_printable | apply alphanumeric_dash_starts_printable].
Qed.

(** What a true verdict of a pattern-based function says of its argument. *)
Lemma run_check_true (rt : runtime) (p : pattern_check) (s : pystr) :
  run_check rt p (PStr s) = Return true ->
  blank s = false /\
  match_anchored (pattern_of_check p) s = true /\
  (forall L, length_test p = Some L -> len s <= L).
Proof.
  intro H. destruct p as [k|]; [destruct k|];
    cbn [run_check validator length_test max_length pattern_of_check pattern_of] in *;
    unfold validate_docker_image_name, validate_docker_tag, validate_filename,
      validate_helm_parameter, validate_helm_value, validate_kubernetes_namespace,
      validate_kubernetes_resource_name, validate_identifier,
      is_alphanumeric_with_dash in H;
    cbn [bind require_str] in H;
    destruct (blank s); try discriminate;
    try (destruct (_ <? len s) eqn:E; [discriminate|]; apply N.ltb_ge in E);
    try (destruct (char_in PosixPath.sep s); [discriminate|]);
    try (destruct (match_anchored _FILENAME_PATTERN s); [|discriminate]);
    try (injection H as H);
    (split; [reflexivity|]); (split; [assumption || reflexivity|]);
    intros L HL; try discriminate; injection HL as <-; assumption.
Qed.

(** The verdict of a pattern-based function other than that of the file
    name, from the three tests it makes. *)
Lemma run_check_accepts (rt : runtime) (p : pattern_check) (s : pystr) :
  p <> OfKind Filename ->
  blank s = false ->
  (forall L, length_test p = Some L -> len s <= L) ->
  match_anchored (pattern_of_check p) s = true ->
  run_check rt p (PStr s) = Return true.
Proof.
  intros Hp Hb Hl Hm. destruct p as [k|]; [destruct k|]; try (now elim Hp);
    cbn [run_check validator length_test max_length pattern_of_check pattern_of] in *;
    unfold validate_docker_image_name, validate_docker_tag,
      validate_helm_parameter, validate_helm_value, validate_kubernetes_namespace,
      validate_kubernetes_resource_name, validate_identifier,
      is_alphanumeric_with_dash;
    cbn [bind require_str]; rewrite Hb, ?Hm;
    try (specialize (Hl _ eq_refl); apply N.ltb_ge in Hl; rewrite Hl);
    now rewrite ?Hm.
Qed.

Lemma body_not_empty (p : pattern_check) (body : pystr) :
  lang (pattern_of_check p) body -> body <> [].
Proof.
  apply lang_nonempty; [apply checks_counted_ok | apply checks_start_printable].
Qed.

(** The body of an accepted string: the string without the newline that
    may end it, in the language of the pattern. *)
Lemma accepted_body (rt : runtime) (p : pattern_check) (s : pystr) :
  run_check rt p (PStr s) = Return true ->
  exists body,
    (s = body \/ s = body ++ [LF]) /\
    body <> [] /\
    lang (pattern_of_check p) body /\
    forallb (in_class (classes_of (pattern_of_check p))) body = true.
Proof.
  intro H. apply run_check_true in H as (_ & Hm & _).
  apply (match_anchored_body _ _ (checks_counted_ok p)) in Hm as (body & Hs & Hl).
  exists body. split; [exact Hs|]. split; [now apply (body_not_empty p)|].
  split; [exact Hl|].
  apply lang_classes; [exact Hl|]. destruct p as [k|]; [destruct k|]; reflexivity.
Qed.

(** The allow-list at work: a string that one of the pattern-based
    functions accepts is, but for one newline that may end it, a non-empty
    string of the language of the pattern, whose characters are those of
    the classes of the pattern, all among the letters, the digits and
    [. _ : / -]. *)
Theorem accepted_characters (rt : runtime) (p : pattern_check) (s : pystr) :
  run_check rt p (PStr s) = Return true ->
  exists body,
    (s = body \/ s = body ++ [LF]) /\
    body <> [] /\
    lang (pattern_of_check p) body /\
    forallb (in_class (classes_of (pattern_of_check p))) body = true /\
    forallb (in_class (alnum ++ one "._:/-")) body = true.
Proof.
  intro H. apply accepted_body in H as (body & Hs & Hne & Hl & Hc).
  exists body. split; [exact Hs|]. split; [exact Hne|].
  split; [exact Hl|]. split; [exact Hc|].
  assert (Hsub : class_subset (classes_of (pattern_of_check p))
                   (alnum ++ one "._:/-") = true)
    by (destruct p as [k|]; [destruct k|]; reflexivity).
  apply (forallb_weaken (in_class (classes_of (pattern_of_check p)))); [|exact Hc].
  intros c. now apply class_subset_in.
Qed.

(** The allow-list at work on the tag [latest] with a newline after it. *)
Lemma accepted_characters_witness :
  exists body,
    (py "latest" ++ [LF] = body \/ py "latest" ++ [LF] = body ++ [LF]) /\
    body <> [] /\
    lang (pattern_of_check (OfKind DockerTag)) body /\
    forallb (in_class (classes_of (pattern_of_check (OfKind DockerTag)))) body = true /\
    forallb (in_class (alnum ++ one "._:/-")) body = true.
Proof.
  apply (accepted_characters rt0 (OfKind DockerTag) (py "latest" ++ [LF])).
  vm_compute. reflexivity.
Defined.

Lemma validator_returns (rt : runtime) (p : pattern_check) (s : pystr) :
  exists b, run_check rt p (PStr s) = Return b.
Proof.
  destruct p as [k|]; [destruct k|]; cbn [run_check validator];
    unfold validate_docker_image_name, validate_docker_tag, validate_filename,
      validate_helm_parameter, validate_helm_value, validate_kubernetes_namespace,
      validate_kubernetes_resource_name, validate_identifier,
      is_alphanumeric_with_dash;
    cbn [bind require_str];
    repeat match goal with
           | |- context [if ?b then _ else _] => destruct b
           end; eexists; reflexivity.
Qed.

Lemma blank_false_len (s : pystr) : blank s = false -> 1 <= len s.
Proof. destruct s; [discriminate|]. intros _. unfold len. simpl. lia. Qed.

(** The pattern of the Docker tag bounds the length by itself. *)
Lemma tag_body_length (s : pystr) :
  match_anchored _DOCKER_TAG_PATTERN s = true ->
  exists body, (s = body \/ s = body ++ [LF]) /\ len body <= 128.
Proof.
  intro Hm. unfold _DOCKER_TAG_PATTERN in Hm.
  apply (match_anchored_body (Rep (Cls (alnum ++ one "_.-")) 1 128) s eq_refl) in Hm
    as (body & Hs & Hlang).
  apply lang_rep_length in Hlang.
  exists body. split; [exact Hs | unfold len; lia].
Qed.

Lemma length_bound (rt : runtime) (k : kind) (s : pystr) :
  validator rt k (PStr s) = Return true ->
  len s <= max_length k + (match k with DockerTag => 1 | _ => 0 end).
Proof.
  intro H. apply (run_check_true rt (OfKind k)) in H as (_ & Hm & Hl).
  destruct k; cbn [length_test] in Hl; try (specialize (Hl _ eq_refl); lia).
  apply tag_body_length in Hm as (body & [-> | ->] & Hbody);
    rewrite ?len_app_one; cbn [max_length]; unfold _MAX_DOCKER_TAG_LENGTH; lia.
Qed.

(** The bound on the length: a string the validator of a kind accepts is
    not empty and no longer than the maximum of the kind; the Docker tag,
    the only kind without a test on [len], can be one longer, and is then
    128 characters of its class and a newline. *)
Theorem accepted_length (rt : runtime) (k : kind) (s : pystr) :
  validator rt k (PStr s) = Return true ->
  1 <= len s /\
  len s <= max_length k + (match k with DockerTag => 1 | _ => 0 end) /\
  (max_length k < len s -> exists body, s = body ++ [LF] /\ len body = max_length k).
Proof.
  intro H. pose proof (length_bound rt k s H) as Hbound.
  apply (run_check_true rt (OfKind k)) in H as (Hb & Hm & Hl).
  split; [now apply blank_false_len|]. split; [exact Hbound|].
  destruct k; cbn [length_test] in Hl;
    try (specialize (Hl _ eq_refl); intro; lia).
  apply tag_body_length in Hm as (body & Hs & Hbody).
  cbn [max_length]. unfold _MAX_DOCKER_TAG_LENGTH.
  destruct Hs as [-> | ->]; [intro; lia|].
  rewrite len_app_one. intro. exists body. split; [reflexivity | lia].
Qed.

(** The bound at work: a tag of 128 letters and a newline has 129
    characters and is accepted. *)
Lemma accepted_length_witness :
  1 <= len (repeat 97 128 ++ [LF]) /\
  len (repeat 97 128 ++ [LF]) <= max_length DockerTag + 1 /\
  (max_length DockerTag < len (repeat 97 128 ++ [LF]) ->
   exists body, repeat 97 128 ++ [LF] = body ++ [LF] /\ len body = max_length DockerTag).
Proof.
  apply (accepted_length rt0 DockerTag (repeat 97 128 ++ [LF])).
  vm_compute. reflexivity.
Defined.

(** A class that has no character between [lo] and [hi]. *)
Lemma class_outside (x : list (char * char)) (lo hi c : char) :
  forallb (fun '(a, b) => (b <? lo) || (hi <? a)) x = true ->
  lo <= c <= hi -> in_class x c = false.
Proof.
  intros Hx Hc. apply not_true_is_false. intro H.
  apply existsb_exists in H as ([a b] & Hin & Hab).
  rewrite forallb_forall in Hx. specialize (Hx (a, b) Hin). cbn in Hx.
  apply andb_true_iff in Hab as [H1 H2]. apply N.leb_le in H1, H2.
  apply orb_true_iff in Hx as [Hx|Hx]; apply N.ltb_lt in Hx; lia.
Qed.

Lemma existsb_In_char (f : char -> bool) (s : pystr) :
  existsb f s = true -> exists c, In c s /\ f c = true.
Proof. intro H. now apply existsb_exists in H. Qed.

(** The case law: the validators of the Docker image name, of the
    Kubernetes namespace and of the Kubernetes resource name reject every
    string with an upper-case letter in it. *)
Theorem uppercase_rejected (rt : runtime) (k : kind) (s : pystr) :
  lowercase_only k = true ->
  existsb is_upper s = true ->
  validator rt k (PStr s) = Return false.
Proof.
  intros Hk Hu. destruct (validator_returns rt (OfKind k) s) as [[|] Hv];
    cbn [run_check] in Hv; [exfalso | exact Hv].
  apply (accepted_body rt (OfKind k)) in Hv as (body & Hs & _ & _ & Hc).
  apply existsb_In_char in Hu as (c & Hin & Hc').
  unfold is_upper in Hc'. apply andb_true_iff in Hc' as [H1 H2].
  apply N.leb_le in H1, H2.
  assert (Hbody : In c body).
  { destruct Hs as [-> | ->]; [exact Hin|].
    apply in_app_or in Hin as [Hin | [<- | []]]; [exact Hin|].
    unfold LF in *. lia. }
  rewrite forallb_forall in Hc. specialize (Hc c Hbody).
  rewrite (class_outside _ 65 90 c) in Hc; [discriminate | | lia].
  destruct k; try discriminate; reflexivity.
Qed.

(** The case law on the scenario of the specification, [MY-APP]. *)
Lemma uppercase_rejected_witness :
  validate_docker_image_name (PStr (py "MY-APP")) = Return false /\
  validate_kubernetes_namespace (PStr (py "prod-EU")) = Return false.
Proof.
  split.
  - apply (uppercase_rejected rt0 DockerImageName (py "MY-APP")); reflexivity.
  - apply (uppercase_rejected rt0 KubernetesNamespace (py "prod-EU")); reflexivity.
Defined.

Ltac unfold_patterns :=
  unfold _DOCKER_IMAGE_NAME_PATTERN, _DOCKER_TAG_PATTERN, _FILENAME_PATTERN,
    _HELM_PARAMETER_PATTERN, _HELM_VALUE_PATTERN, _K8S_NAMESPACE_PATTERN,
    _K8S_RESOURCE_NAME_PATTERN, _IDENTIFIER_PATTERN, _ALPHANUMERIC_DASH_PATTERN,
    Plus, Opt, Lit.

Ltac class_cases :=
  repeat match goal with
         | |- context [in_class ?X ?c] => generalize (in_class X c)
         end;
  intros; 
  repeat match goal with
         | b : bool |- _ => destruct b
         end;
  cbn [andb orb negb] in *; try discriminate; try reflexivity; try assumption.

Lemma firsts_first_class (k : kind) (c : char) :
  firsts (pattern_of k) c = true -> in_class (first_class k) c = true.
Proof.
  destruct k; cbn [pattern_of first_class]; unfold_patterns;
    cbn [firsts lasts nullable classes_of Nat.eqb andb orb];
    rewrite ?in_class_app; class_cases.
Qed.

Lemma lasts_last_class (k : kind) (c : char) :
  lasts (pattern_of k) c = true -> in_class (last_class k) c = true.
Proof.
  destruct k; cbn [pattern_of last_class]; unfold_patterns;
    cbn [firsts lasts nullable classes_of Nat.eqb andb orb];
    rewrite ?in_class_app; class_cases.
Qed.

(** The ends of an accepted string: it begins with a character of the
    first class of its kind (a lower-case letter or a digit for the Docker
    image name and the two Kubernetes names, a letter or an underscore for
    the identifier), and the character before its end, or before the
    newline that ends it, is of the last class of its kind (a lower-case
    letter or a digit for the first three: never a separator). *)
Theorem accepted_ends (rt : runtime) (k : kind) (s : pystr) :
  validator rt k (PStr s) = Return true ->
  exists c rest init d,
    s = c :: rest /\
    in_class (first_class k) c = true /\
    (s = init ++ [d] \/ s = init ++ [d; LF]) /\
    in_class (last_class k) d = true.
Proof.
  intro H. apply (accepted_body rt (OfKind k)) in H as (body & Hs & Hne & Hl & _).
  cbn [pattern_of_check] in Hl.
  destruct body as [|c t]; [now elim Hne|].
  pose proof (lang_firsts _ _ Hl (patterns_counted_ok k) c t eq_refl) as Hf.
  destruct (exists_last Hne) as (init & d & E).
  pose proof (lang_lasts _ _ Hl (patterns_counted_ok k) d init E) as Hd.
  apply firsts_first_class in Hf. apply lasts_last_class in Hd.
  destruct Hs as [-> | ->].
  - exists c, t, init, d. repeat split; [exact Hf | now left | exact Hd].
  - exists c, (t ++ [LF]), init, d. repeat split; [exact Hf | | exact Hd].
    right. rewrite E, <- app_assoc. reflexivity.
Qed.

(** The ends of [registry.io/my-app] and of a namespace with a newline
    after it. *)
Lemma accepted_ends_witness :
  exists c rest init d,
    py "my-namespace" ++ [LF] = c :: rest /\
    in_class (first_class KubernetesNamespace) c = true /\
    (py "my-namespace" ++ [LF] = init ++ [d]
     \/ py "my-namespace" ++ [LF] = init ++ [d; LF]) /\
    in_class (last_class KubernetesNamespace) d = true.
Proof.
  apply (accepted_ends rt0 KubernetesNamespace (py "my-namespace" ++ [LF])).
  vm_compute. reflexivity.
Defined.

Lemma app_pair_split (u : pystr) : forall (v x y : pystr) (a b : char),
  u ++ v = x ++ a :: b :: y ->
  (exists y1, u = x ++ a :: b :: y1 /\ y = y1 ++ v) \/
  (u = x ++ [a] /\ v = b :: y) \/
  (exists x2, x = u ++ x2 /\ v = x2 ++ a :: b :: y).
Proof.
  induction u as [|c u IH]; intros v x y a b E.
  - right. right. now exists x.
  - destruct x as [|c' x]; cbn [app] in E.
    + injection E as -> E. destruct u as [|b' u]; cbn [app] in E.
      * right. left. now split.
      * injection E as -> E. left. now exists u.
    + injection E as -> E. apply IH in E as [(y1 & -> & ->) | [[-> ->] | (x2 & -> & ->)]].
      * left. now exists y1.
      * right. now left.
      * right. right. now exists x2.
Qed.

Ltac too_short E :=
  match type of E with
  | _ = ?x ++ _ => destruct x as [|? [|? ?]]; discriminate E
  end.

(** Two characters side by side in a string of a pattern. *)
Lemma lang_adjacent (r : regex) (w : pystr) :
  lang r w -> counted_ok r = true ->
  forall x y a b, w = x ++ a :: b :: y -> adjacent r a b = true.
Proof.
  induction 1 as [ | ranges c Hc | c Hc | r1 r2 u v Hu IHu Hv IHv
                 | r1 r2 u _ IHu | r1 r2 u _ IHu
                 | r | r u v Hu IHu Hv IHv
                 | r hi | r lo hi u v Hu IHu Hv IHv ];
    cbn [counted_ok adjacent]; intros Hok x y a b E; try (too_short E).
  - apply andb_true_iff in Hok as [H1 H2].
    apply app_pair_split in E as [(y1 & -> & ->) | [[-> ->] | (x2 & -> & ->)]].
    + now rewrite (IHu H1 x y1 a b eq_refl).
    + rewrite (lang_lasts _ _ Hu H1 a x eq_refl), (lang_firsts _ _ Hv H2 b y eq_refl).
      apply orb_true_r.
    + rewrite (IHv H2 x2 y a b eq_refl). rewrite orb_true_r. reflexivity.
  - apply andb_true_iff in Hok as [H1 H2]. now rewrite (IHu H1 x y a b E).
  - apply andb_true_iff in Hok as [H1 H2]. rewrite (IHu H2 x y a b E). apply orb_true_r.
  - apply app_pair_split in E as [(y1 & -> & ->) | [[-> ->] | (x2 & -> & ->)]].
    + now rewrite (IHu Hok x y1 a b eq_refl).
    + rewrite (lang_lasts _ _ Hu Hok a x eq_refl).
      pose proof (lang_firsts _ _ Hv Hok b y eq_refl) as Hf. cbn [firsts] in Hf.
      rewrite Hf. apply orb_true_r.
    + exact (IHv Hok x2 y a b eq_refl).
  - apply andb_true_iff in Hok as [H1 H2].
    assert (Hok' : counted_ok (Rep r (Nat.pred lo) hi) = true)
      by (cbn [counted_ok]; now rewrite H1, H2).
    apply app_pair_split in E as [(y1 & -> & ->) | [[-> ->] | (x2 & -> & ->)]].
    + now rewrite (IHu H1 x y1 a b eq_refl).
    + rewrite (lang_lasts _ _ Hu H1 a x eq_refl).
      pose proof (lang_firsts _ _ Hv Hok' b y eq_refl) as Hf. cbn [firsts] in Hf.
      rewrite Hf. apply orb_true_r.
    + exact (IHv Hok' x2 y a b eq_refl).
Qed.

Lemma separator_not_alnum (c : char) :
  is_separator c = true -> in_class lower_digit c = false.
Proof.
  unfold is_separator.
  change (one "._/-") with [(46, 46); (95, 95); (47, 47); (45, 45)].
  unfold in_class. cbn [existsb]. intro H.
  assert (E : c = 46 \/ c = 95 \/ c = 47 \/ c = 45).
  { repeat (apply orb_true_iff in H as [H|H]);
      try discriminate;
      apply andb_true_iff in H as [H1 H2]; apply N.leb_le in H1, H2; lia. }
  destruct E as [->|[->|[->| ->]]]; reflexivity.
Qed.

(** No two separators side by side: in a Docker image name that
    [validate_docker_image_name] accepts, of two characters that follow
    each other at most one is a separator ([.], [_], [/] or [-]). *)
Theorem image_name_separators_apart (s x y : pystr) (a b : char) :
  validate_docker_image_name (PStr s) = Return true ->
  s = x ++ a :: b :: y ->
  is_separator a && is_separator b = false.
Proof.
  intros H E.
  apply (accepted_body rt0 (OfKind DockerImageName)) in H
    as (body & Hs & _ & Hl & _).
  cbn [pattern_of_check pattern_of] in Hl.
  destruct (is_separator a) eqn:Ha; [|reflexivity].
  destruct (is_separator b) eqn:Hb; [exfalso|reflexivity].
  assert (Hadj : adjacent _DOCKER_IMAGE_NAME_PATTERN a b = true -> False).
  { pose proof (separator_not_alnum a Ha) as Na.
    pose proof (separator_not_alnum b Hb) as Nb.
    cbn -[in_class]. rewrite Na, Nb. cbn -[in_class].
    rewrite ?andb_false_r. discriminate. }
  destruct Hs as [-> | ->].
  - apply Hadj. now apply (lang_adjacent _ _ Hl eq_refl x y a b).
  - apply app_pair_split in E as [(y1 & -> & _) | [[_ E] | (x2 & _ & E)]].
    + apply Hadj. now apply (lang_adjacent _ _ Hl eq_refl x y1 a b).
    + injection E as <- _. discriminate Hb.
    + destruct x2 as [|? [|? ?]]; discriminate E.
Qed.

(** The separators of [registry.io/my-app]: after the dot comes a letter. *)
Lemma image_name_separators_apart_witness :
  is_separator DOT && is_separator 105 = false.
Proof.
  apply (image_name_separators_apart (py "registry.io/my-app")
           (py "registry") (py "o/my-app") DOT 105); reflexivity.
Defined.

(** A pattern with wider classes matches what the narrower one does. *)
Lemma lang_wider (r : regex) (s : pystr) :
  lang r s -> forall r', wider r r' = true -> lang r' s.
Proof.
  induction 1 as [ | ranges c Hc | c Hc | r1 r2 u v _ IHu _ IHv
                 | r1 r2 u _ IHu | r1 r2 u _ IHu
                 | r | r u v _ IHu _ IHv
                 | r hi | r lo hi u v _ IHu _ IHv ];
    intros r' Hw; destruct r'; cbn [wider] in Hw; try discriminate.
  - constructor.
  - constructor. now apply (class_subset_in ranges).
  - now constructor.
  - apply andb_true_iff in Hw as [H1 H2]. constructor; auto.
  - apply andb_true_iff in Hw as [H1 H2]. apply lang_alt_l. auto.
  - apply andb_true_iff in Hw as [H1 H2]. apply lang_alt_r. auto.
  - constructor.
  - constructor; [auto|]. apply IHv. exact Hw.
  - apply andb_true_iff in Hw as [Hw H3]. apply andb_true_iff in Hw as [H1 H2].
    apply Nat.eqb_eq in H2, H3. subst. constructor.
  - apply andb_true_iff in Hw as [Hw H3]. apply andb_true_iff in Hw as [H1 H2].
    apply Nat.eqb_eq in H2, H3. subst. constructor; [auto|].
    apply IHv. cbn [wider]. now rewrite H1, !Nat.eqb_refl.
Qed.

(** What the stricter of two kinds accepts, the other accepts: a valid
    namespace is a valid resource name, a valid resource name, identifier,
    Docker tag or file name is a valid Helm parameter, and a valid Helm
    parameter or Docker image name is a valid Helm value. *)
Theorem stricter_accepts (rt : runtime) (k1 k2 : kind) (s : pystr) :
  stricter k1 k2 = true ->
  validator rt k1 (PStr s) = Return true ->
  validator rt k2 (PStr s) = Return true.
Proof.
  intros Hk H.
  pose proof (length_bound rt k1 s H) as Hlen.
  pose proof (accepted_body rt (OfKind k1) s H) as (body & Hs & Hne & Hl & Hc).
  apply (run_check_true rt (OfKind k1)) in H as (Hb & _ & _).
  apply (run_check_accepts rt (OfKind k2)).
  - destruct k2; try discriminate; destruct k1; discriminate.
  - exact Hb.
  - intros L HL. destruct k1, k2; try discriminate Hk; injection HL as <-;
      cbn [max_length] in Hlen |- *;
      unfold _MAX_DOCKER_IMAGE_NAME_LENGTH, _MAX_DOCKER_TAG_LENGTH,
        _MAX_FILENAME_LENGTH, _MAX_K8S_NAMESPACE_LENGTH,
        _MAX_K8S_RESOURCE_NAME_LENGTH, _MAX_HELM_PARAMETER_LENGTH,
        _MAX_HELM_VALUE_LENGTH, _MAX_IDENTIFIER_LENGTH in *; lia.
  - apply (body_match_anchored _ s body (checks_counted_ok (OfKind k2)) Hs).
    cbn [pattern_of_check] in *.
    destruct k1, k2; try discriminate Hk; cbn [pattern_of] in *;
      first
        [ apply (lang_wider _ _ Hl); reflexivity
        | unfold _HELM_PARAMETER_PATTERN, _HELM_VALUE_PATTERN;
          apply class_plus; [exact Hne|];
          eapply forallb_weaken; [|exact Hc];
          intro c; apply class_subset_in; vm_compute; reflexivity ].
Qed.

(** The chain at work on the namespace [my-namespace]. *)
Lemma stricter_accepts_witness :
  validate_kubernetes_resource_name (PStr (py "my-namespace")) = Return true /\
  validate_helm_value (PStr (py "registry.io/my-app")) = Return true.
Proof.
  split.
  - apply (stricter_accepts rt0 KubernetesNamespace KubernetesResourceName
             (py "my-namespace")); [reflexivity | vm_compute; reflexivity].
  - apply (stricter_accepts rt0 DockerImageName HelmValue
             (py "registry.io/my-app")); [reflexivity | vm_compute; reflexivity].
Defined.

(** ** Further properties: file names *)

Lemma rfind_from_absent (c : char) (l : pystr) : forall i best,
  char_in c l = false -> PosixPath.rfind_from c i best l = best.
Proof.
  induction l as [|x l IH]; intros i best H; [reflexivity|].
  unfold char_in in H. cbn [existsb] in H. apply orb_false_iff in H as [Hx Hl].
  cbn [PosixPath.rfind_from]. rewrite N.eqb_sym, Hx. now apply IH.
Qed.

Lemma rfind_absent (c : char) (p : pystr) :
  char_in c p = false -> PosixPath.rfind c p = (-1)%Z.
Proof. apply rfind_from_absent. Qed.

Lemma rfind_from_last (c : char) (a b : pystr) : forall i best,
  char_in c b = false ->
  PosixPath.rfind_from c i best (a ++ c :: b) = (i + Z.of_nat (List.length a))%Z.
Proof.
  induction a as [|x a IH]; intros i best H; cbn [app PosixPath.rfind_from List.length].
  - rewrite N.eqb_refl, (rfind_from_absent c b _ _ H). lia.
  - rewrite (IH _ _ H). lia.
Qed.

Lemma rfind_last (c : char) (a b : pystr) :
  char_in c b = false ->
  PosixPath.rfind c (a ++ c :: b) = Z.of_nat (List.length a).
Proof. intro H. unfold PosixPath.rfind. now rewrite (rfind_from_last c a b 0 (-1) H). Qed.

(** [splitext] on a name without a dot, and on a name whose last dot comes
    after a stem that is not made of dots. *)
Lemma splitext_no_dot (p : pystr) :
  char_in DOT p = false -> PosixPath.splitext p = (p, []).
Proof.
  intro H. unfold PosixPath.splitext. rewrite (rfind_absent DOT p H).
  pose proof (rfind_bound PosixPath.sep p) as Hs.
  destruct (PosixPath.rfind PosixPath.sep p <? -1)%Z eqn:E; [|reflexivity].
  apply Z.ltb_lt in E. lia.
Qed.

Lemma splitext_last_dot (a b : pystr) :
  char_in PosixPath.sep (a ++ DOT :: b) = false ->
  char_in DOT b = false ->
  forallb (N.eqb DOT) a = false ->
  PosixPath.splitext (a ++ DOT :: b) = (a, DOT :: b).
Proof.
  intros Hs Hd Ha. unfold PosixPath.splitext.
  rewrite (rfind_absent _ _ Hs), (rfind_last DOT a b Hd).
  replace (-1 <? Z.of_nat (List.length a))%Z with true by (symmetry; apply Z.ltb_lt; lia).
  unfold PosixPath.slice_to, PosixPath.slice_from.
  replace (Z.to_nat (-1 + 1)) with 0%nat by reflexivity.
  replace (Z.to_nat (Z.of_nat (List.length a) - (-1 + 1))) with (List.length a) by lia.
  rewrite Nat2Z.id. cbn [skipn].
  rewrite firstn_app, firstn_all, Nat.sub_diag. cbn [firstn]. rewrite app_nil_r, Ha.
  rewrite skipn_app, skipn_all, Nat.sub_diag. reflexivity.
Qed.

Lemma forallb_slice (f : char -> bool) (p : pystr) (i j : Z) :
  forallb f p = true ->
  forallb f (PosixPath.slice_to i (PosixPath.slice_from j p)) = true.
Proof.
  intro H. rewrite forallb_forall in *. intros c Hc. apply H.
  unfold PosixPath.slice_to, PosixPath.slice_from in Hc.
  rewrite <- (firstn_skipn (Z.to_nat j) p). apply in_or_app. right.
  rewrite <- (firstn_skipn (Z.to_nat i) (skipn (Z.to_nat j) p)).
  apply in_or_app. now left.
Qed.

Lemma splitext_all_dots (p : pystr) :
  forallb (N.eqb DOT) p = true -> fst (PosixPath.splitext p) = p.
Proof.
  intro H. unfold PosixPath.splitext.
  destruct (_ <? _)%Z; [|reflexivity].
  now rewrite (forallb_slice _ p _ _ H).
Qed.

Lemma str_in_In (x : pystr) (names : list pystr) :
  str_in x names = true <-> In x names.
Proof.
  unfold str_in. rewrite existsb_exists. split.
  - intros (y & Hy & E). apply str_eqb_eq in E. now subst.
  - intro H. exists x. split; [exact H | now apply str_eqb_eq].
Qed.

Lemma reserved_names_shape (name : pystr) :
  In name _WINDOWS_RESERVED_NAMES -> reserved_shape name = true.
Proof.
  assert (H : forallb reserved_shape _WINDOWS_RESERVED_NAMES = true)
    by (vm_compute; reflexivity).
  rewrite forallb_forall in H. apply H.
Qed.

Lemma upper_ascii (rt : runtime) (s : pystr) :
  forallb is_ascii s = true -> upper rt s = List.map ascii_upper s.
Proof. intro H. unfold upper. now rewrite H. Qed.

Lemma class_no_sep (p : pystr) :
  forallb (in_class (alnum ++ one "_.-")) p = true -> char_in PosixPath.sep p = false.
Proof.
  intro H. destruct (char_in PosixPath.sep p) eqn:E; [|reflexivity].
  apply char_in_In in E. rewrite forallb_forall in H. apply H in E. discriminate E.
Qed.

Lemma class_match_plus (ranges : list (char * char)) (p : pystr) :
  p <> [] -> forallb (in_class ranges) p = true ->
  match_anchored (Plus (Cls ranges)) p = true.
Proof.
  intros Hn H.
  apply (body_match_anchored (Plus (Cls ranges)) p p eq_refl); [now left|].
  now apply class_plus.
Qed.

(** The verdict of [validate_filename] from its five tests. *)
Lemma validate_filename_accepts (rt : runtime) (p : pystr) :
  blank p = false ->
  len p <= _MAX_FILENAME_LENGTH ->
  char_in PosixPath.sep p = false ->
  match_anchored _FILENAME_PATTERN p = true ->
  str_in (upper rt (fst (PosixPath.splitext p))) _WINDOWS_RESERVED_NAMES = false ->
  validate_filename rt (PStr p) = Return true.
Proof.
  intros Hb Hl Hs Hm Hr. unfold validate_filename. cbn [bind require_str].
  apply N.ltb_ge in Hl. now rewrite Hb, Hl, Hs, Hm, Hr.
Qed.

(** A name that does not begin with an upper-case letter is not reserved. *)
Lemma not_reserved_by_head (c : char) (t : pystr) :
  (65 <=? c) && (c <=? 90) = false ->
  str_in (c :: t) _WINDOWS_RESERVED_NAMES = false.
Proof.
  intro H. destruct (str_in (c :: t) _WINDOWS_RESERVED_NAMES) eqn:E; [|reflexivity].
  apply str_in_In, reserved_names_shape in E. unfold reserved_shape in E.
  apply andb_true_iff in E as [_ E]. congruence.
Qed.

Lemma dots_repeat (n : nat) : forallb (N.eqb DOT) (repeat DOT n) = true.
Proof. induction n as [|n IH]; [reflexivity|]. cbn [repeat forallb]. now rewrite IH. Qed.

Lemma dots_facts (p : pystr) :
  forallb (N.eqb DOT) p = true ->
  forallb (in_class (alnum ++ one "_.-")) p = true /\
  forallb is_ascii p = true /\
  List.map ascii_upper p = p.
Proof.
  induction p as [|c p IH]; intro H; [now repeat split|].
  cbn [forallb] in H. apply andb_true_iff in H as [Hc Hp].
  apply N.eqb_eq in Hc. subst c. destruct (IH Hp) as (H1 & H2 & H3).
  cbn [forallb List.map]. rewrite H1, H2, H3. now repeat split.
Qed.

(** Names made of dots ([.], [..], and longer) pass [validate_filename]:
    the pattern allows the dot anywhere, and [splitext] takes no extension
    off a name of dots. *)
Theorem dots_only_accepted (rt : runtime) (n : nat) :
  (1 <= n <= 255)%nat ->
  validate_filename rt (PStr (repeat DOT n)) = Return true.
Proof.
  intro Hn. pose proof (dots_repeat n) as Hd.
  destruct (dots_facts _ Hd) as (Hc & Ha & Hu).
  destruct n as [|n]; [lia|].
  apply validate_filename_accepts.
  - now apply blank_head.
  - unfold len, _MAX_FILENAME_LENGTH. rewrite repeat_length. lia.
  - now apply class_no_sep.
  - apply class_match_plus; [discriminate | exact Hc].
  - rewrite (splitext_all_dots _ Hd), (upper_ascii rt _ Ha), Hu.
    now apply not_reserved_by_head.
Qed.

(** The name [..] passes. *)
Lemma dots_only_accepted_witness :
  validate_filename rt0 (PStr (py "..")) = Return true.
Proof. apply (dots_only_accepted rt0 2). lia. Defined.

Lemma upper_shape_alnum (c : char) :
  ((65 <=? ascii_upper c) && (ascii_upper c <=? 90))
  || ((48 <=? ascii_upper c) && (ascii_upper c <=? 57)) = true ->
  in_class alnum c = true.
Proof.
  unfold ascii_upper, in_class, alnum. cbn [existsb].
  destruct ((97 <=? c) && (c <=? 122)) eqn:E; [reflexivity|].
  intro H. rewrite orb_false_r.
  apply orb_true_iff in H as [H|H]; rewrite H; cbn; [reflexivity | apply orb_true_r].
Qed.

(** A stem that reads as a reserved name once in upper case: letters and
    digits, a letter first. *)
Lemma reserved_stem (name stem : pystr) :
  In name _WINDOWS_RESERVED_NAMES ->
  List.map ascii_upper stem = name ->
  forallb (in_class alnum) stem = true /\
  exists c t, stem = c :: t /\ (c =? DOT) = false /\ char_isspace c = false.
Proof.
  intros Hin E. apply reserved_names_shape in Hin. subst name.
  unfold reserved_shape in Hin. apply andb_true_iff in Hin as [Hall Hhd].
  assert (Ha : forallb (in_class alnum) stem = true).
  { clear Hhd. induction stem as [|c t IH]; [reflexivity|].
    cbn [List.map forallb] in *. apply andb_true_iff in Hall as [Hc Ht].
    now rewrite (upper_shape_alnum c Hc), (IH Ht). }
  split; [exact Ha|].
  destruct stem as [|c t]; [discriminate|]. exists c, t. split; [reflexivity|].
  cbn [forallb] in Ha. apply andb_true_iff in Ha as [Hc _]. split.
  - apply N.eqb_neq. intros ->. discriminate Hc.
  - destruct (char_isspace c) eqn:S; [|reflexivity].
    rewrite (printable_no_space alnum c eq_refl S) in Hc. discriminate.
Qed.

Lemma alnum_facts (s : pystr) :
  forallb (in_class alnum) s = true ->
  forallb (in_class (alnum ++ one "_.-")) s = true /\
  forallb is_ascii s = true /\
  char_in DOT s = false.
Proof.
  intro H. split; [|split].
  - apply (forallb_weaken (in_class alnum)); [|exact H].
    intro c. now apply (class_subset_in alnum (alnum ++ one "_.-")).
  - now apply (class_string_ascii alnum).
  - destruct (char_in DOT s) eqn:E; [|reflexivity].
    apply char_in_In in E. rewrite forallb_forall in H. apply H in E. discriminate E.
Qed.

Lemma dots_false_head (c : char) (t : pystr) :
  (c =? DOT) = false -> forallb (N.eqb DOT) (c :: t) = false.
Proof. intro H. cbn [forallb]. now rewrite N.eqb_sym, H. Qed.

(** The reserved device names are refused in any letter case, bare or with
    one extension: a name whose stem reads [CON], [PRN], [AUX], [NUL],
    [COM1] to [COM9] or [LPT1] to [LPT9] in upper case, alone or followed
    by a dot and an extension without a dot, is rejected. *)
Theorem reserved_name_rejected (rt : runtime) (name stem ext : pystr) :
  In name _WINDOWS_RESERVED_NAMES ->
  List.map ascii_upper stem = name ->
  char_in DOT ext = false ->
  validate_filename rt (PStr stem) = Return false /\
  validate_filename rt (PStr (stem ++ DOT :: ext)) = Return false.
Proof.
  intros Hin Hup Hext.
  destruct (reserved_stem name stem Hin Hup) as (Ha & c & t & Es & Hc & _).
  destruct (alnum_facts stem Ha) as (_ & Hascii & Hdot).
  assert (Hres : str_in (upper rt stem) _WINDOWS_RESERVED_NAMES = true).
  { rewrite (upper_ascii rt stem Hascii), Hup. now apply str_in_In. }
  unfold validate_filename. cbn [bind require_str]. split.
  - destruct (blank stem); [reflexivity|].
    destruct (_ <? len stem); [reflexivity|].
    destruct (char_in PosixPath.sep stem); [reflexivity|].
    destruct (match_anchored _FILENAME_PATTERN stem); [|reflexivity]. cbn [negb].
    rewrite (splitext_no_dot stem Hdot). cbn [fst]. now rewrite Hres.
  - destruct (blank _); [reflexivity|].
    destruct (_ <? len _); [reflexivity|].
    destruct (char_in PosixPath.sep (stem ++ DOT :: ext)) eqn:Hs; [reflexivity|].
    destruct (match_anchored _FILENAME_PATTERN _); [|reflexivity]. cbn [negb].
    rewrite (splitext_last_dot stem ext Hs Hext); [cbn [fst]; now rewrite Hres|].
    subst stem. now apply dots_false_head.
Qed.

(** The reserved name in lower case, [con], and with an extension,
    [con.txt]. *)
Lemma reserved_name_rejected_witness :
  validate_filename rt0 (PStr (py "con")) = Return false /\
  validate_filename rt0 (PStr (py "con" ++ DOT :: py "txt")) = Return false.
Proof.
  apply (reserved_name_rejected rt0 (py "CON") (py "con") (py "txt"));
    [ vm_compute; tauto | reflexivity | reflexivity ].
Defined.

Lemma reserved_no_dot (x : pystr) :
  char_in DOT x = true -> str_in x _WINDOWS_RESERVED_NAMES = false.
Proof.
  intro H. destruct (str_in x _WINDOWS_RESERVED_NAMES) eqn:E; [|reflexivity].
  apply str_in_In, reserved_names_shape in E. unfold reserved_shape in E.
  apply andb_true_iff in E as [E _]. apply char_in_In in H.
  rewrite forallb_forall in E. apply E in H. discriminate H.
Qed.

(** The test on the reserved names looks at the text before the last dot
    only: a reserved stem with two extensions, such as [CON.tar.gz], is
    accepted. *)
Theorem reserved_name_two_extensions (rt : runtime) (name stem e1 e2 : pystr) :
  In name _WINDOWS_RESERVED_NAMES ->
  List.map ascii_upper stem = name ->
  e1 <> [] -> e2 <> [] ->
  forallb (in_class alnum) e1 = true ->
  forallb (in_class alnum) e2 = true ->
  len (stem ++ DOT :: e1 ++ DOT :: e2) <= _MAX_FILENAME_LENGTH ->
  validate_filename rt (PStr (stem ++ DOT :: e1 ++ DOT :: e2)) = Return true.
Proof.
  intros Hin Hup _ _ H1 H2 Hlen.
  destruct (reserved_stem name stem Hin Hup) as (Ha & c & t & Es & Hc & Hsp).
  destruct (alnum_facts stem Ha) as (Hcs & Has & _).
  destruct (alnum_facts e1 H1) as (Hc1 & Ha1 & _).
  destruct (alnum_facts e2 H2) as (Hc2 & _ & Hd2).
  assert (Hclass : forallb (in_class (alnum ++ one "_.-")) (stem ++ DOT :: e1 ++ DOT :: e2) = true).
  { rewrite forallb_app. cbn [forallb]. rewrite forallb_app. cbn [forallb].
    rewrite Hcs, Hc1, Hc2. reflexivity. }
  pose proof (class_no_sep _ Hclass) as Hsep.
  apply validate_filename_accepts.
  - subst stem. cbn [app]. now apply blank_head.
  - exact Hlen.
  - exact Hsep.
  - apply class_match_plus; [|exact Hclass]. subst stem. discriminate.
  - replace (stem ++ DOT :: e1 ++ DOT :: e2) with ((stem ++ DOT :: e1) ++ DOT :: e2) in *
      by (now rewrite <- app_assoc).
    rewrite (splitext_last_dot (stem ++ DOT :: e1) e2 Hsep Hd2).
    + cbn [fst]. rewrite upper_ascii.
      * apply reserved_no_dot. apply char_in_In. apply in_map_iff.
        exists DOT. split; [reflexivity|]. apply in_or_app. right. now left.
      * rewrite forallb_app. cbn [forallb]. now rewrite Has, Ha1.
    + subst stem. cbn [app]. now apply dots_false_head.
Qed.

(** The name [CON.tar.gz] passes. *)
Lemma reserved_name_two_extensions_witness :
  validate_filename rt0 (PStr (py "CON" ++ DOT :: py "tar" ++ DOT :: py "gz")) = Return true.
Proof.
  apply (reserved_name_two_extensions rt0 (py "CON") (py "CON") (py "tar") (py "gz"));
    [ vm_compute; tauto | reflexivity | discriminate | discriminate
    | reflexivity | reflexivity | vm_compute; discriminate ].
Defined.

(** ** Further properties: paths *)

Lemma str_contains_split (q p : pystr) :
  str_contains q p = true <-> exists a b, p = a ++ q ++ b.
Proof.
  induction p as [|c p IH].
  - cbn [str_contains]. rewrite orb_false_r, startswith_prefix. split.
    + intros (rest & E). exists [], rest. exact E.
    + intros (a & b & E). destruct a; [|discriminate]. now exists b.
  - cbn [str_contains]. rewrite orb_true_iff, startswith_prefix, IH. split.
    + intros [(rest & E) | (a & b & E)].
      * exists [], rest. exact E.
      * exists (c :: a), b. cbn [app]. now rewrite E.
    + intros (a & b & E). destruct a as [|x a]; cbn [app] in E.
      * left. now exists b.
      * injection E as _ E. right. now exists a, b.
Qed.

Lemma search_contains (r : regex) (q p : pystr) :
  counted_ok r = true -> lang r q -> str_contains q p = true -> search r p = true.
Proof.
  intros Hok Hq H. apply str_contains_split in H as (a & b & ->).
  apply (search_lang r _ Hok). now exists a, q, b.
Qed.

Lemma traversal_dot_dot : lang _PATH_TRAVERSAL_PATTERN (py "..").
Proof.
  apply lang_alt_l. apply (lang_seq (Lit DOT) (Lit DOT) [DOT] [DOT]); now constructor.
Qed.

Lemma traversal_slash_dot : lang _PATH_TRAVERSAL_PATTERN (py "/.").
Proof.
  apply lang_alt_r, lang_alt_l.
  apply (lang_seq (Lit SLASH) (Lit DOT) [SLASH] [DOT]); now constructor.
Qed.

Lemma search_traversal (p : pystr) :
  str_contains (py "..") p = true \/ str_contains (py "/.") p = true ->
  search _PATH_TRAVERSAL_PATTERN p = true.
Proof.
  intros [H|H].
  - exact (search_contains _PATH_TRAVERSAL_PATTERN _ p eq_refl traversal_dot_dot H).
  - exact (search_contains _PATH_TRAVERSAL_PATTERN _ p eq_refl traversal_slash_dot H).
Qed.

(** Two dots in a row anywhere, or a dot right after a slash anywhere (a
    hidden file or directory such as [/.ssh]), and the path is reported as
    a traversal and rejected by [validate_file_path] whatever the base. *)
Theorem dotted_path_rejected (rt : runtime) (p b : pystr) :
  str_contains (py "..") p = true \/ str_contains (py "/.") p = true ->
  contains_path_traversal rt (PStr p) = Return true /\
  validate_file_path rt (PStr p) (PStr b) = Return false.
Proof.
  intro H. apply search_traversal in H.
  assert (Ht : contains_path_traversal rt (PStr p) = Return true).
  { unfold contains_path_traversal. cbn [bind require_str]. now rewrite H. }
  split; [exact Ht|].
  unfold validate_file_path. cbn [bind require_str].
  destruct (blank p); [reflexivity|].
  destruct (_ <? len p); [reflexivity|].
  destruct (existsb _ _NULL_BYTE_SEQUENCES); [reflexivity|].
  now rewrite Ht.
Qed.

(** A file with two dots in its name, and a hidden directory under the
    base. *)
Lemma dotted_path_rejected_witness :
  validate_file_path rt0 (PStr (py "/var/app/notes..txt")) (PStr (py "/var/app")) = Return false /\
  validate_file_path rt0 (PStr (py "/var/app/.config/x")) (PStr (py "/var/app")) = Return false.
Proof.
  split.
  - apply (dotted_path_rejected rt0 (py "/var/app/notes..txt") (py "/var/app")).
    left. vm_compute. reflexivity.
  - apply (dotted_path_rejected rt0 (py "/var/app/.config/x") (py "/var/app")).
    right. vm_compute. reflexivity.
Defined.

(** The percent-decoded form is searched too: when decoding the path gives
    a string with two dots in a row, or with a dot right after a slash, the
    path is reported, whatever decoder the runtime has. *)
Theorem decoded_traversal_reported (rt : runtime) (p decoded : pystr) :
  unquote rt p = Return decoded ->
  str_contains (py "..") decoded = true \/ str_contains (py "/.") decoded = true ->
  contains_path_traversal rt (PStr p) = Return true.
Proof.
  intros Hu H. apply search_traversal in H.
  unfold contains_path_traversal. cbn [bind require_str].
  destruct (search _PATH_TRAVERSAL_PATTERN p) eqn:Hp; [reflexivity|].
  destruct (existsb _ _PATH_TRAVERSAL_SEQUENCES); [reflexivity|].
  rewrite Hu, H, andb_true_r. f_equal.
  destruct (str_eqb decoded p) eqn:E; [|reflexivity].
  apply str_eqb_eq in E. subst decoded. congruence.
Qed.

(** A hidden directory written with an escape, [data/%2econfig]. *)
Lemma decoded_traversal_reported_witness :
  contains_path_traversal rt_decoding (PStr (py "data/%2econfig")) = Return true.
Proof.
  apply (decoded_traversal_reported rt_decoding (py "data/%2econfig") (py "data/.config")).
  - vm_compute. reflexivity.
  - right. vm_compute. reflexivity.
Defined.

Lemma startswith_longer (p : pystr) (c : char) : startswith (p ++ [c]) p = false.
Proof.
  destruct (startswith (p ++ [c]) p) eqn:E; [|reflexivity].
  apply startswith_prefix in E as (rest & E).
  apply (f_equal (@List.length char)) in E. rewrite !length_app in E.
  cbn [List.length] in E. lia.
Qed.

Lemma is_within_directory_forms (rt : runtime) (p b fp fb : pystr) :
  absolute_form rt p = Return fp ->
  absolute_form rt b = Return fb ->
  is_within_directory rt (PStr p) (PStr b)
  = Return (startswith (with_trailing_sep fb) fp).
Proof.
  intros Hp Hb. unfold is_within_directory. cbn [bind require_str].
  now rewrite resolve_and_compare_forms, Hp, Hb.
Qed.

(** A directory is not within itself: when the absolute form of a path
    does not end with a separator (it is not the root), the path is not
    within the directory of the same path, and [validate_file_path] rejects
    it against itself. *)
Theorem base_not_within_itself (rt : runtime) (p full : pystr) :
  absolute_form rt p = Return full ->
  endswith [PosixPath.sep] full = false ->
  is_within_directory rt (PStr p) (PStr p) = Return false /\
  validate_file_path rt (PStr p) (PStr p) = Return false.
Proof.
  intros Hf He.
  assert (Hw : is_within_directory rt (PStr p) (PStr p) = Return false).
  { rewrite (is_within_directory_forms rt p p full full Hf Hf).
    unfold with_trailing_sep. rewrite He. now rewrite startswith_longer. }
  split; [exact Hw|].
  unfold validate_file_path. cbn [bind require_str].
  destruct (blank p); [reflexivity|].
  destruct (_ <? len p); [reflexivity|].
  destruct (existsb _ _NULL_BYTE_SEQUENCES); [reflexivity|].
  destruct (contains_path_traversal_returns rt p) as [t ->]. cbn [bind].
  destruct t; [reflexivity | exact Hw].
Qed.

(** The base [/var/app] against itself. *)
Lemma base_not_within_itself_witness :
  is_within_directory rt0 (PStr (py "/var/app")) (PStr (py "/var/app")) = Return false /\
  validate_file_path rt0 (PStr (py "/var/app")) (PStr (py "/var/app")) = Return false.
Proof.
  apply (base_not_within_itself rt0 (py "/var/app") (py "/var/app")); reflexivity.
Defined.

(** What an accepted path is: when [validate_file_path] returns true, the
    path has from 1 to 4096 characters, holds no two dots in a row, no dot
    right after a slash, none of the sequences of the two lists, and its
    absolute form is that of the base, a separator, and more. *)
Theorem accepted_path_guarantees (rt : runtime) (p b : pystr) :
  validate_file_path rt (PStr p) (PStr b) = Return true ->
  1 <= len p <= _MAX_FILEPATH_LENGTH /\
  str_contains (py "..") p = false /\
  str_contains (py "/.") p = false /\
  (forall nb, In nb _NULL_BYTE_SEQUENCES -> str_contains nb p = false) /\
  (forall sq, In sq _PATH_TRAVERSAL_SEQUENCES -> str_contains sq (lower rt p) = false) /\
  contains_path_traversal rt (PStr p) = Return false /\
  is_within_directory rt (PStr p) (PStr b) = Return true /\
  exists full_path full_base rest,
    absolute_form rt p = Return full_path /\
    absolute_form rt b = Return full_base /\
    full_path = with_trailing_sep full_base ++ rest.
Proof.
  unfold validate_file_path. cbn [bind require_str]. intro H.
  destruct (blank p) eqn:Hb; [discriminate|].
  destruct (_ <? len p) eqn:Hl; [discriminate|]. apply N.ltb_ge in Hl.
  destruct (existsb _ _NULL_BYTE_SEQUENCES) eqn:Hn; [discriminate|].
  destruct (contains_path_traversal_returns rt p) as [t Ht]. rewrite Ht in H.
  cbn [bind] in H. destruct t; [discriminate|].
  split; [split; [now apply blank_false_len | exact Hl]|].
  assert (Hs : search _PATH_TRAVERSAL_PATTERN p = false).
  { unfold contains_path_traversal in Ht. cbn [bind require_str] in Ht.
    destruct (search _PATH_TRAVERSAL_PATTERN p); [discriminate | reflexivity]. }
  split; [|split].
  - destruct (str_contains (py "..") p) eqn:E; [|reflexivity].
    rewrite (search_traversal p (or_introl E)) in Hs. discriminate.
  - destruct (str_contains (py "/.") p) eqn:E; [|reflexivity].
    rewrite (search_traversal p (or_intror E)) in Hs. discriminate.
  - split.
    { intros nb Hin. destruct (str_contains nb p) eqn:E; [|reflexivity].
      assert (existsb (fun x => str_contains x p) _NULL_BYTE_SEQUENCES = true)
        by (apply existsb_exists; now exists nb).
      congruence. }
    split.
    { intros sq Hin. destruct (str_contains sq (lower rt p)) eqn:E; [|reflexivity].
      unfold contains_path_traversal in Ht. cbn [bind require_str] in Ht.
      rewrite Hs in Ht.
      assert (X : existsb (fun x => str_contains (lower rt x) (lower rt p))
                    _PATH_TRAVERSAL_SEQUENCES = true).
      { apply existsb_exists. exists sq. split; [exact Hin|].
        now rewrite traversal_sequences_lower. }
      rewrite X in Ht. discriminate. }
    split; [exact Ht|]. split; [exact H|].
    unfold is_within_directory in H. cbn [bind require_str] in H.
    rewrite resolve_and_compare_forms in H.
    destruct (absolute_form rt p) as [fp|e1]; cbn [bind] in H;
      [|destruct e1; discriminate].
    destruct (absolute_form rt b) as [fb|e2]; cbn [bind] in H;
      [|destruct e2; discriminate].
    injection H as H. apply startswith_prefix in H as (rest & ->).
    now exists (with_trailing_sep fb ++ rest), fb, rest.
Qed.

(** The path of the docstring, [/var/app/data/file.txt] under
    [/var/app/data]. *)
Lemma accepted_path_guarantees_witness :
  str_contains (py "..") (py "/var/app/data/file.txt") = false /\
  is_within_directory rt0 (PStr (py "/var/app/data/file.txt")) (PStr (py "/var/app/data"))
    = Return true.
Proof.
  pose proof (accepted_path_guarantees rt0 (py "/var/app/data/file.txt")
                (py "/var/app/data") eq_refl) as (_ & H1 & _ & _ & _ & _ & H2 & _).
  split; [exact H1 | exact H2].
Defined.

(** ** Further properties: sanitizing and the checks *)

Lemma sanitize_input_kept (s allowed : pystr) :
  sanitize_input (PStr s) (PStr allowed) = Return (kept_subsequence allowed s).
Proof.
  unfold sanitize_input. cbn [bind require_str]. now rewrite filter_allowed_kept.
Qed.

Lemma kept_subsequence_forallb (f : char -> bool) (allowed s : pystr) :
  forallb f allowed = true -> forallb f (kept_subsequence allowed s) = true.
Proof.
  intro H. apply forallb_forall. intros c Hc.
  apply kept_subsequence_In in Hc as [_ Hc].
  rewrite forallb_forall in H. now apply H.
Qed.

Lemma lower_digit_image_name (s : pystr) :
  s <> [] -> forallb (in_class lower_digit) s = true ->
  lang _DOCKER_IMAGE_NAME_PATTERN s.
Proof.
  intros Hne Hf. unfold _DOCKER_IMAGE_NAME_PATTERN.
  replace s with (s ++ []) by apply app_nil_r.
  apply lang_seq; [now apply class_plus | constructor].
Qed.

Lemma lower_digit_namespace (s : pystr) :
  s <> [] -> forallb (in_class lower_digit) s = true ->
  lang _K8S_NAMESPACE_PATTERN s.
Proof.
  intros Hne Hf. destruct s as [|c rest]; [now elim Hne|].
  cbn [forallb] in Hf. apply andb_true_iff in Hf as [Hc Hr].
  unfold _K8S_NAMESPACE_PATTERN, Opt.
  apply (lang_seq _ _ [c] rest); [now constructor|].
  destruct rest as [|d init _] using rev_ind.
  - apply lang_alt_r. constructor.
  - rewrite forallb_app in Hr. apply andb_true_iff in Hr as [Hi Hd].
    cbn [forallb] in Hd. rewrite andb_true_r in Hd.
    apply lang_alt_l. apply lang_seq; [|now constructor].
    apply class_star. apply (forallb_weaken (in_class lower_digit)); [|exact Hi].
    intros x Hx. rewrite in_class_app, Hx. reflexivity.
Qed.

Ltac by_class_plus :=
  unfold _HELM_PARAMETER_PATTERN, _HELM_VALUE_PATTERN, _ALPHANUMERIC_DASH_PATTERN;
  apply class_plus;
  [ assumption
  | eapply forallb_weaken;
    [| match goal with H : forallb (in_class _) _ = true |- _ => exact H end ];
    intro c; apply class_subset_in; vm_compute; reflexivity ].

Ltac by_body s :=
  match goal with
  | |- match_anchored ?r _ = true =>
      apply (body_match_anchored r s s eq_refl (or_introl eq_refl))
  end.

Lemma letters_identifier (s : pystr) :
  s <> [] -> forallb (in_class [(97, 122); (65, 90); (95, 95)]) s = true ->
  lang _IDENTIFIER_PATTERN s.
Proof.
  intros Hne Hf. destruct s as [|c rest]; [now elim Hne|].
  cbn [forallb] in Hf. apply andb_true_iff in Hf as [Hc Hr].
  unfold _IDENTIFIER_PATTERN. apply (lang_seq _ _ [c] rest); [now constructor|].
  apply class_star.
  apply (forallb_weaken (in_class [(97, 122); (65, 90); (95, 95)])); [|exact Hr].
  intro x. apply class_subset_in. vm_compute. reflexivity.
Qed.

(** The root [splitext] returns is the path or a slice of it from its
    start. *)
Lemma splitext_stem_prefix (p : pystr) :
  exists n, fst (PosixPath.splitext p) = firstn n p.
Proof.
  unfold PosixPath.splitext. cbv zeta.
  destruct (_ <? _)%Z; [destruct (forallb _ _)|]; cbn [fst].
  - exists (List.length p). symmetry. apply firstn_all.
  - eexists. reflexivity.
  - exists (List.length p). symmetry. apply firstn_all.
Qed.

Lemma digit_sep_not_letter (c : char) :
  in_class ([(48, 57)] ++ one "_.-") c = true ->
  (65 <=? ascii_upper c) && (ascii_upper c <=? 90) = false.
Proof.
  change ([(48, 57)] ++ one "_.-") with [(48, 57); (95, 95); (46, 46); (45, 45)].
  unfold in_class. cbn [existsb]. intro H.
  assert (E : 45 <= c <= 57 \/ c = 95).
  { repeat (apply orb_true_iff in H as [H|H]);
      try discriminate;
      apply andb_true_iff in H as [H1 H2]; apply N.leb_le in H1, H2; lia. }
  unfold ascii_upper.
  assert ((97 <=? c) && (c <=? 122) = false) as ->
    by (apply andb_false_iff; left; apply N.leb_gt; lia).
  apply andb_false_iff. destruct E as [E| ->]; [left; apply N.leb_gt; lia | now right].
Qed.

(** A name of digits, [_], [.] and [-]: its root starts with no letter, and
    is no reserved name. *)
Lemma digits_filename (rt : runtime) (s : pystr) :
  s <> [] -> len s <= _MAX_FILENAME_LENGTH ->
  forallb (in_class ([(48, 57)] ++ one "_.-")) s = true ->
  validate_filename rt (PStr s) = Return true.
Proof.
  intros Hne Hlen Hf.
  assert (He : is_empty s = false) by (destruct s; [now elim Hne | reflexivity]).
  assert (Hw : forallb (in_class (alnum ++ one "_.-")) s = true).
  { apply (forallb_weaken (in_class ([(48, 57)] ++ one "_.-"))); [|exact Hf].
    intro c. apply class_subset_in. vm_compute. reflexivity. }
  apply validate_filename_accepts.
  - apply (class_string_not_blank (alnum ++ one "_.-") s eq_refl He Hw).
  - exact Hlen.
  - now apply class_no_sep.
  - unfold _FILENAME_PATTERN. now apply class_match_plus.
  - destruct (splitext_stem_prefix s) as [n ->].
    assert (Hst : forallb (in_class ([(48, 57)] ++ one "_.-")) (firstn n s) = true).
    { rewrite forallb_forall in *. intros c Hc. apply Hf.
      rewrite <- (firstn_skipn n s). apply in_or_app. now left. }
    rewrite (upper_ascii rt (firstn n s)
               (class_string_ascii ([(48, 57)] ++ one "_.-") _ eq_refl Hst)).
    destruct (firstn n s) as [|c t]; [reflexivity|].
    cbn [forallb] in Hst. apply andb_true_iff in Hst as [Hc _].
    cbn [List.map]. apply not_reserved_by_head. now apply digit_sep_not_letter.
Qed.

(** Sanitizing, then checking: when every character of the allow-set is of
    the class that suits a check (lower-case letters and digits for the
    Docker image name and the two Kubernetes names; the class of the
    pattern for the Docker tag, the Helm parameter, the Helm value and
    [is_alphanumeric_with_dash]; letters and the underscore for the
    identifier; digits, [_], [.] and [-] for the file name), the string
    [sanitize_input] returns is accepted by the check when it is not empty
    and no longer than the maximum of the kind. *)
Theorem sanitized_accepted (rt : runtime) (p : pattern_check)
    (s allowed kept : pystr) :
  forallb (in_class (suiting_class p)) allowed = true ->
  sanitize_input (PStr s) (PStr allowed) = Return kept ->
  kept <> [] ->
  (forall k, p = OfKind k -> len kept <= max_length k) ->
  run_check rt p (PStr kept) = Return true.
Proof.
  intros Ha Hs Hne Hlen. rewrite sanitize_input_kept in Hs. injection Hs as Hs.
  assert (Hin : forall f, forallb f allowed = true -> forallb f kept = true)
    by (intros f Hf; rewrite <- Hs; now apply kept_subsequence_forallb).
  clear Hs. apply Hin in Ha.
  assert (He : is_empty kept = false) by (destruct kept; [now elim Hne | reflexivity]).
  destruct p as [k|]; [destruct k|]; cbn [suiting_class] in Ha.
  3: { cbn [run_check validator]. apply digits_filename; [exact Hne | | exact Ha].
       apply (Hlen Filename eq_refl). }
  all: (apply run_check_accepts;
     [ discriminate
     | eapply class_string_not_blank; [|exact He|exact Ha]; reflexivity
     | intros L HL; cbn [length_test] in HL; try discriminate;
       injection HL as <-; apply (Hlen _ eq_refl)
     | ]);
    cbn [pattern_of_check pattern_of].
  - by_body kept.
    now apply lower_digit_image_name.
  - unfold _DOCKER_TAG_PATTERN. apply rep_class_within; [exact Ha|].
    specialize (Hlen _ eq_refl). cbn [max_length] in Hlen.
    unfold _MAX_DOCKER_TAG_LENGTH, len in Hlen.
    destruct kept; [now elim Hne|]. cbn [List.length] in *. lia.
  - by_body kept. by_class_plus.
  - by_body kept. by_class_plus.
  - by_body kept.
    now apply lower_digit_namespace.
  - by_body kept.
    apply (lang_wider _K8S_NAMESPACE_PATTERN kept); [now apply lower_digit_namespace | reflexivity].
  - by_body kept.
    now apply letters_identifier.
  - by_body kept. by_class_plus.
Qed.

(** The set of lower-case letters and digits of the module on [My_App 2!]:
    what is left, [ypp2], is a valid namespace; and its set of digits on
    [report 2024.txt]: what is left, [2024], is a valid file name. *)
Lemma sanitized_accepted_witness :
  sanitize_input (PStr (py "My_App 2!")) (PStr LOWERCASE_ALPHANUMERIC)
    = Return (py "ypp2") /\
  validate_kubernetes_namespace (PStr (py "ypp2")) = Return true /\
  sanitize_input (PStr (py "report 2024.txt")) (PStr NUMERIC_CHARS)
    = Return (py "2024") /\
  validate_filename rt0 (PStr (py "2024")) = Return true.
Proof.
  split; [reflexivity|]. split; [|split; [reflexivity|]].
  - apply (sanitized_accepted rt0 (OfKind KubernetesNamespace) (py "My_App 2!")
             LOWERCASE_ALPHANUMERIC (py "ypp2"));
      [reflexivity | reflexivity | discriminate |].
    intros k E. injection E as <-. vm_compute. discriminate.
  - apply (sanitized_accepted rt0 (OfKind Filename) (py "report 2024.txt")
             NUMERIC_CHARS (py "2024"));
      [reflexivity | reflexivity | discriminate |].
    intros k E. injection E as <-. vm_compute. discriminate.
Defined.

(** The sets the module exports, against the classes: the digits are
    within the class of every check but that of the identifier; the
    lower-case letters and digits, and the hexadecimal digits, within
    those of the checks other than the file name and the identifier. *)
Lemma exported_sets_suit (p : pattern_check) :
  (p <> OfKind Identifier ->
   forallb (in_class (suiting_class p)) NUMERIC_CHARS = true) /\
  (p <> OfKind Filename -> p <> OfKind Identifier ->
   forallb (in_class (suiting_class p)) LOWERCASE_ALPHANUMERIC = true /\
   forallb (in_class (suiting_class p)) HEX_CHARS_LOWER = true).
Proof.
  destruct p as [k|]; [destruct k|]; split; intros H1; try (now elim H1);
    try (intros H2; try (now elim H2)); repeat split; vm_compute; reflexivity.
Qed.

(** Sanitizing, then looking for shell metacharacters: with an allow-set
    that holds none of the characters of [_SHELL_METACHARACTERS], what
    [sanitize_input] returns is reported free of them. *)
Theorem sanitized_no_metacharacter (s allowed kept : pystr) :
  existsb (fun c => char_in c _SHELL_METACHARACTERS) allowed = false ->
  sanitize_input (PStr s) (PStr allowed) = Return kept ->
  contains_shell_metacharacters (PStr kept) = Return false.
Proof.
  intros Ha Hs. rewrite sanitize_input_kept in Hs. injection Hs as <-.
  unfold contains_shell_metacharacters. cbn [bind require_str]. f_equal.
  apply not_true_is_false. intro H. apply existsb_exists in H as (c & Hc & Hm).
  apply kept_subsequence_In in Hc as [_ Hc].
  assert (X : existsb (fun c => char_in c _SHELL_METACHARACTERS) allowed = true)
    by (apply existsb_exists; now exists c).
  congruence.
Qed.

(** The digits kept of [rm -rf /tmp/2024;]. Of the sets the module exports
    those of the digits and of the hexadecimal digits hold no metacharacter;
    the three with all the letters hold n, r and t, which the module counts
    as metacharacters. *)
Lemma sanitized_no_metacharacter_witness :
  contains_shell_metacharacters (PStr (py "2024")) = Return false /\
  existsb (fun c => char_in c _SHELL_METACHARACTERS) HEX_CHARS_LOWER = false /\
  existsb (fun c => char_in c _SHELL_METACHARACTERS) LOWERCASE_ALPHANUMERIC = true.
Proof.
  split; [|split; reflexivity].
  apply (sanitized_no_metacharacter (py "rm -rf /tmp/2024;") NUMERIC_CHARS (py "2024"));
    reflexivity.
Defined.

(** ** Further properties: the algebra of [sanitize_input] *)

Lemma kept_subsequence_ext (a a' s : pystr) :
  (forall c, In c a <-> In c a') ->
  kept_subsequence a s = kept_subsequence a' s.
Proof.
  intro H. induction s as [|c s IH]; [reflexivity|]. cbn [kept_subsequence].
  rewrite IH. destruct (in_dec N.eq_dec c a) as [Ha|Ha], (in_dec N.eq_dec c a') as [Ha'|Ha'];
    try reflexivity; [apply H in Ha | apply H in Ha']; contradiction.
Qed.

Lemma kept_subsequence_twice (a b s : pystr) :
  kept_subsequence b (kept_subsequence a s)
  = kept_subsequence (kept_subsequence b a) s.
Proof.
  induction s as [|c s IH]; [reflexivity|]. cbn [kept_subsequence].
  destruct (in_dec N.eq_dec c a) as [Ha|Ha];
    destruct (in_dec N.eq_dec c (kept_subsequence b a)) as [Hab|Hab];
    cbn [kept_subsequence].
  - apply kept_subsequence_In in Hab as [_ Hb].
    destruct (in_dec N.eq_dec c b); [now rewrite IH | contradiction].
  - destruct (in_dec N.eq_dec c b) as [Hb|Hb]; [|exact IH].
    elim Hab. apply kept_subsequence_In. now split.
  - apply kept_subsequence_In in Hab as [Ha' _]. contradiction.
  - exact IH.
Qed.

Lemma kept_subsequence_app (a s t : pystr) :
  kept_subsequence a (s ++ t) = kept_subsequence a s ++ kept_subsequence a t.
Proof.
  induction s as [|c s IH]; [reflexivity|]. cbn [app kept_subsequence].
  rewrite IH. now destruct (in_dec N.eq_dec c a).
Qed.

Lemma kept_subsequence_length (a s : pystr) :
  (List.length (kept_subsequence a s) <= List.length s)%nat.
Proof.
  induction s as [|c s IH]; [apply Nat.le_refl|]. cbn [kept_subsequence].
  destruct (in_dec N.eq_dec c a); cbn [List.length]; lia.
Qed.

Lemma kept_subsequence_all (a s : pystr) :
  kept_subsequence a s = s <-> forall c, In c s -> In c a.
Proof.
  split.
  - intros E c Hc. rewrite <- E in Hc. now apply kept_subsequence_In in Hc.
  - induction s as [|c s IH]; intro H; [reflexivity|]. cbn [kept_subsequence].
    destruct (in_dec N.eq_dec c a) as [Ha|Ha].
    + f_equal. apply IH. intros x Hx. apply H. now right.
    + elim Ha. apply H. now left.
Qed.

(** Two allow-sets, one after the other: the order of the two calls does
    not matter, and the result is that of one call with the characters the
    two sets share; it holds the characters of the input that are in both
    sets. *)
Theorem sanitize_input_two_sets (s a b : pystr) :
  exists kept,
    (x <- sanitize_input (PStr s) (PStr a) ;; sanitize_input (PStr x) (PStr b))
      = Return kept /\
    (x <- sanitize_input (PStr s) (PStr b) ;; sanitize_input (PStr x) (PStr a))
      = Return kept /\
    (common <- sanitize_input (PStr a) (PStr b) ;;
     sanitize_input (PStr s) (PStr common)) = Return kept /\
    (forall c, In c kept <-> In c s /\ In c a /\ In c b).
Proof.
  exists (kept_subsequence b (kept_subsequence a s)).
  rewrite !sanitize_input_kept. cbn [bind]. rewrite !sanitize_input_kept.
  split; [reflexivity|]. split; [|split].
  - f_equal. rewrite !kept_subsequence_twice. apply kept_subsequence_ext.
    intro c. rewrite !kept_subsequence_In. tauto.
  - f_equal. rewrite kept_subsequence_twice. apply kept_subsequence_ext.
    intro c. rewrite !kept_subsequence_In. tauto.
  - intro c. rewrite !kept_subsequence_In. tauto.
Qed.

(** The laws of [sanitize_input]: the result on two strings put together
    is the two results put together; the result is never longer than the
    input, and is the input itself exactly when every character of the
    input is allowed; and of the allow-set only the membership counts, not
    the order or the repetitions of its characters. *)
Theorem sanitize_input_laws (s t allowed allowed' : pystr) :
  exists ks kt,
    sanitize_input (PStr s) (PStr allowed) = Return ks /\
    sanitize_input (PStr t) (PStr allowed) = Return kt /\
    sanitize_input (PStr (s ++ t)) (PStr allowed) = Return (ks ++ kt) /\
    len ks <= len s /\
    (ks = s <-> forall c, In c s -> In c allowed) /\
    ((forall c, In c allowed <-> In c allowed') ->
     sanitize_input (PStr s) (PStr allowed') = Return ks).
Proof.
  exists (kept_subsequence allowed s), (kept_subsequence allowed t).
  rewrite !sanitize_input_kept, kept_subsequence_app.
  split; [reflexivity|]. split; [reflexivity|]. split; [reflexivity|].
  split; [unfold len; pose proof (kept_subsequence_length allowed s); lia|].
  split; [apply kept_subsequence_all|].
  intro H. f_equal. symmetry. now apply kept_subsequence_ext.
Qed.

(** ** Further properties: [is_alphanumeric] *)

Lemma ascii_isalnum_class (c : char) : ascii_isalnum c = in_class alnum c.
Proof.
  unfold ascii_isalnum, in_class, alnum. cbn [existsb].
  destruct (48 <=? c), (c <=? 57), (65 <=? c), (c <=? 90), (97 <=? c), (c <=? 122);
    reflexivity.
Qed.

Lemma forallb_ascii_alnum (rt : runtime) (s : pystr) :
  forallb is_ascii s = true ->
  forallb (fun c => if is_ascii c then ascii_isalnum c else unicode_isalnum rt c) s
  = forallb (in_class alnum) s.
Proof.
  induction s as [|c s IH]; [reflexivity|]. cbn [forallb]. intro H.
  apply andb_true_iff in H as [Hc Hs]. now rewrite Hc, ascii_isalnum_class, IH.
Qed.

(** On a string of ASCII characters [is_alphanumeric] is true exactly when
    the string is not empty and made of letters and digits, and what it
    accepts [is_alphanumeric_with_dash] accepts. *)
Theorem is_alphanumeric_ascii (rt : runtime) (s : pystr) :
  forallb is_ascii s = true ->
  is_alphanumeric rt (PStr s)
    = Return (negb (is_empty s) && forallb (in_class alnum) s) /\
  (is_alphanumeric rt (PStr s) = Return true ->
   is_alphanumeric_with_dash (PStr s) = Return true).
Proof.
  intro Ha.
  assert (E : is_alphanumeric rt (PStr s)
              = Return (negb (is_empty s) && forallb (in_class alnum) s)).
  { unfold is_alphanumeric. cbn [bind require_str].
    destruct (blank s) eqn:Hb.
    - destruct (negb (is_empty s) && forallb (in_class alnum) s) eqn:E; [|reflexivity].
      apply andb_true_iff in E as [E1 E2]. apply negb_true_iff in E1.
      rewrite (class_string_not_blank alnum s eq_refl E1 E2) in Hb. discriminate.
    - f_equal. destruct s as [|c s]; [discriminate|].
      unfold isalnum. now rewrite forallb_ascii_alnum. }
  split; [exact E|]. rewrite E. intro H. injection H as H.
  apply andb_true_iff in H as [H1 H2]. apply negb_true_iff in H1.
  apply (run_check_accepts rt AlphanumericWithDash).
  - discriminate.
  - apply (class_string_not_blank alnum s eq_refl H1 H2).
  - intros L HL. discriminate HL.
  - cbn [pattern_of_check]. by_body s. unfold _ALPHANUMERIC_DASH_PATTERN.
    apply class_plus; [intros ->; discriminate|].
    apply (forallb_weaken (in_class alnum)); [|exact H2].
    intros c Hc. rewrite in_class_app, Hc. reflexivity.
Qed.

(** [abc123] is accepted by both. *)
Lemma is_alphanumeric_ascii_witness :
  is_alphanumeric rt0 (PStr (py "abc123")) = Return true /\
  is_alphanumeric_with_dash (PStr (py "abc123")) = Return true.
Proof.
  destruct (is_alphanumeric_ascii rt0 (py "abc123") eq_refl) as [E H].
  split; [exact E | exact (H E)].
Defined.

(** What [is_alphanumeric] never accepts: a string with an ASCII character
    that is no letter and no digit, wherever it stands; so a dash, an
    underscore, a space, and also a newline at the end, which the checks
    with a pattern let pass. *)
Theorem is_alphanumeric_rejects (rt : runtime) (s : pystr) (c : char) :
  In c s -> is_ascii c = true -> in_class alnum c = false ->
  is_alphanumeric rt (PStr s) = Return false.
Proof.
  intros Hin Ha Hc. unfold is_alphanumeric. cbn [bind require_str].
  destruct (blank s); [reflexivity|]. f_equal.
  destruct s as [|d s]; [contradiction|]. unfold isalnum.
  apply not_true_is_false. intro H. rewrite forallb_forall in H.
  specialize (H c Hin). rewrite Ha, ascii_isalnum_class, Hc in H. discriminate.
Qed.

(** [abc123] with a newline at its end: rejected, while
    [is_alphanumeric_with_dash] accepts it. *)
Lemma is_alphanumeric_rejects_witness :
  is_alphanumeric rt0 (PStr (py "abc123" ++ [LF])) = Return false /\
  is_alphanumeric_with_dash (PStr (py "abc123" ++ [LF])) = Return true.
Proof.
  split; [|reflexivity].
  apply (is_alphanumeric_rejects rt0 (py "abc123" ++ [LF]) LF);
    [vm_compute; tauto | reflexivity | reflexivity].
Defined.

(** ** Further properties: the separator after the base *)

Lemma split_no_sep (s : pystr) :
  Forall (fun w => ~ In PosixPath.sep w) (PosixPath.split s).
Proof.
  induction s as [|c s IH]; cbn [PosixPath.split].
  - constructor; [intros [] | constructor].
  - destruct (c =? PosixPath.sep) eqn:E.
    + constructor; [intros [] | exact IH].
    + apply N.eqb_neq in E. destruct (PosixPath.split s) as [|w ws].
      * constructor; [|constructor]. intros [H|[]]. congruence.
      * inversion IH as [|? ? Hw Hws]; subst. constructor; [|exact Hws].
        intros [H|H]; [congruence | contradiction].
Qed.

Lemma Forall_removelast {A} (P : A -> Prop) (l : list A) :
  Forall P l -> Forall P (removelast l).
Proof.
  induction 1 as [|x l Hx Hl IH]; [constructor|].
  cbn [removelast]. destruct l; [constructor | now constructor].
Qed.

Lemma norm_step_clean (n : nat) (comps : list pystr) (comp : pystr) :
  Forall (fun w => w <> [] /\ ~ In PosixPath.sep w) comps ->
  ~ In PosixPath.sep comp ->
  Forall (fun w => w <> [] /\ ~ In PosixPath.sep w) (PosixPath.norm_step n comps comp).
Proof.
  intros Hc Hs. unfold PosixPath.norm_step.
  destruct (str_eqb comp [] || str_eqb comp PosixPath.dot) eqn:E; [exact Hc|].
  apply orb_false_iff in E as [E _].
  assert (Hne : comp <> []) by (intros ->; discriminate E).
  match goal with |- Forall _ (if ?b then _ else _) => destruct b end.
  - apply Forall_app. split; [exact Hc | now repeat constructor].
  - now apply Forall_removelast.
Qed.

Lemma fold_norm_step_clean (n : nat) (l : list pystr) : forall acc,
  Forall (fun w => w <> [] /\ ~ In PosixPath.sep w) acc ->
  Forall (fun w => ~ In PosixPath.sep w) l ->
  Forall (fun w => w <> [] /\ ~ In PosixPath.sep w)
    (fold_left (PosixPath.norm_step n) l acc).
Proof.
  induction l as [|w l IH]; intros acc Ha Hl; [exact Ha|].
  inversion Hl; subst. cbn [fold_left]. apply IH; [|assumption].
  now apply norm_step_clean.
Qed.

Lemma join_sep_last (comps : list pystr) :
  Forall (fun w => w <> [] /\ ~ In PosixPath.sep w) comps -> comps <> [] ->
  exists init d, PosixPath.join_sep comps = init ++ [d] /\ d <> PosixPath.sep.
Proof.
  induction 1 as [|w ws [Hne Hs] Hws IH]; intro Hn; [now elim Hn|].
  destruct ws as [|w2 ws].
  - destruct (exists_last Hne) as (init & d & ->). exists init, d.
    split; [reflexivity|]. intros ->. apply Hs. apply in_or_app. right. now left.
  - destruct IH as (init & d & E & Hd); [discriminate|].
    exists (w ++ [PosixPath.sep] ++ init), d. split; [|exact Hd].
    change (PosixPath.join_sep (w :: w2 :: ws))
      with (w ++ [PosixPath.sep] ++ PosixPath.join_sep (w2 :: ws)).
    rewrite E, <- !app_assoc. reflexivity.
Qed.

Lemma endswith_last (x d : char) (init : pystr) :
  endswith [x] (init ++ [d]) = (x =? d).
Proof.
  unfold endswith. rewrite rev_app_distr. cbn [rev app startswith].
  apply andb_true_r.
Qed.

(** [normpath] leaves no separator at the end, but for the root. *)
Lemma normpath_trailing_sep (path : pystr) :
  endswith [PosixPath.sep] (PosixPath.normpath path) = true ->
  PosixPath.normpath path = [PosixPath.sep] \/
  PosixPath.normpath path = [PosixPath.sep; PosixPath.sep].
Proof.
  unfold PosixPath.normpath. destruct (is_empty path); [discriminate|].
  cbv zeta.
  set (n := if startswith [PosixPath.sep] path
            then if startswith [PosixPath.sep; PosixPath.sep] path
                    && negb (startswith [PosixPath.sep; PosixPath.sep; PosixPath.sep] path)
                 then 2%nat else 1%nat
            else 0%nat).
  assert (Hn : n = 0%nat \/ n = 1%nat \/ n = 2%nat).
  { unfold n. destruct (startswith [PosixPath.sep] path); [|tauto].
    destruct (_ && _); tauto. }
  remember (fold_left (PosixPath.norm_step n) (PosixPath.split path) []) as comps eqn:Ec.
  assert (Hc : Forall (fun w => w <> [] /\ ~ In PosixPath.sep w) comps).
  { subst comps. apply fold_norm_step_clean; [constructor | apply split_no_sep]. }
  clear Ec. destruct comps as [|w ws].
  - cbn [PosixPath.join_sep]. rewrite app_nil_r.
    destruct Hn as [-> | [-> | ->]]; cbn; intro; tauto || discriminate.
  - destruct (join_sep_last (w :: ws) Hc) as (init & d & -> & Hd); [discriminate|].
    rewrite app_assoc.
    assert (Hne : is_empty ((repeat PosixPath.sep n ++ init) ++ [d]) = false)
      by (destruct (repeat PosixPath.sep n ++ init); reflexivity).
    rewrite Hne, endswith_last. intro H. apply N.eqb_eq in H. congruence.
Qed.

Lemma absolute_form_normpath (rt : runtime) (p full : pystr) :
  absolute_form rt p = Return full -> exists x, full = PosixPath.normpath x.
Proof.
  unfold absolute_form, PosixPath.abspath.
  destruct (PosixPath.expanduser rt p) as [e|?]; cbn [bind]; [|discriminate].
  destruct (PosixPath.isabs e).
  - intro H. injection H as <-. now exists e.
  - destruct (os_getcwd rt) as [cwd|?]; cbn [bind]; [|discriminate].
    intro H. injection H as <-. now eexists.
Qed.

(** Where the separator is appended: the absolute form of a base
    directory ends with a separator only when it is the root, [/] or [//];
    [is_within_directory] then compares with the base as it is, and for
    every other base with the base and a separator after it. *)
Theorem separator_appended_unless_root (rt : runtime) (p b full_path full_base : pystr) :
  absolute_form rt p = Return full_path ->
  absolute_form rt b = Return full_base ->
  ((full_base = [PosixPath.sep] \/ full_base = [PosixPath.sep; PosixPath.sep]) /\
   is_within_directory rt (PStr p) (PStr b) = Return (startswith full_base full_path))
  \/
  (endswith [PosixPath.sep] full_base = false /\
   is_within_directory rt (PStr p) (PStr b)
     = Return (startswith (full_base ++ [PosixPath.sep]) full_path)).
Proof.
  intros Hp Hb. rewrite (is_within_directory_forms rt p b _ _ Hp Hb).
  unfold with_trailing_sep.
  destruct (endswith [PosixPath.sep] full_base) eqn:E; [left | right; now split].
  split; [|reflexivity].
  destruct (absolute_form_normpath rt b full_base Hb) as (x & ->).
  now apply normpath_trailing_sep.
Qed.

(** The base [/var/app/] is compared as [/var/app/], its absolute form
    [/var/app] with the separator appended; the root is compared as it is. *)
Lemma separator_appended_unless_root_witness :
  is_within_directory rt0 (PStr (py "/var/app/data")) (PStr (py "/var/app/"))
    = Return (startswith (py "/var/app" ++ [PosixPath.sep]) (py "/var/app/data")) /\
  is_within_directory rt0 (PStr (py "/etc")) (PStr (py "/")) = Return true.
Proof.
  split.
  - destruct (separator_appended_unless_root rt0 (py "/var/app/data") (py "/var/app/")
                (py "/var/app/data") (py "/var/app") eq_refl eq_refl)
      as [[[H|H] _] | [_ H]]; [discriminate H | discriminate H | exact H].
  - destruct (separator_appended_unless_root rt0 (py "/etc") (py "/")
                (py "/etc") (py "/") eq_refl eq_refl)
      as [[_ H] | [H _]]; [exact H | discriminate H].
Defined.
